(** * privy-vue: the producer widget and the consumer composable

    A shallow embedding of [widget/PrivyWidget.tsx] (the React island that
    publishes the facade on [window]) and of [usePrivyWidget] (the Vue
    composable that discovers it), with the properties of the handshake,
    the wallet selection policy, the last-login policy and the EVM signer
    namespace.

    Conventions of the embedding.
    - A promise that settles is a [Result]: [Resolved a] or [Rejected e].
      What it rejects with is any value ([Thrown]): an object, known by its
      [code] and [message], or [null] / [undefined], which have no property.
    - An [async] function of the signer namespace is a computation in
      [Async]: it returns the requests it sent to the wallet provider, in
      order, and its [Result].  The provider is an oracle from requests to
      results.
    - The page is a [World]: the module state of [PrivyWidget.tsx], the refs
      of the one mounted [PrivyWidget], the [window] slots, [localStorage],
      the singleton state of [usePrivyWidget], and the trace of what the
      page observed.  A function that mutates takes a world and returns one.
    - A function that suspends ([init]) is cut at its [await]s: one
      definition per resumption.
    - Subscribers' callbacks are known by identity.  Calling one appends an
      event to the trace; the callbacks of the composable also run their
      body; any other callback returns normally and calls nothing back.
    - JS numbers that hold chain ids and error codes are integers ([Z]);
      the number [parseInt] returns is a double ([JsNumber]): an integer
      rounded to 53 significant bits, a zero with its sign, or an infinity.
    - A string is held as the UTF-8 bytes of its text. *)

From Stdlib Require Import ZArith String Ascii List Bool Lia.
From Stdlib Require HexString.
From stdpp Require Import base option list strings gmap.

Open Scope string_scope.
Open Scope list_scope.

(** ** JavaScript values *)

(** An [Error] object; provider errors carry a numeric [code]. *)
Record JsError := { code : option Z; message : string }.

(** [new Error(msg)] *)
Definition Error (msg : string) : JsError := {| code := None; message := msg |}.

(** What a [throw] throws and a promise rejects with.  Any value can be: an
    object with its [code] and [message] (a value without a numeric [code],
    a primitive included, has [code = None]), or [null] / [undefined], on
    which reading a property throws. *)
Inductive Thrown :=
| ThrownObject (e : JsError)
| ThrownNullish.

Coercion ThrownObject : JsError >-> Thrown.

(** The [TypeError] of [error.code] on [null] or [undefined] (the wording of
    the message is the engine's). *)
Definition cannotReadCode : JsError :=
  Error "Cannot read properties of null or undefined (reading 'code')".

Inductive Result (A : Type) : Type :=
| Resolved (a : A)
| Rejected (e : Thrown).
Arguments Resolved {A} a.
Arguments Rejected {A} e.

(** Truthiness of a string: only the empty string is falsy. *)
Definition truthy (s : string) : bool := negb (String.eqb s "").

(** Truthiness of [string | null | undefined]. *)
Definition truthy_opt (o : option string) : bool :=
  match o with
  | Some s => truthy s
  | None => false
  end.

(** [n.toString(16)] on an integer. *)
Definition toString16 (n : Z) : string :=
  match n with
  | Z0 => "0"
  | Zpos p => HexString.Raw.of_pos p ""
  | Zneg p => "-" +:+ HexString.Raw.of_pos p ""
  end.

(** A JS number as [parseInt] returns it: NaN, an integer that a double
    holds ([Num 0] is the positive zero), the negative zero, or an infinity. *)
Inductive JsNumber :=
| NaN
| Num (z : Z)
| NegZero
| Infinity (negative : bool).

(** The double nearest to the integer [n >= 0], ties to even: [n] keeps its
    53 leading bits. *)
Definition roundToDouble (n : Z) : Z :=
  let e := (Z.log2 n - 52)%Z in
  if (e <=? 0)%Z then n
  else
    let q := Z.shiftr n e in
    let r := Z.land n (Z.ones e) in
    let half := Z.shiftl 1 (e - 1) in
    let q := if (half <? r)%Z || ((r =? half)%Z && Z.odd q) then (q + 1)%Z else q in
    Z.shiftl q e.

(** The Number value of [sign * n] for an integer [n >= 0]. *)
Definition toNumber (negative : bool) (n : Z) : JsNumber :=
  let m := roundToDouble n in
  if (m =? 0)%Z then (if negative then NegZero else Num 0)
  else if (Z.shiftl 1 1024 <=? m)%Z then Infinity negative
  else Num (if negative then (- m)%Z else m).

(** The one-byte white space and line terminators: TAB, LF, VT, FF, CR, SP. *)
Definition isWhiteSpace (c : ascii) : bool :=
  match nat_of_ascii c with
  | 9 | 10 | 11 | 12 | 13 | 32 => true
  | _ => false
  end.

(** The white space of two bytes: U+00A0. *)
Definition isWhiteSpace2 (c d : ascii) : bool :=
  match nat_of_ascii c, nat_of_ascii d with
  | 194, 160 => true
  | _, _ => false
  end.

(** The white space and line terminators of three bytes: U+1680,
    U+2000..U+200A, U+2028, U+2029, U+202F, U+205F, U+3000, U+FEFF. *)
Definition isWhiteSpace3 (c d e : ascii) : bool :=
  match nat_of_ascii c, nat_of_ascii d, nat_of_ascii e with
  | 225, 154, 128 => true
  | 226, 128, n => (128 <=? n)%nat && (n <=? 138)%nat
                   || (n =? 168)%nat || (n =? 169)%nat || (n =? 175)%nat
  | 226, 129, 159 => true
  | 227, 128, 128 => true
  | 239, 187, 191 => true
  | _, _, _ => false
  end.

(** The first byte of a white space of two or three bytes. *)
Definition leadsWhiteSpace (c : ascii) : bool :=
  match nat_of_ascii c with
  | 194 | 225 | 226 | 227 | 239 => true
  | _ => false
  end.

Definition hexDigit (c : ascii) : option Z :=
  let n := Z.of_nat (nat_of_ascii c) in
  if (48 <=? n)%Z && (n <=? 57)%Z then Some (n - 48)%Z
  else if (97 <=? n)%Z && (n <=? 102)%Z then Some (n - 87)%Z
  else if (65 <=? n)%Z && (n <=? 70)%Z then Some (n - 55)%Z
  else None.

Fixpoint skipWhiteSpace (s : string) : string :=
  match s with
  | String c rest =>
      if isWhiteSpace c then skipWhiteSpace rest
      else if leadsWhiteSpace c then
        match rest with
        | String d rest2 =>
            if isWhiteSpace2 c d then skipWhiteSpace rest2
            else
              match rest2 with
              | String e rest3 => if isWhiteSpace3 c d e then skipWhiteSpace rest3 else s
              | EmptyString => s
              end
        | EmptyString => s
        end
      else s
  | EmptyString => s
  end.

(** The longest prefix of hex digits, accumulated from [acc]. *)
Fixpoint hexPrefix (s : string) (acc : option Z) : option Z :=
  match s with
  | String c rest =>
      match hexDigit c with
      | Some d => hexPrefix rest (Some (16 * default 0%Z acc + d)%Z)
      | None => acc
      end
  | EmptyString => acc
  end.

Definition stripHexMarker (s : string) : string :=
  match s with
  | String "0" (String "x" rest) => rest
  | String "0" (String "X" rest) => rest
  | _ => s
  end.

(** [parseInt(s, 16)]: leading white space, a sign, the marker, then the
    longest run of hex digits, as the double nearest to its value. *)
Definition parseInt16 (s : string) : JsNumber :=
  let s := skipWhiteSpace s in
  let '(negative, s) :=
    match s with
    | String "-" rest => (true, rest)
    | String "+" rest => (false, rest)
    | _ => (false, s)
    end in
  match hexPrefix (stripHexMarker s) None with
  | Some n => toNumber negative n
  | None => NaN
  end.

(** ** The wallet provider (EIP-1193) *)

Record AddChainParams := {
  ac_chainId : string;
  ac_chainName : string;
  ac_nativeCurrency : string * string * Z;   (* name, symbol, decimals *)
  ac_rpcUrls : list string;
  ac_blockExplorerUrls : list string
}.

Inductive Param :=
| PString (s : string)
| PChainId (chainId : string)                (* { chainId } *)
| PAddChain (p : AddChainParams).

Record Request := { method : string; params : list Param }.

Definition Provider : Type := Request -> Result string.

(** An [async] computation: the requests sent, and how it settled. *)
Definition Async (A : Type) : Type := (list Request * Result A)%type.

Definition resolve {A} (a : A) : Async A := ([], Resolved a).
Definition throw {A} (e : Thrown) : Async A := ([], Rejected e).

(** [await m] followed by the continuation [k]. *)
Definition await {A B} (m : Async A) (k : A -> Async B) : Async B :=
  match m with
  | (sent, Resolved a) => let '(sent', r) := k a in (sent ++ sent', r)
  | (sent, Rejected e) => (sent, Rejected e)
  end.

(** [try { m } catch (error) { handler error }] *)
Definition try_catch {A} (m : Async A) (handler : Thrown -> Async A) : Async A :=
  match m with
  | (sent, Rejected e) => let '(sent', r) := handler e in (sent ++ sent', r)
  | (sent, Resolved a) => (sent, Resolved a)
  end.

Notation "'let*' x ':=' m 'in' k" := (await m (fun x => k))
  (at level 10, x name, m at level 100, k at level 200).

(** Settling of a promise that sends nothing to the provider. *)
Definition settled {A} (r : Result A) : Async A := ([], r).

(** [provider.request(req)] *)
Definition request (provider : Provider) (req : Request) : Async string :=
  ([req], provider req).

(** ** Wallets *)

Module Wallet.
(** A connected wallet of the SDK's [useWallets()]. *)
Record t := {
  address : string;
  walletClientType : string;
  getEthereumProvider : Result Provider
}.
End Wallet.

Inductive ChainType := ethereum | solana.

Module WalletInfo.
Record t := {
  address : string;
  chainType : ChainType;
  walletClientType : string
}.
End WalletInfo.

(** [typedData: unknown]: a string, or an object known by its
    [JSON.stringify] image. *)
Inductive TypedData :=
| TDString (s : string)
| TDObject (json : string).

(** [w => w.walletClientType === 'privy'] *)
Definition isPrivy (w : Wallet.t) : bool :=
  String.eqb (Wallet.walletClientType w) "privy".

Definition arbitrumOne : AddChainParams := {|
  ac_chainId := "0xa4b1";
  ac_chainName := "Arbitrum One";
  ac_nativeCurrency := ("ETH", "ETH", 18%Z);
  ac_rpcUrls := ["https://arb1.arbitrum.io/rpc"];
  ac_blockExplorerUrls := ["https://arbiscan.io"]
|}.

Definition switchRequest (chainId : Z) : Request :=
  {| method := "wallet_switchEthereumChain";
     params := [PChainId ("0x" +:+ toString16 chainId)] |}.

Definition addArbitrumRequest : Request :=
  {| method := "wallet_addEthereumChain"; params := [PAddChain arbitrumOne] |}.

Definition secp256k1Request (hash : string) : Request :=
  {| method := "secp256k1_sign"; params := [PString hash] |}.

Definition noWalletError : JsError := Error "No EVM wallet available".

Definition notEmbeddedError : JsError :=
  Error "secp256k1_sign only works with Privy embedded wallets, not external wallets like MetaMask".

(** ** The signer callbacks of [PrivyWidget]

    Every callback reads [walletsRef.current]; it is the section variable. *)
Section Signers.
Variable currentWallets : list Wallet.t.

Definition getActiveWallet : option WalletInfo.t :=
  if (length currentWallets =? 0)%nat then None
  else
    let embedded := find isPrivy currentWallets in
    match (match embedded with Some w => Some w | None => currentWallets !! 0%nat end) with
    | Some active =>
        Some {| WalletInfo.address := Wallet.address active;
                WalletInfo.chainType := ethereum;
                WalletInfo.walletClientType := Wallet.walletClientType active |}
    | None => None
    end.

Definition getEvmWallet : option Wallet.t :=
  match find isPrivy currentWallets with
  | Some w => Some w
  | None => currentWallets !! 0%nat
  end.

Definition evmGetAddress : option string :=
  match getEvmWallet with
  | Some wallet =>
      if truthy (Wallet.address wallet) then Some (Wallet.address wallet) else None
  | None => None
  end.

Definition evmGetProvider : Async Provider :=
  match getEvmWallet with
  | None => throw noWalletError
  | Some wallet => settled (Wallet.getEthereumProvider wallet)
  end.

Definition evmSignMessage (message : string) : Async string :=
  match getEvmWallet with
  | None => throw noWalletError
  | Some wallet =>
      let* provider := settled (Wallet.getEthereumProvider wallet) in
      let* signature :=
        request provider
          {| method := "personal_sign";
             params := [PString message; PString (Wallet.address wallet)] |} in
      resolve signature
  end.

Definition evmSignTypedData (typedData : TypedData) : Async string :=
  match getEvmWallet with
  | None => throw noWalletError
  | Some wallet =>
      let* provider := settled (Wallet.getEthereumProvider wallet) in
      let* signature :=
        request provider
          {| method := "eth_signTypedData_v4";
             params := [PString (Wallet.address wallet);
                        PString (match typedData with
                                 | TDString s => s
                                 | TDObject json => json
                                 end)] |} in
      resolve signature
  end.

Definition evmGetChainId : Async (option JsNumber) :=
  match getEvmWallet with
  | None => resolve None
  | Some wallet =>
      let* provider := settled (Wallet.getEthereumProvider wallet) in
      let* chainId := request provider {| method := "eth_chainId"; params := [] |} in
      resolve (Some (parseInt16 chainId))
  end.

Definition evmSwitchChain (chainId : Z) : Async bool :=
  match getEvmWallet with
  | None => resolve false
  | Some wallet =>
      let* provider := settled (Wallet.getEthereumProvider wallet) in
      try_catch
        (let* _ := request provider (switchRequest chainId) in
         resolve true)
        (fun error =>
           match error with
           | ThrownNullish => throw cannotReadCode      (* [error.code] throws *)
           | ThrownObject error =>
               if bool_decide (code error = Some 4902%Z) && (chainId =? 42161)%Z then
                 try_catch
                   (let* _ := request provider addArbitrumRequest in
                    resolve true)
                   (fun _ => resolve false)
               else resolve false
           end)
  end.

Definition evmSecp256k1Sign (hash : string) : Async string :=
  match getEvmWallet with
  | None => throw noWalletError
  | Some wallet =>
      if negb (isPrivy wallet) then throw notEmbeddedError
      else
        let* provider := settled (Wallet.getEthereumProvider wallet) in
        let* signature := request provider (secp256k1Request hash) in
        resolve signature
  end.
End Signers.

(** ** The page: module state, component refs, window slots, consumer singleton *)

(** A subscriber of [onAuthChange], by identity.  [ConsumerAuthHandler n] is
    the arrow function that [init] of the [n]-th [usePrivyWidget] instance
    passes to [api.onAuthChange]. *)
Inductive AuthCallback :=
| ExternalAuthCallback (id : nat)
| ConsumerAuthHandler (instance : nat).

(** A subscriber of [onReady], by identity.  [SubscribeAuthWhenReady cb] is
    the arrow function [(api) => { api.onAuthChange(cb) }] that the
    composable's [onAuthChange] builds. *)
Inductive ReadyCallback :=
| ExternalReadyCallback (id : nat)
| SubscribeAuthWhenReady (callback : AuthCallback).

#[global] Instance AuthCallback_eq_dec : EqDecision AuthCallback.
Proof. solve_decision. Defined.

#[global] Instance ReadyCallback_eq_dec : EqDecision ReadyCallback.
Proof. solve_decision. Defined.

(** The facade object built by one run of the expose effect: its methods
    close over that render's [ready] and [authenticated]; everything else
    they reach through refs and module state. *)
Record PrivyWidgetAPI := { api_ready : bool; api_authenticated : bool }.

#[global] Instance PrivyWidgetAPI_eq_dec : EqDecision PrivyWidgetAPI.
Proof. solve_decision. Defined.

Inductive PromiseState :=
| Pending
| Fulfilled (api : PrivyWidgetAPI).

(** What the page can observe, in order. *)
Inductive Event :=
| ReadyResolved (api : PrivyWidgetAPI)                       (* readyResolve(api) *)
| ReadyCallbackCalled (callback : ReadyCallback) (api : PrivyWidgetAPI)
| AuthCallbackCalled (callback : AuthCallback) (authenticated : bool)
| EventDispatched (name : string)                            (* window.dispatchEvent *)
| LoginCalled
| LogoutCalled
| ExportWalletCalled
| ConsoleLog (msg : string)
| ConsoleError (msg : string).

(** The closure returned by a subscription. *)
Inductive Unsubscribe :=
| UnsubscribeAuth (callback : AuthCallback)     (* authCallbacksRef.current.delete(callback) *)
| UnsubscribeReady (callback : ReadyCallback)   (* onReadyCallbacksRef.current.delete(callback) *)
| NoOp.                                         (* () => {} *)

Record World := {
  (* module state of PrivyWidget.tsx *)
  readyResolve : bool;                          (* readyResolve !== null *)
  readyPromise : option PromiseState;           (* the same object as window.PrivyWidgetReady *)
  hasDispatchedReady : bool;
  (* refs of the mounted PrivyWidget *)
  authCallbacksRef : list AuthCallback;
  onReadyCallbacksRef : list ReadyCallback;
  walletsRef : list Wallet.t;
  hasCheckedLastLogin : bool;
  lastDeps : option (bool * bool);              (* ready, authenticated at the previous commit *)
  (* the page *)
  window_PrivyWidget : option PrivyWidgetAPI;
  localStorage : gmap string string;
  (* singleton state of usePrivyWidget *)
  globalApi : option PrivyWidgetAPI;
  globalIsReady : bool;
  globalIsConnected : bool;
  globalWallet : option WalletInfo.t;
  initialized : bool;
  (* observable history *)
  trace : list Event
}.

Definition set_readyResolve (v : bool) (w : World) : World :=
  {| readyResolve := v; readyPromise := readyPromise w;
     hasDispatchedReady := hasDispatchedReady w; authCallbacksRef := authCallbacksRef w;
     onReadyCallbacksRef := onReadyCallbacksRef w; walletsRef := walletsRef w;
     hasCheckedLastLogin := hasCheckedLastLogin w; lastDeps := lastDeps w;
     window_PrivyWidget := window_PrivyWidget w; localStorage := localStorage w;
     globalApi := globalApi w; globalIsReady := globalIsReady w;
     globalIsConnected := globalIsConnected w; globalWallet := globalWallet w;
     initialized := initialized w; trace := trace w |}.
Definition set_readyPromise (v : option PromiseState) (w : World) : World :=
  {| readyResolve := readyResolve w; readyPromise := v;
     hasDispatchedReady := hasDispatchedReady w; authCallbacksRef := authCallbacksRef w;
     onReadyCallbacksRef := onReadyCallbacksRef w; walletsRef := walletsRef w;
     hasCheckedLastLogin := hasCheckedLastLogin w; lastDeps := lastDeps w;
     window_PrivyWidget := window_PrivyWidget w; localStorage := localStorage w;
     globalApi := globalApi w; globalIsReady := globalIsReady w;
     globalIsConnected := globalIsConnected w; globalWallet := globalWallet w;
     initialized := initialized w; trace := trace w |}.
Definition set_hasDispatchedReady (v : bool) (w : World) : World :=
  {| readyResolve := readyResolve w; readyPromise := readyPromise w;
     hasDispatchedReady := v; authCallbacksRef := authCallbacksRef w;
     onReadyCallbacksRef := onReadyCallbacksRef w; walletsRef := walletsRef w;
     hasCheckedLastLogin := hasCheckedLastLogin w; lastDeps := lastDeps w;
     window_PrivyWidget := window_PrivyWidget w; localStorage := localStorage w;
     globalApi := globalApi w; globalIsReady := globalIsReady w;
     globalIsConnected := globalIsConnected w; globalWallet := globalWallet w;
     initialized := initialized w; trace := trace w |}.
Definition set_authCallbacksRef (v : list AuthCallback) (w : World) : World :=
  {| readyResolve := readyResolve w; readyPromise := readyPromise w;
     hasDispatchedReady := hasDispatchedReady w; authCallbacksRef := v;
     onReadyCallbacksRef := onReadyCallbacksRef w; walletsRef := walletsRef w;
     hasCheckedLastLogin := hasCheckedLastLogin w; lastDeps := lastDeps w;
     window_PrivyWidget := window_PrivyWidget w; localStorage := localStorage w;
     globalApi := globalApi w; globalIsReady := globalIsReady w;
     globalIsConnected := globalIsConnected w; globalWallet := globalWallet w;
     initialized := initialized w; trace := trace w |}.
Definition set_onReadyCallbacksRef (v : list ReadyCallback) (w : World) : World :=
  {| readyResolve := readyResolve w; readyPromise := readyPromise w;
     hasDispatchedReady := hasDispatchedReady w; authCallbacksRef := authCallbacksRef w;
     onReadyCallbacksRef := v; walletsRef := walletsRef w;
     hasCheckedLastLogin := hasCheckedLastLogin w; lastDeps := lastDeps w;
     window_PrivyWidget := window_PrivyWidget w; localStorage := localStorage w;
     globalApi := globalApi w; globalIsReady := globalIsReady w;
     globalIsConnected := globalIsConnected w; globalWallet := globalWallet w;
     initialized := initialized w; trace := trace w |}.
Definition set_walletsRef (v : list Wallet.t) (w : World) : World :=
  {| readyResolve := readyResolve w; readyPromise := readyPromise w;
     hasDispatchedReady := hasDispatchedReady w; authCallbacksRef := authCallbacksRef w;
     onReadyCallbacksRef := onReadyCallbacksRef w; walletsRef := v;
     hasCheckedLastLogin := hasCheckedLastLogin w; lastDeps := lastDeps w;
     window_PrivyWidget := window_PrivyWidget w; localStorage := localStorage w;
     globalApi := globalApi w; globalIsReady := globalIsReady w;
     globalIsConnected := globalIsConnected w; globalWallet := globalWallet w;
     initialized := initialized w; trace := trace w |}.
Definition set_hasCheckedLastLogin (v : bool) (w : World) : World :=
  {| readyResolve := readyResolve w; readyPromise := readyPromise w;
     hasDispatchedReady := hasDispatchedReady w; authCallbacksRef := authCallbacksRef w;
     onReadyCallbacksRef := onReadyCallbacksRef w; walletsRef := walletsRef w;
     hasCheckedLastLogin := v; lastDeps := lastDeps w;
     window_PrivyWidget := window_PrivyWidget w; localStorage := localStorage w;
     globalApi := globalApi w; globalIsReady := globalIsReady w;
     globalIsConnected := globalIsConnected w; globalWallet := globalWallet w;
     initialized := initialized w; trace := trace w |}.
Definition set_lastDeps (v : option (bool * bool)) (w : World) : World :=
  {| readyResolve := readyResolve w; readyPromise := readyPromise w;
     hasDispatchedReady := hasDispatchedReady w; authCallbacksRef := authCallbacksRef w;
     onReadyCallbacksRef := onReadyCallbacksRef w; walletsRef := walletsRef w;
     hasCheckedLastLogin := hasCheckedLastLogin w; lastDeps := v;
     window_PrivyWidget := window_PrivyWidget w; localStorage := localStorage w;
     globalApi := globalApi w; globalIsReady := globalIsReady w;
     globalIsConnected := globalIsConnected w; globalWallet := globalWallet w;
     initialized := initialized w; trace := trace w |}.
Definition set_window_PrivyWidget (v : option PrivyWidgetAPI) (w : World) : World :=
  {| readyResolve := readyResolve w; readyPromise := readyPromise w;
     hasDispatchedReady := hasDispatchedReady w; authCallbacksRef := authCallbacksRef w;
     onReadyCallbacksRef := onReadyCallbacksRef w; walletsRef := walletsRef w;
     hasCheckedLastLogin := hasCheckedLastLogin w; lastDeps := lastDeps w;
     window_PrivyWidget := v; localStorage := localStorage w; globalApi := globalApi w;
     globalIsReady := globalIsReady w; globalIsConnected := globalIsConnected w;
     globalWallet := globalWallet w; initialized := initialized w; trace := trace w |}.
Definition set_localStorage (v : gmap string string) (w : World) : World :=
  {| readyResolve := readyResolve w; readyPromise := readyPromise w;
     hasDispatchedReady := hasDispatchedReady w; authCallbacksRef := authCallbacksRef w;
     onReadyCallbacksRef := onReadyCallbacksRef w; walletsRef := walletsRef w;
     hasCheckedLastLogin := hasCheckedLastLogin w; lastDeps := lastDeps w;
     window_PrivyWidget := window_PrivyWidget w; localStorage := v;
     globalApi := globalApi w; globalIsReady := globalIsReady w;
     globalIsConnected := globalIsConnected w; globalWallet := globalWallet w;
     initialized := initialized w; trace := trace w |}.
Definition set_globalApi (v : option PrivyWidgetAPI) (w : World) : World :=
  {| readyResolve := readyResolve w; readyPromise := readyPromise w;
     hasDispatchedReady := hasDispatchedReady w; authCallbacksRef := authCallbacksRef w;
     onReadyCallbacksRef := onReadyCallbacksRef w; walletsRef := walletsRef w;
     hasCheckedLastLogin := hasCheckedLastLogin w; lastDeps := lastDeps w;
     window_PrivyWidget := window_PrivyWidget w; localStorage := localStorage w;
     globalApi := v; globalIsReady := globalIsReady w;
     globalIsConnected := globalIsConnected w; globalWallet := globalWallet w;
     initialized := initialized w; trace := trace w |}.
Definition set_globalIsReady (v : bool) (w : World) : World :=
  {| readyResolve := readyResolve w; readyPromise := readyPromise w;
     hasDispatchedReady := hasDispatchedReady w; authCallbacksRef := authCallbacksRef w;
     onReadyCallbacksRef := onReadyCallbacksRef w; walletsRef := walletsRef w;
     hasCheckedLastLogin := hasCheckedLastLogin w; lastDeps := lastDeps w;
     window_PrivyWidget := window_PrivyWidget w; localStorage := localStorage w;
     globalApi := globalApi w; globalIsReady := v;
     globalIsConnected := globalIsConnected w; globalWallet := globalWallet w;
     initialized := initialized w; trace := trace w |}.
Definition set_globalIsConnected (v : bool) (w : World) : World :=
  {| readyResolve := readyResolve w; readyPromise := readyPromise w;
     hasDispatchedReady := hasDispatchedReady w; authCallbacksRef := authCallbacksRef w;
     onReadyCallbacksRef := onReadyCallbacksRef w; walletsRef := walletsRef w;
     hasCheckedLastLogin := hasCheckedLastLogin w; lastDeps := lastDeps w;
     window_PrivyWidget := window_PrivyWidget w; localStorage := localStorage w;
     globalApi := globalApi w; globalIsReady := globalIsReady w; globalIsConnected := v;
     globalWallet := globalWallet w; initialized := initialized w; trace := trace w |}.
Definition set_globalWallet (v : option WalletInfo.t) (w : World) : World :=
  {| readyResolve := readyResolve w; readyPromise := readyPromise w;
     hasDispatchedReady := hasDispatchedReady w; authCallbacksRef := authCallbacksRef w;
     onReadyCallbacksRef := onReadyCallbacksRef w; walletsRef := walletsRef w;
     hasCheckedLastLogin := hasCheckedLastLogin w; lastDeps := lastDeps w;
     window_PrivyWidget := window_PrivyWidget w; localStorage := localStorage w;
     globalApi := globalApi w; globalIsReady := globalIsReady w;
     globalIsConnected := globalIsConnected w; globalWallet := v;
     initialized := initialized w; trace := trace w |}.
Definition set_initialized (v : bool) (w : World) : World :=
  {| readyResolve := readyResolve w; readyPromise := readyPromise w;
     hasDispatchedReady := hasDispatchedReady w; authCallbacksRef := authCallbacksRef w;
     onReadyCallbacksRef := onReadyCallbacksRef w; walletsRef := walletsRef w;
     hasCheckedLastLogin := hasCheckedLastLogin w; lastDeps := lastDeps w;
     window_PrivyWidget := window_PrivyWidget w; localStorage := localStorage w;
     globalApi := globalApi w; globalIsReady := globalIsReady w;
     globalIsConnected := globalIsConnected w; globalWallet := globalWallet w;
     initialized := v; trace := trace w |}.
Definition set_trace (v : list Event) (w : World) : World :=
  {| readyResolve := readyResolve w; readyPromise := readyPromise w;
     hasDispatchedReady := hasDispatchedReady w; authCallbacksRef := authCallbacksRef w;
     onReadyCallbacksRef := onReadyCallbacksRef w; walletsRef := walletsRef w;
     hasCheckedLastLogin := hasCheckedLastLogin w; lastDeps := lastDeps w;
     window_PrivyWidget := window_PrivyWidget w; localStorage := localStorage w;
     globalApi := globalApi w; globalIsReady := globalIsReady w;
     globalIsConnected := globalIsConnected w; globalWallet := globalWallet w;
     initialized := initialized w; trace := v |}.

(** [window.PrivyWidgetReady] is assigned when the promise is created and
    never again. *)
Definition window_PrivyWidgetReady (w : World) : option PromiseState := readyPromise w.

(** A JS [Set] keeps insertion order and ignores a second [add]. *)
Definition Set_add {A} `{EqDecision A} (x : A) (s : list A) : list A :=
  if bool_decide (x ∈ s) then s else s ++ [x].

Definition Set_delete {A} `{EqDecision A} (x : A) (s : list A) : list A :=
  filter (fun y => y ≠ x) s.

Definition log (e : Event) (w : World) : World := set_trace (trace w ++ [e]) w.

Definition LAST_LOGIN_KEY : string := "privy-last-login-type".

(** A page before any script ran, with the storage left by earlier sessions. *)
Definition pageLoad (storage : gmap string string) : World :=
  {| readyResolve := false; readyPromise := None; hasDispatchedReady := false;
     authCallbacksRef := []; onReadyCallbacksRef := []; walletsRef := [];
     hasCheckedLastLogin := false; lastDeps := None;
     window_PrivyWidget := None; localStorage := storage;
     globalApi := None; globalIsReady := false; globalIsConnected := false;
     globalWallet := None; initialized := false; trace := [] |}.

Definition getOrCreateReadyPromise (w : World) : World :=
  match readyPromise w with
  | None => set_readyResolve true (set_readyPromise (Some Pending) w)
  | Some _ => w
  end.

(** The island bundle has been evaluated. *)
Definition islandLoaded (storage : gmap string string) : World :=
  getOrCreateReadyPromise (pageLoad storage).

(** ** The facade *)

(** The arrow function of [init]:
    [globalIsConnected.value = authenticated;
     globalWallet.value = authenticated ? api.getActiveWallet() : null]. *)
Definition authHandler (authenticated : bool) (w : World) : World :=
  let w := set_globalIsConnected authenticated w in
  set_globalWallet (if authenticated then getActiveWallet (walletsRef w) else None) w.

(** [callback(authenticated)] *)
Definition callAuthCallback (callback : AuthCallback) (authenticated : bool) (w : World) : World :=
  let w := log (AuthCallbackCalled callback authenticated) w in
  match callback with
  | ExternalAuthCallback _ => w
  | ConsumerAuthHandler _ => authHandler authenticated w
  end.

Definition api_onAuthChange (api : PrivyWidgetAPI) (callback : AuthCallback) (w : World)
  : World * Unsubscribe :=
  let w := set_authCallbacksRef (Set_add callback (authCallbacksRef w)) w in
  let w := callAuthCallback callback (api_authenticated api) w in
  (w, UnsubscribeAuth callback).

(** [callback(api)] *)
Definition callReadyCallback (callback : ReadyCallback) (api : PrivyWidgetAPI) (w : World) : World :=
  let w := log (ReadyCallbackCalled callback api) w in
  match callback with
  | ExternalReadyCallback _ => w
  | SubscribeAuthWhenReady cb => fst (api_onAuthChange api cb w)
  end.

Definition api_onReady (api : PrivyWidgetAPI) (callback : ReadyCallback) (w : World)
  : World * Unsubscribe :=
  let w :=
    if api_ready api then callReadyCallback callback api w
    else set_onReadyCallbacksRef (Set_add callback (onReadyCallbacksRef w)) w in
  (w, UnsubscribeReady callback).

Definition runUnsubscribe (u : Unsubscribe) (w : World) : World :=
  match u with
  | UnsubscribeAuth callback => set_authCallbacksRef (Set_delete callback (authCallbacksRef w)) w
  | UnsubscribeReady callback =>
      set_onReadyCallbacksRef (Set_delete callback (onReadyCallbacksRef w)) w
  | NoOp => w
  end.

(** [login: async () => { login() }] *)
Definition api_login (w : World) : World * Result unit := (log LoginCalled w, Resolved tt).

(** [logout: async () => { await logout() }]; [sdk] is how the SDK's promise settles. *)
Definition api_logout (sdk : Result unit) (w : World) : World * Result unit :=
  (log LogoutCalled w, sdk).

Definition api_exportWallet (sdk : Result unit) (w : World) : World * Result unit :=
  (log ExportWalletCalled w, sdk).

Definition api_getActiveWallet (w : World) : option WalletInfo.t := getActiveWallet (walletsRef w).

(** ** The effects of [PrivyWidget] *)

Record PrivyWidgetConfig := {
  landingHeader : option string;
  loginMessage : option string;
  externalWallets : option bool;
  lastLoginOnly : option bool
}.

(** [config?.lastLoginOnly] as a condition. *)
Definition config_lastLoginOnly (config : option PrivyWidgetConfig) : bool :=
  match config with
  | Some c => default false (lastLoginOnly c)
  | None => false
  end.

Definition setItem (key value : string) (w : World) : World :=
  set_localStorage (<[key := value]> (localStorage w)) w.

Definition effect_lastLoginOnly (config : option PrivyWidgetConfig)
    (ready authenticated : bool) (wallets : list Wallet.t) (w : World) : World :=
  if negb (config_lastLoginOnly config) then w
  else if negb ready || negb authenticated || (length wallets =? 0)%nat then w
  else if hasCheckedLastLogin w then w
  else
    let w := set_hasCheckedLastLogin true w in
    let lastType := localStorage w !! LAST_LOGIN_KEY in
    let currentType := Wallet.walletClientType <$> wallets !! 0%nat in
    if truthy_opt lastType && truthy_opt currentType
       && negb (bool_decide (lastType = currentType))
    then
      let w := log (ConsoleLog ("[Privy] Last login was " +:+ default "" lastType
                                +:+ ", but got " +:+ default "" currentType
                                +:+ ". Logging out.")) w in
      log LogoutCalled w
    else
      match currentType with
      | Some t => if truthy t then setItem LAST_LOGIN_KEY t w else w
      | None => w
      end.

Definition effect_saveLoginType (config : option PrivyWidgetConfig)
    (authenticated : bool) (wallets : list Wallet.t) (w : World) : World :=
  if config_lastLoginOnly config then w
  else if negb authenticated || (length wallets =? 0)%nat then w
  else
    match Wallet.walletClientType <$> wallets !! 0%nat with
    | Some t => if truthy t then setItem LAST_LOGIN_KEY t w else w
    | None => w
    end.

(** [readyResolve(api)]: a pending promise takes the value; a settled one keeps its own. *)
Definition resolveReady (api : PrivyWidgetAPI) (w : World) : World :=
  let w :=
    match readyPromise w with
    | Some Pending => set_readyPromise (Some (Fulfilled api)) w
    | _ => w
    end in
  log (ReadyResolved api) w.

Definition effect_exposeApi (ready authenticated : bool) (w : World) : World :=
  let api := {| api_ready := ready; api_authenticated := authenticated |} in
  let w := set_window_PrivyWidget (Some api) w in
  if ready && negb (hasDispatchedReady w) then
    let w := set_hasDispatchedReady true w in
    let w := if readyResolve w then set_readyResolve false (resolveReady api w) else w in
    let w := foldl (fun w cb => callReadyCallback cb api w) w (onReadyCallbacksRef w) in
    let w := set_onReadyCallbacksRef [] w in
    log (EventDispatched "privy-ready") w
  else w.

(** The cleanup of the expose effect: [delete window.PrivyWidget]. *)
Definition cleanup_exposeApi (w : World) : World := set_window_PrivyWidget None w.

Definition effect_notifyAuth (authenticated : bool) (w : World) : World :=
  foldl (fun w cb => callAuthCallback cb authenticated w) w (authCallbacksRef w).

(** What the SDK hooks return at one render.  [newWallets = None] when
    [useWallets()] returned the array object of the previous render;
    [newActions] when [login], [logout] or [exportWallet] is a new function. *)
Record RenderInput := {
  ready : bool;
  authenticated : bool;
  newWallets : option (list Wallet.t);
  newActions : bool
}.

(** The wallet list [PrivyWidget] sees at a render. *)
Definition renderWallets (i : RenderInput) (w : World) : list Wallet.t :=
  default (walletsRef w) (newWallets i).

(** [useEffect(effect, deps)] at a commit: the effect runs when a dependency
    changed since the previous commit, and at mount. *)
Definition useEffect (depsChanged : bool) (effect : World -> World) (w : World) : World :=
  if depsChanged then effect w else w.

(** One commit of [PrivyWidget]: the body, then the cleanup and the effects
    whose dependencies changed, in source order. *)
Definition render (config : option PrivyWidgetConfig) (i : RenderInput) (w : World) : World :=
  let wallets := renderWallets i w in
  let mount := bool_decide (lastDeps w = None) in
  let readyChanged := mount || negb (bool_decide (fst <$> lastDeps w = Some (ready i))) in
  let authChanged := mount || negb (bool_decide (snd <$> lastDeps w = Some (authenticated i))) in
  let walletsChanged := mount || bool_decide (is_Some (newWallets i)) in
  let actionsChanged := mount || newActions i in
  let exposeChanged := readyChanged || authChanged || actionsChanged in
  let w := set_walletsRef wallets w in
  let w := useEffect (exposeChanged && negb mount) cleanup_exposeApi w in
  let w :=
    useEffect (readyChanged || authChanged || walletsChanged || actionsChanged)
      (effect_lastLoginOnly config (ready i) (authenticated i) wallets) w in
  let w :=
    useEffect (authChanged || walletsChanged)
      (effect_saveLoginType config (authenticated i) wallets) w in
  let w := useEffect exposeChanged (effect_exposeApi (ready i) (authenticated i)) w in
  let w := useEffect (authChanged || walletsChanged) (effect_notifyAuth (authenticated i)) w in
  set_lastDeps (Some (ready i, authenticated i)) w.

(** What can happen on the page between two moments. *)
Inductive Action :=
| Render (i : RenderInput)
| CallOnReady (api : PrivyWidgetAPI) (callback : ReadyCallback)
| CallOnAuthChange (api : PrivyWidgetAPI) (callback : AuthCallback)
| CallUnsubscribe (u : Unsubscribe).

Definition step (config : option PrivyWidgetConfig) (a : Action) (w : World) : World :=
  match a with
  | Render i => render config i w
  | CallOnReady api callback => fst (api_onReady api callback w)
  | CallOnAuthChange api callback => fst (api_onAuthChange api callback w)
  | CallUnsubscribe u => runUnsubscribe u w
  end.

Definition run (config : option PrivyWidgetConfig) (actions : list Action) (w : World) : World :=
  foldl (fun w a => step config a w) w actions.

(** ** The consumer: [usePrivyWidget] (in a browser, where [window] exists) *)

Module usePrivyWidget.

Definition notReadyError : JsError := Error "Privy widget not ready".

Definition notFoundMessage : string :=
  "[privy-vue] PrivyWidgetReady promise not found. Is privy-island script loaded?".

(** The computed projections. *)
Definition isReady (w : World) : bool := globalIsReady w.
Definition isConnected (w : World) : bool := globalIsConnected w.
Definition wallet (w : World) : option WalletInfo.t := globalWallet w.
Definition address (w : World) : option string := WalletInfo.address <$> globalWallet w.
Definition walletType (w : World) : option string :=
  WalletInfo.walletClientType <$> globalWallet w.
Definition isEmbeddedWallet (w : World) : bool :=
  bool_decide (WalletInfo.walletClientType <$> globalWallet w = Some "privy").

(** Where [init] stands when it gives control back to the event loop. *)
Inductive InitStatus :=
| Returned
| Sleeping (ms : nat) (attempts : nat)    (* await new Promise(r => setTimeout(r, ms)) *)
| AwaitingReady.                          (* await window.PrivyWidgetReady *)

(** The test of the [while] at [attempts], and what follows the loop. *)
Definition init_loop (attempts : nat) (w : World) : World * InitStatus :=
  if negb (bool_decide (is_Some (window_PrivyWidgetReady w))) && (attempts <? 100)%nat
  then (w, Sleeping 50 attempts)
  else if negb (bool_decide (is_Some (window_PrivyWidgetReady w)))
  then (log (ConsoleError notFoundMessage) w, Returned)
  else (w, AwaitingReady).

Definition init (w : World) : World * InitStatus :=
  if initialized w && bool_decide (is_Some (globalApi w)) then (w, Returned)
  else init_loop 0 w.

(** The timer fired: [attempts++], then the test of the loop again. *)
Definition init_wake (attempts : nat) (w : World) : World * InitStatus :=
  init_loop (S attempts) w.

(** The readiness promise settled with [api]. *)
Definition init_resume (instance : nat) (api : option PrivyWidgetAPI) (w : World)
  : World * option Unsubscribe :=
  match api with
  | None => (w, None)
  | Some api =>
      let w := set_initialized true w in
      let w := set_globalApi (Some api) w in
      let w := set_globalIsReady true w in
      let '(w, unsubscribeAuth) := api_onAuthChange api (ConsumerAuthHandler instance) w in
      (w, Some unsubscribeAuth)
  end.

(** [init] from its call to the moment it returns or awaits the promise.
    [page k] is what the rest of the page does while [init] sleeps at
    [attempts = k]; the third component lists the delays slept, in ms. *)
Fixpoint init_poll (fuel : nat) (page : nat -> World -> World) (slept : list nat)
    (s : World * InitStatus) : option (World * InitStatus * list nat) :=
  match s with
  | (w, Sleeping ms attempts) =>
      match fuel with
      | O => None
      | S fuel => init_poll fuel page (slept ++ [ms]) (init_wake attempts (page attempts w))
      end
  | (w, status) => Some (w, status, slept)
  end.

Definition init_run (fuel : nat) (page : nat -> World -> World) (w : World)
  : option (World * InitStatus * list nat) :=
  init_poll fuel page [] (init w).


(** The proxies. *)
Definition login (w : World) : World * Result unit :=
  match globalApi w with
  | None => (w, Rejected notReadyError)
  | Some _ => api_login w
  end.

Definition logout (sdk : Result unit) (w : World) : World * Result unit :=
  match globalApi w with
  | None => (w, Rejected notReadyError)
  | Some _ => api_logout sdk w
  end.

Definition exportWallet (sdk : Result unit) (w : World) : World * Result unit :=
  match globalApi w with
  | None => (w, Rejected notReadyError)
  | Some _ => api_exportWallet sdk w
  end.

Definition getActiveWallet (w : World) : option WalletInfo.t :=
  match globalApi w with
  | Some _ => api_getActiveWallet w
  | None => None
  end.

Definition evm_getAddress (w : World) : option string :=
  match globalApi w with
  | Some _ => evmGetAddress (walletsRef w)
  | None => None
  end.

Definition evm_signMessage (message : string) (w : World) : Async string :=
  match globalApi w with
  | None => throw notReadyError
  | Some _ => evmSignMessage (walletsRef w) message
  end.

Definition evm_signTypedData (typedData : TypedData) (w : World) : Async string :=
  match globalApi w with
  | None => throw notReadyError
  | Some _ => evmSignTypedData (walletsRef w) typedData
  end.

Definition evm_getChainId (w : World) : Async (option JsNumber) :=
  match globalApi w with
  | None => throw notReadyError
  | Some _ => evmGetChainId (walletsRef w)
  end.

Definition evm_switchChain (chainId : Z) (w : World) : Async bool :=
  match globalApi w with
  | None => throw notReadyError
  | Some _ => evmSwitchChain (walletsRef w) chainId
  end.

Definition evm_getProvider (w : World) : Async Provider :=
  match globalApi w with
  | None => throw notReadyError
  | Some _ => evmGetProvider (walletsRef w)
  end.

Definition evm_secp256k1Sign (hash : string) (w : World) : Async string :=
  match globalApi w with
  | None => throw notReadyError
  | Some _ => evmSecp256k1Sign (walletsRef w) hash
  end.

(** The subscription helpers. *)
Definition onReady (callback : ReadyCallback) (w : World) : World * Unsubscribe :=
  match globalApi w with
  | Some api => (callReadyCallback callback api w, NoOp)
  | None =>
      (* globalApi.value?.onReady(callback) ?? (() => {}) *)
      match globalApi w with
      | Some api => api_onReady api callback w
      | None => (w, NoOp)
      end
  end.

Definition onAuthChange (callback : AuthCallback) (w : World) : World * Unsubscribe :=
  match globalApi w with
  | None => onReady (SubscribeAuthWhenReady callback) w
  | Some api => api_onAuthChange api callback w
  end.

End usePrivyWidget.

(** * Vocabulary of the statements *)

(** The [WalletInfo] that describes a connected wallet. *)
Definition snapshot (active : Wallet.t) : WalletInfo.t :=
  {| WalletInfo.address := Wallet.address active;
     WalletInfo.chainType := ethereum;
     WalletInfo.walletClientType := Wallet.walletClientType active |}.

(** The active wallet of a list, in the words of the selection policy: the
    first embedded wallet (client type ['privy']) wherever it stands, and
    the first wallet when the list holds no embedded one. *)
Inductive activeWallet : list Wallet.t -> Wallet.t -> Prop :=
| activeEmbedded (pre : list Wallet.t) (e : Wallet.t) (post : list Wallet.t) :
    Forall (fun x => Wallet.walletClientType x <> "privy") pre ->
    Wallet.walletClientType e = "privy" ->
    activeWallet (pre ++ e :: post) e
| activeFirst (first : Wallet.t) (rest : list Wallet.t) :
    Forall (fun x => Wallet.walletClientType x <> "privy") (first :: rest) ->
    activeWallet (first :: rest) first.

(** The two signals of the handshake that a consumer can wait for. *)
Definition isDispatchSignal (e : Event) : bool :=
  match e with
  | ReadyResolved _ | EventDispatched _ => true
  | _ => false
  end.

(** The handshake signals together with the calls of ready callbacks. *)
Definition isReadySignal (e : Event) : bool :=
  match e with
  | ReadyResolved _ | ReadyCallbackCalled _ _ | EventDispatched _ => true
  | _ => false
  end.

Definition isLogoutCall (e : Event) : bool :=
  match e with
  | LogoutCalled => true
  | _ => false
  end.

Definition dispatchSignals (w : World) : list Event := List.filter isDispatchSignal (trace w).
Definition readySignals (w : World) : list Event := List.filter isReadySignal (trace w).
Definition logoutCalls (w : World) : nat := length (List.filter isLogoutCall (trace w)).

(** The calls of ready callbacks that [actions] make on their own account:
    [onReady] on a facade whose [ready()] is true calls the callback at
    once.  A render is not among them. *)
Definition immediateReadyCalls (actions : list Action) : list Event :=
  flat_map (fun a => match a with
                     | CallOnReady api callback =>
                         if api_ready api then [ReadyCallbackCalled callback api] else []
                     | _ => []
                     end) actions.

(** No render among [actions] had the provider's ready flag set. *)
Definition neverReady (actions : list Action) : bool :=
  forallb (fun a => match a with Render i => negb (ready i) | _ => true end) actions.

(** The render [i], committed in [w], sees a provider that is ready and
    authenticated, and at least one wallet. *)
Definition qualifies (i : RenderInput) (w : World) : bool :=
  ready i && authenticated i && negb (length (renderWallets i w) =? 0)%nat.

(** No render among [actions], run from [w], qualified. *)
Fixpoint neverQualified (config : option PrivyWidgetConfig) (actions : list Action)
    (w : World) : bool :=
  match actions with
  | [] => true
  | a :: rest =>
      match a with Render i => negb (qualifies i w) | _ => true end
      && neverQualified config rest (step config a w)
  end.

(** The client type of the first wallet that the render [i] sees in [w]. *)
Definition firstClientType (i : RenderInput) (w : World) : option string :=
  Wallet.walletClientType <$> renderWallets i w !! 0%nat.

(** What a consumer that awaits the readiness promise receives. *)
Definition readyPromiseValue (w : World) : option PrivyWidgetAPI :=
  match readyPromise w with
  | Some (Fulfilled api) => Some api
  | _ => None
  end.

(** *** Sample pages *)

(** A wallet whose provider does not know the requested chain and accepts
    to add one. *)
Definition unknownChainProvider : Provider :=
  fun req =>
    if String.eqb (method req) "wallet_switchEthereumChain"
    then Rejected {| code := Some 4902%Z; message := "Unrecognized chain ID" |}
    else Resolved "null".

Definition metamaskWallet : Wallet.t :=
  {| Wallet.address := "0x52908400098527886E0F7030069857D2E4169EE7";
     Wallet.walletClientType := "metamask";
     Wallet.getEthereumProvider := Resolved unknownChainProvider |}.

Definition privyWallet : Wallet.t :=
  {| Wallet.address := "0x8617E340B3D01FA5F11F306F4090FD50E238070D";
     Wallet.walletClientType := "privy";
     Wallet.getEthereumProvider := Resolved unknownChainProvider |}.

(** The provider of an embedded wallet: it signs raw hashes and serves no
    other method. *)
Definition rawSignature : string :=
  "0x9242685bf161793cc25603c231bc2f568eb630ea16aa137d2664ac80388256084f8ae3bd7535248d0bd448298cc2e2071e56992d0774dc340c368ae950852ada1c".

Definition rawSigner : Provider :=
  fun req =>
    if String.eqb (method req) "secp256k1_sign"
    then Resolved rawSignature
    else Rejected {| code := Some 4200%Z; message := "Unsupported method" |}.

(** A 32-byte digest, in hex. *)
Definition digest : string :=
  "0xa1de988600a42c4b4ab089b619297c17d53cffae5d5120d82d8a92d0bb3b78f2".

Definition embeddedWallet : Wallet.t :=
  {| Wallet.address := "0xfB6916095ca1df60bB79Ce92cE3Ea74c37c5d359";
     Wallet.walletClientType := "privy";
     Wallet.getEthereumProvider := Resolved rawSigner |}.



(** A wallet whose provider cannot be obtained. *)
Definition lockedWallet : Wallet.t :=
  {| Wallet.address := "0xde709f2102306220921060314715629080e2fb77";
     Wallet.walletClientType := "privy";
     Wallet.getEthereumProvider := Rejected (Error "wallet is locked") |}.

(** The configuration of the README: strict last-login mode. *)
Definition strictConfig : option PrivyWidgetConfig :=
  Some {| landingHeader := Some "Connect Wallet";
          loginMessage := Some "Connect your wallet to continue";
          externalWallets := Some true;
          lastLoginOnly := Some true |}.

(** The provider is ready, nobody is logged in. *)
Definition readyLoggedOut : RenderInput :=
  {| ready := true; authenticated := false; newWallets := Some []; newActions := false |}.

(** The user has logged in and the embedded wallet has arrived. *)
Definition readyLoggedIn : RenderInput :=
  {| ready := true; authenticated := true; newWallets := Some [privyWallet];
     newActions := false |}.

(** The user is logged in with the embedded wallet, and the wallet that the
    browser injects is listed before it. *)
Definition readyInjectedFirst : RenderInput :=
  {| ready := true; authenticated := true; newWallets := Some [metamaskWallet; privyWallet];
     newActions := false |}.

(** The facade that the first ready render of such a page builds. *)
Definition firstFacade : PrivyWidgetAPI := {| api_ready := true; api_authenticated := false |}.

(** A component subscribes through the composable before discovery; then the
    provider becomes ready, discovery completes, and the user logs in. *)
Definition earlySubscriber : World :=
  let w := islandLoaded ∅ in
  let w := fst (usePrivyWidget.onReady (ExternalReadyCallback 7) w) in
  let w := fst (usePrivyWidget.onAuthChange (ExternalAuthCallback 8) w) in
  let w := fst (usePrivyWidget.init w) in
  let w := render None readyLoggedOut w in
  let w := fst (usePrivyWidget.init_resume 0 (readyPromiseValue w) w) in
  render None readyLoggedIn w.

(** The provider becomes ready, discovery completes, and the user logs in. *)
Definition loggedInPage : World :=
  let w := islandLoaded ∅ in
  let w := fst (usePrivyWidget.init w) in
  let w := render None readyLoggedOut w in
  let w := fst (usePrivyWidget.init_resume 0 (readyPromiseValue w) w) in
  render None readyLoggedIn w.

(** A callback queued before the provider is ready; then, after the
    dispatch, two more renders and two late subscribers, one through the
    ready facade and one through a facade kept from before. *)
Definition beforeReady : list Action :=
  [CallOnReady {| api_ready := false; api_authenticated := false |} (ExternalReadyCallback 1);
   Render {| ready := false; authenticated := false; newWallets := Some [];
             newActions := false |}].

Definition afterReady : list Action :=
  [Render readyLoggedIn; CallOnReady firstFacade (ExternalReadyCallback 2);
   CallOnReady {| api_ready := false; api_authenticated := false |} (ExternalReadyCallback 3);
   Render readyLoggedOut].

(** *** Views of the state *)

(** The part of the state that guards and records the ready dispatch. *)
Definition dispatchView (w : World) : bool * option PromiseState * bool * list Event :=
  (readyResolve w, readyPromise w, hasDispatchedReady w, dispatchSignals w).

(** The ready queue and the ready signals seen so far. *)
Definition readyView (w : World) : list ReadyCallback * list Event :=
  (onReadyCallbacksRef w, readySignals w).

(** The part of the state that the last-login policy owns. *)
Definition loginView (w : World) : bool * gmap string string * nat :=
  (hasCheckedLastLogin w, localStorage w, logoutCalls w).

(** What a render remembers for the next one. *)
Definition depsView (w : World) : list Wallet.t * option (bool * bool) :=
  (walletsRef w, lastDeps w).

(** The events of one call [callback(api)] of a ready callback. *)
Definition readyCallbackEvents (api : PrivyWidgetAPI) (callback : ReadyCallback) : list Event :=
  ReadyCallbackCalled callback api ::
  match callback with
  | ExternalReadyCallback _ => []
  | SubscribeAuthWhenReady cb => [AuthCallbackCalled cb (api_authenticated api)]
  end.

(** A step that is not the first ready render. *)
Definition idleForDispatch (a : Action) (w : World) : bool :=
  match a with
  | Render i => negb (ready i && negb (hasDispatchedReady w))
  | _ => true
  end.

(** The previous render, if any, did not qualify. *)
Definition previousUnqualified (w : World) : Prop :=
  forall r a, lastDeps w = Some (r, a) ->
              r && a && negb (length (walletsRef w) =? 0)%nat = false.

(** A step that is not the first qualifying render. *)
Definition idleForLogin (a : Action) (w : World) : bool :=
  match a with
  | Render i => negb (qualifies i w) || hasCheckedLastLogin w
  | _ => true
  end.

(** * More of the code: vocabulary *)

(** A provider that reports the chain it was last asked to switch to, here
    [chainId], the way [switchChain] spells it. *)
Definition chainReporter (chainId : Z) : Provider :=
  fun req =>
    if String.eqb (method req) "eth_chainId"
    then Resolved ("0x" +:+ toString16 chainId)
    else Resolved "null".

Definition walletOn (chainId : Z) : Wallet.t :=
  {| Wallet.address := "0x27b1fdb04752bbc536007a920d24acb045561c26";
     Wallet.walletClientType := "metamask";
     Wallet.getEthereumProvider := Resolved (chainReporter chainId) |}.

(** Every action is a render. *)
Definition onlyRenders (actions : list Action) : bool :=
  forallb (fun a => match a with Render _ => true | _ => false end) actions.

(** A property of a registry that one more [add] keeps. *)
Definition closedUnderAdd {A} `{EqDecision A} (Q : list A -> Prop) : Prop :=
  forall x l, Q l -> Q (Set_add x l).

(** The shapes the policy's state can take on a page that started with
    [storage]: nothing checked, no logout, and in strict mode nothing
    written; or, in strict mode, checked with at most one logout, which
    excludes a write. *)
Definition policyState (storage : gmap string string) (strict : bool)
    (v : bool * gmap string string * nat) : Prop :=
  let '(checked, stored, logouts) := v in
  (forall k, k <> LAST_LOGIN_KEY -> stored !! k = storage !! k)
  /\ ((checked = false /\ logouts = 0%nat /\ (strict = true -> stored = storage))
      \/ (checked = true /\ strict = true
          /\ ((logouts = 1%nat /\ stored = storage) \/ logouts = 0%nat))).

(** The island script is evaluated while [init] sleeps at [attempts = j]. *)
Definition loadIslandAt (j : nat) : nat -> World -> World :=
  fun k v => if (k =? j)%nat then getOrCreateReadyPromise v else v.

(** ** The island's entry point: [widget/index.tsx] *)

(** What [root.render] is given: the props of [PrivyProvider] that depend on
    the page, and the [config] prop of [PrivyWidget]. *)
Record Root := {
  root_appId : string;
  root_landingHeader : string;
  root_loginMessage : string;
  root_walletList : list string;
  root_config : PrivyWidgetConfig
}.

(** The module variable [root] and the errors logged so far. *)
Record Island := { root : option Root; errors : list string }.

(** [{}] *)
Definition emptyConfig : PrivyWidgetConfig :=
  {| landingHeader := None; loginMessage := None; externalWallets := None;
     lastLoginOnly := None |}.

(** [mount(elementId)] on a page where [getElementById] finds the elements
    it is true of, and [window] holds [PRIVY_APP_ID] and [PRIVY_CONFIG]. *)
Definition mount (getElementById : string -> bool) (PRIVY_APP_ID : option string)
    (PRIVY_CONFIG : option PrivyWidgetConfig) (elementId : string) (s : Island) : Island :=
  if negb (getElementById elementId) then
    {| root := root s;
       errors := errors s ++ ["[Privy Island] Mount point #" +:+ elementId +:+ " not found"] |}
  else
    match PRIVY_APP_ID with
    | Some appId =>
        if truthy appId then
          let config := default emptyConfig PRIVY_CONFIG in
          let walletList :=
            if bool_decide (externalWallets config = Some false) then []
            else ["detected_wallets"; "metamask"; "wallet_connect"; "coinbase_wallet"] in
          {| root :=
               Some {| root_appId := appId;
                       root_landingHeader :=
                         (if truthy_opt (landingHeader config)
                          then default "" (landingHeader config) else "Connect Wallet");
                       root_loginMessage :=
                         (if truthy_opt (loginMessage config)
                          then default "" (loginMessage config)
                          else "Connect your wallet to continue");
                       root_walletList := walletList;
                       root_config := config |};
             errors := errors s |}
        else
          {| root := root s;
             errors := errors s ++ ["[Privy Island] PRIVY_APP_ID not set. Set window.__PRIVY_APP_ID__ before loading."] |}
    | None =>
        {| root := root s;
           errors := errors s ++ ["[Privy Island] PRIVY_APP_ID not set. Set window.__PRIVY_APP_ID__ before loading."] |}
    end.

Definition unmount (s : Island) : Island :=
  match root s with
  | Some _ => {| root := None; errors := errors s |}
  | None => s
  end.

(** * Properties *)

(** ** Wallet selection *)

Lemma isPrivy_true (x : Wallet.t) : isPrivy x = true <-> Wallet.walletClientType x = "privy".
Proof. unfold isPrivy. apply String.eqb_eq. Qed.

Lemma isPrivy_false (x : Wallet.t) : isPrivy x = false <-> Wallet.walletClientType x <> "privy".
Proof. unfold isPrivy. apply String.eqb_neq. Qed.

Lemma find_skips_prefix (pre : list Wallet.t) (e : Wallet.t) (post : list Wallet.t) :
  Forall (fun x => Wallet.walletClientType x <> "privy") pre ->
  find isPrivy (pre ++ e :: post) = find isPrivy (e :: post).
Proof.
  induction 1 as [|x pre Hx _ IH]; [reflexivity|].
  simpl. apply isPrivy_false in Hx. now rewrite Hx.
Qed.

Lemma find_no_privy (ws : list Wallet.t) :
  Forall (fun x => Wallet.walletClientType x <> "privy") ws -> find isPrivy ws = None.
Proof.
  induction 1 as [|x ws Hx _ IH]; [reflexivity|].
  simpl. apply isPrivy_false in Hx. now rewrite Hx.
Qed.

Lemma find_privy_first (ws : list Wallet.t) (e : Wallet.t) :
  find isPrivy ws = Some e ->
  exists pre post, ws = pre ++ e :: post
    /\ Forall (fun x => Wallet.walletClientType x <> "privy") pre
    /\ Wallet.walletClientType e = "privy".
Proof.
  induction ws as [|x ws IH]; simpl; [discriminate|].
  destruct (isPrivy x) eqn:Hx.
  - intros [= ->]. exists [], ws. repeat split; [constructor | now apply isPrivy_true].
  - intros H. destruct (IH H) as (pre & post & -> & Hpre & He).
    exists (x :: pre), post. repeat split; [|exact He].
    constructor; [now apply isPrivy_false | exact Hpre].
Qed.

Lemma find_privy_present (ws : list Wallet.t) (x : Wallet.t) :
  x ∈ ws -> Wallet.walletClientType x = "privy" -> exists e, find isPrivy ws = Some e.
Proof.
  intros Hin Hx. destruct (find isPrivy ws) as [e|] eqn:Hf; [now exists e|].
  apply list_elem_of_In in Hin.
  pose proof (find_none _ _ Hf _ Hin) as Hno.
  apply isPrivy_true in Hx. congruence.
Qed.

(** The wallet behind [getActiveWallet] is the one [getEvmWallet] picks. *)
Lemma getActiveWallet_getEvmWallet (ws : list Wallet.t) :
  getActiveWallet ws = snapshot <$> getEvmWallet ws.
Proof.
  unfold getActiveWallet, getEvmWallet.
  destruct ws as [|x ws]; [reflexivity|].
  cbn [length Nat.eqb]. destruct (find isPrivy (x :: ws)); reflexivity.
Qed.

Lemma getEvmWallet_None (ws : list Wallet.t) : getEvmWallet ws = None <-> ws = [].
Proof.
  unfold getEvmWallet. split.
  - destruct ws as [|x ws]; [reflexivity|].
    destruct (find isPrivy (x :: ws)); discriminate.
  - intros ->. reflexivity.
Qed.

(** C2. For every wallet list, [getActiveWallet] returns nothing when the
    list is empty; the snapshot of the embedded wallet (client type
    ['privy']) when the list holds one, wherever it stands; and the snapshot
    of the first wallet when the list holds none. *)
Theorem C2_getActiveWallet_policy (ws : list Wallet.t) :
  (ws = [] -> getActiveWallet ws = None)
  /\ (forall pre e post,
        ws = pre ++ e :: post ->
        Forall (fun x => Wallet.walletClientType x <> "privy") pre ->
        Wallet.walletClientType e = "privy" ->
        getActiveWallet ws = Some (snapshot e))
  /\ ((exists x, x ∈ ws /\ Wallet.walletClientType x = "privy") ->
      exists e, e ∈ ws /\ Wallet.walletClientType e = "privy"
                /\ getActiveWallet ws = Some (snapshot e))
  /\ (forall first rest,
        ws = first :: rest ->
        Forall (fun x => Wallet.walletClientType x <> "privy") ws ->
        getActiveWallet ws = Some (snapshot first)).
Proof.
  rewrite getActiveWallet_getEvmWallet. unfold getEvmWallet.
  split; [|split; [|split]].
  - intros ->. reflexivity.
  - intros pre e post -> Hpre He.
    rewrite find_skips_prefix by exact Hpre.
    simpl. apply isPrivy_true in He. now rewrite He.
  - intros (x & Hin & Hx).
    destruct (find_privy_present ws x Hin Hx) as [e Hf].
    destruct (find_privy_first ws e Hf) as (pre & post & Hws & _ & He).
    exists e. rewrite Hf. repeat split; [|exact He].
    rewrite Hws. apply list_elem_of_In, in_or_app. right. now left.
  - intros first rest -> Hall.
    rewrite find_no_privy by exact Hall. reflexivity.
Qed.

(** ** The EVM signer namespace *)

Example toString16_arbitrum : "0x" +:+ toString16 42161 = ac_chainId arbitrumOne.
Proof. reflexivity. Qed.

Example parseInt16_arbitrum : parseInt16 "0xa4b1" = Num 42161.
Proof. reflexivity. Qed.

Example parseInt16_not_hex : parseInt16 "zz" = NaN.
Proof. reflexivity. Qed.

(** The active wallet is the one the signer callbacks pick. *)
Lemma activeWallet_getEvmWallet (ws : list Wallet.t) (active : Wallet.t) :
  activeWallet ws active -> getEvmWallet ws = Some active.
Proof.
  intros [pre e post Hpre He | first rest Hall]; unfold getEvmWallet.
  - rewrite find_skips_prefix by exact Hpre.
    simpl. apply isPrivy_true in He. now rewrite He.
  - rewrite find_no_privy by exact Hall. reflexivity.
Qed.

(** Every list but the empty one has an active wallet. *)
Lemma activeWallet_exists (ws : list Wallet.t) :
  ws <> [] -> exists active, activeWallet ws active.
Proof.
  intros Hne. destruct (find isPrivy ws) as [e|] eqn:Hf.
  - destruct (find_privy_first ws e Hf) as (pre & post & -> & Hpre & He).
    exists e. now constructor.
  - destruct ws as [|first rest]; [contradiction|].
    exists first. constructor.
    apply Forall_forall. intros x Hx. apply isPrivy_false.
    apply (find_none _ _ Hf). now apply list_elem_of_In.
Qed.

(** C3. [secp256k1Sign] rejects with [noWalletError] when no wallet is
    connected.  Otherwise the list has an active wallet, the one whose
    snapshot [getActiveWallet] returns: the first embedded wallet wherever
    it stands, else the first wallet.  When its client type is not
    ['privy'] the call rejects with [notEmbeddedError] and sends nothing.
    When it is, the call sends the single request ['secp256k1_sign'] with
    the hash as given and settles as the provider settles it: with the
    provider's signature, untouched.  So whenever the call resolves, the
    active wallet is embedded and the value is its provider's answer to
    that request. *)
Theorem C3_secp256k1Sign (ws : list Wallet.t) (hash : string) :
  (ws = [] -> evmSecp256k1Sign ws hash = ([], Rejected noWalletError))
  /\ (ws <> [] -> exists active, activeWallet ws active)
  /\ (forall active,
        activeWallet ws active ->
        getActiveWallet ws = Some (snapshot active)
        /\ (Wallet.walletClientType active <> "privy" ->
            evmSecp256k1Sign ws hash = ([], Rejected notEmbeddedError))
        /\ (forall provider,
              Wallet.walletClientType active = "privy" ->
              Wallet.getEthereumProvider active = Resolved provider ->
              evmSecp256k1Sign ws hash
                = ([{| method := "secp256k1_sign"; params := [PString hash] |}],
                   provider {| method := "secp256k1_sign"; params := [PString hash] |})
              /\ forall signature,
                   provider {| method := "secp256k1_sign"; params := [PString hash] |}
                     = Resolved signature ->
                   evmSecp256k1Sign ws hash
                     = ([{| method := "secp256k1_sign"; params := [PString hash] |}],
                        Resolved signature)))
  /\ (forall sent signature,
        evmSecp256k1Sign ws hash = (sent, Resolved signature) ->
        exists active provider,
          activeWallet ws active
          /\ Wallet.walletClientType active = "privy"
          /\ Wallet.getEthereumProvider active = Resolved provider
          /\ sent = [{| method := "secp256k1_sign"; params := [PString hash] |}]
          /\ provider {| method := "secp256k1_sign"; params := [PString hash] |}
             = Resolved signature).
Proof.
  assert (Hrun : forall active provider,
             activeWallet ws active ->
             Wallet.walletClientType active = "privy" ->
             Wallet.getEthereumProvider active = Resolved provider ->
             evmSecp256k1Sign ws hash
             = ([secp256k1Request hash], provider (secp256k1Request hash))).
  { intros active provider Ha Ht Hp. unfold evmSecp256k1Sign.
    rewrite (activeWallet_getEvmWallet ws active Ha).
    apply isPrivy_true in Ht. rewrite Ht, Hp. cbn.
    destruct (provider (secp256k1Request hash)); reflexivity. }
  split; [|split; [|split]].
  - intros ->. reflexivity.
  - apply activeWallet_exists.
  - intros active Ha. split; [|split].
    + rewrite getActiveWallet_getEvmWallet.
      now rewrite (activeWallet_getEvmWallet ws active Ha).
    + intros Ht. unfold evmSecp256k1Sign.
      rewrite (activeWallet_getEvmWallet ws active Ha).
      apply isPrivy_false in Ht. now rewrite Ht.
    + intros provider Ht Hp. split; [exact (Hrun active provider Ha Ht Hp)|].
      intros signature Hs. rewrite (Hrun active provider Ha Ht Hp).
      unfold secp256k1Request. now rewrite Hs.
  - intros sent signature Hres.
    destruct ws as [|first rest]; [discriminate|].
    destruct (activeWallet_exists (first :: rest)) as [active Ha]; [discriminate|].
    pose proof (activeWallet_getEvmWallet _ _ Ha) as Hw.
    destruct (isPrivy active) eqn:Ht.
    + apply isPrivy_true in Ht.
      destruct (Wallet.getEthereumProvider active) as [provider|e] eqn:Hp.
      * rewrite (Hrun active provider Ha Ht Hp) in Hres.
        injection Hres as <- Hs.
        exists active, provider. repeat split; assumption.
      * unfold evmSecp256k1Sign in Hres. apply isPrivy_true in Ht.
        rewrite Hw, Ht, Hp in Hres. discriminate.
    + unfold evmSecp256k1Sign in Hres. rewrite Hw, Ht in Hres. discriminate.
Qed.

(** An embedded wallet behind an external one signs; an external wallet
    alone is refused. *)
Lemma C3_secp256k1Sign_witness :
  evmSecp256k1Sign [metamaskWallet; embeddedWallet] digest
  = ([{| method := "secp256k1_sign"; params := [PString digest] |}], Resolved rawSignature)
  /\ evmSecp256k1Sign [metamaskWallet] digest = ([], Rejected notEmbeddedError).
Proof.
  split.
  - refine (proj2 (proj2 (proj2
      (proj1 (proj2 (proj2 (C3_secp256k1Sign [metamaskWallet; embeddedWallet] digest)))
         embeddedWallet _)) rawSigner eq_refl eq_refl) rawSignature eq_refl).
    apply (activeEmbedded [metamaskWallet] embeddedWallet []); [|reflexivity].
    constructor; [discriminate | constructor].
  - refine (proj1 (proj2
      (proj1 (proj2 (proj2 (C3_secp256k1Sign [metamaskWallet] digest))) metamaskWallet _)) _).
    + apply activeFirst. constructor; [discriminate | constructor].
    + discriminate.
Defined.




(** C9. With an empty wallet list every EVM signer operation fails the way
    its contract says, and sends nothing to any provider: [getAddress] and
    [getChainId] give null, [switchChain] gives false, and [signMessage],
    [signTypedData], [getProvider] and [secp256k1Sign] reject with the
    error 'No EVM wallet available'. *)
Theorem C9_no_wallet_contracts :
  evmGetAddress [] = None
  /\ evmGetChainId [] = ([], Resolved None)
  /\ (forall chainId, evmSwitchChain [] chainId = ([], Resolved false))
  /\ (forall message, evmSignMessage [] message = ([], Rejected noWalletError))
  /\ (forall typedData, evmSignTypedData [] typedData = ([], Rejected noWalletError))
  /\ evmGetProvider [] = ([], Rejected noWalletError)
  /\ (forall hash, evmSecp256k1Sign [] hash = ([], Rejected noWalletError))
  /\ noWalletError = {| code := None; message := "No EVM wallet available" |}.
Proof. repeat split. Qed.

(** ** The consumer *)

(** C10. After a call of the consumer's auth-change handler with
    [authenticated], the shared connected flag is [authenticated]; when it
    is false the shared wallet is null, so [address] and [walletType] are
    null and [isEmbeddedWallet] is false; when it is true the shared wallet
    is what the facade's [getActiveWallet()] returns in that state. *)
Theorem C10_authHandler_state (instance : nat) (authenticated : bool) (w : World) :
  let w' := callAuthCallback (ConsumerAuthHandler instance) authenticated w in
  globalIsConnected w' = authenticated
  /\ (authenticated = false ->
      globalWallet w' = None
      /\ usePrivyWidget.address w' = None
      /\ usePrivyWidget.walletType w' = None
      /\ usePrivyWidget.isEmbeddedWallet w' = false)
  /\ (authenticated = true -> globalWallet w' = api_getActiveWallet w')
  /\ walletsRef w' = walletsRef w.
Proof.
  cbn zeta. split; [reflexivity|]. split; [|split; [|reflexivity]].
  - intros ->. repeat split.
  - intros ->. reflexivity.
Qed.

Lemma init_poll_absent (page : nat -> World -> World) (P : World -> Prop) :
  (forall v, P v -> window_PrivyWidgetReady v = None) ->
  (forall k v, P v -> P (page k v)) ->
  forall fuel attempts slept w,
    P w ->
    (attempts + fuel = 100)%nat ->
    exists v,
      usePrivyWidget.init_poll fuel page slept (usePrivyWidget.init_loop attempts w)
        = Some (log (ConsoleError usePrivyWidget.notFoundMessage) v,
                usePrivyWidget.Returned, slept ++ repeat 50%nat fuel)
      /\ P v.
Proof.
  intros Habsent Hpage. induction fuel as [|fuel IH]; intros attempts slept w Hw Hsum.
  - unfold usePrivyWidget.init_loop. rewrite (Habsent _ Hw).
    replace (attempts <? 100)%nat with false by (symmetry; apply Nat.ltb_ge; lia).
    cbn. exists w. rewrite app_nil_r. split; [reflexivity | exact Hw].
  - unfold usePrivyWidget.init_loop at 1. rewrite (Habsent _ Hw).
    replace (attempts <? 100)%nat with true by (symmetry; apply Nat.ltb_lt; lia).
    cbn [bool_decide negb andb usePrivyWidget.init_poll].
    unfold usePrivyWidget.init_wake.
    destruct (IH (S attempts) (slept ++ [50%nat]) (page attempts w)
                (Hpage _ _ Hw) ltac:(lia)) as (v & Hrun & Hv).
    exists v. rewrite <- app_assoc in Hrun. split; [exact Hrun | exact Hv].
Qed.

(** [init] always gives control back within 100 sleeps of 50 ms each. *)
Lemma init_poll_bounded (page : nat -> World -> World) :
  forall fuel attempts slept w,
    (attempts + fuel = 100)%nat ->
    exists v status n,
      usePrivyWidget.init_poll fuel page slept (usePrivyWidget.init_loop attempts w)
        = Some (v, status, slept ++ repeat 50%nat n)
      /\ (n <= fuel)%nat
      /\ (status = usePrivyWidget.Returned \/ status = usePrivyWidget.AwaitingReady).
Proof.
  induction fuel as [|fuel IH]; intros attempts slept w Hsum.
  - unfold usePrivyWidget.init_loop.
    replace (attempts <? 100)%nat with false by (symmetry; apply Nat.ltb_ge; lia).
    rewrite andb_false_r.
    destruct (negb (bool_decide (is_Some (window_PrivyWidgetReady w)))); cbn.
    + eexists _, _, 0%nat. cbn. rewrite app_nil_r. split; [reflexivity|]. split; [lia | now left].
    + eexists _, _, 0%nat. cbn. rewrite app_nil_r. split; [reflexivity|]. split; [lia | now right].
  - unfold usePrivyWidget.init_loop at 1.
    replace (attempts <? 100)%nat with true by (symmetry; apply Nat.ltb_lt; lia).
    rewrite andb_true_r.
    destruct (negb (bool_decide (is_Some (window_PrivyWidgetReady w)))) eqn:Habsent.
    + cbn [usePrivyWidget.init_poll]. unfold usePrivyWidget.init_wake.
      destruct (IH (S attempts) (slept ++ [50%nat]) (page attempts w) ltac:(lia))
        as (v & status & n & Hrun & Hn & Hstatus).
      exists v, status, (S n). rewrite <- app_assoc in Hrun.
      split; [exact Hrun|]. split; [lia | exact Hstatus].
    + cbn. eexists _, _, 0%nat. cbn. rewrite app_nil_r.
      split; [reflexivity|]. split; [lia | now right].
Qed.

(** C7. When the readiness promise is absent and never appears, [init]
    sleeps 50 ms exactly 100 times, logs the error and returns normally; the
    shared facade stays null and the shared ready flag false; after that
    [login], [logout], [exportWallet] and the asynchronous signer proxies
    reject with the error 'Privy widget not ready' (the synchronous
    [evm.getAddress] gives null). *)
Theorem C7_discovery_timeout (page : nat -> World -> World) (w : World) :
  window_PrivyWidgetReady w = None ->
  globalApi w = None ->
  globalIsReady w = false ->
  (forall k v, window_PrivyWidgetReady v = None -> window_PrivyWidgetReady (page k v) = None) ->
  (forall k v, globalApi (page k v) = globalApi v) ->
  (forall k v, globalIsReady (page k v) = globalIsReady v) ->
  exists w',
    usePrivyWidget.init_run 100 page w
      = Some (w', usePrivyWidget.Returned, repeat 50%nat 100)
    /\ last (trace w') = Some (ConsoleError usePrivyWidget.notFoundMessage)
    /\ globalApi w' = None
    /\ usePrivyWidget.isReady w' = false
    /\ usePrivyWidget.login w' = (w', Rejected usePrivyWidget.notReadyError)
    /\ (forall sdk, usePrivyWidget.logout sdk w' = (w', Rejected usePrivyWidget.notReadyError))
    /\ (forall sdk,
          usePrivyWidget.exportWallet sdk w' = (w', Rejected usePrivyWidget.notReadyError))
    /\ (forall m,
          usePrivyWidget.evm_signMessage m w' = ([], Rejected usePrivyWidget.notReadyError))
    /\ (forall d,
          usePrivyWidget.evm_signTypedData d w' = ([], Rejected usePrivyWidget.notReadyError))
    /\ usePrivyWidget.evm_getChainId w' = ([], Rejected usePrivyWidget.notReadyError)
    /\ (forall c,
          usePrivyWidget.evm_switchChain c w' = ([], Rejected usePrivyWidget.notReadyError))
    /\ usePrivyWidget.evm_getProvider w' = ([], Rejected usePrivyWidget.notReadyError)
    /\ (forall h,
          usePrivyWidget.evm_secp256k1Sign h w'
            = ([], Rejected usePrivyWidget.notReadyError))
    /\ usePrivyWidget.evm_getAddress w' = None
    /\ usePrivyWidget.notReadyError
       = {| code := None; message := "Privy widget not ready" |}.
Proof.
  intros Habsent Hapi Hready Hpage Hpage_api Hpage_ready.
  set (P := fun v => window_PrivyWidgetReady v = None
                     /\ globalApi v = None /\ globalIsReady v = false).
  assert (HP1 : forall v, P v -> window_PrivyWidgetReady v = None)
    by (intros v (H & _); exact H).
  assert (HP2 : forall k v, P v -> P (page k v)).
  { intros k v (H1 & H2 & H3). unfold P. rewrite Hpage_api, Hpage_ready. auto. }
  assert (HP3 : P w) by (unfold P; auto).
  destruct (init_poll_absent page P HP1 HP2 100%nat 0%nat [] w HP3 eq_refl)
    as (v & Hrun & _ & Hv_api & Hv_ready).
  exists (log (ConsoleError usePrivyWidget.notFoundMessage) v).
  unfold usePrivyWidget.init_run, usePrivyWidget.init. rewrite Hapi, andb_false_r.
  split; [exact Hrun|].
  split; [cbn; apply last_snoc|].
  unfold usePrivyWidget.isReady, usePrivyWidget.login, usePrivyWidget.logout,
    usePrivyWidget.exportWallet, usePrivyWidget.evm_signMessage,
    usePrivyWidget.evm_signTypedData, usePrivyWidget.evm_getChainId,
    usePrivyWidget.evm_switchChain, usePrivyWidget.evm_getProvider,
    usePrivyWidget.evm_secp256k1Sign, usePrivyWidget.evm_getAddress.
  cbn. rewrite Hv_api, Hv_ready. repeat split.
Qed.

Lemma C7_discovery_timeout_witness :
  exists w',
    usePrivyWidget.init_run 100 (fun _ v => v) (pageLoad ∅)
      = Some (w', usePrivyWidget.Returned, repeat 50%nat 100)
    /\ trace w' = [ConsoleError usePrivyWidget.notFoundMessage]
    /\ usePrivyWidget.login w' = (w', Rejected usePrivyWidget.notReadyError).
Proof.
  destruct (C7_discovery_timeout (fun _ v => v) (pageLoad ∅)
              eq_refl eq_refl eq_refl
              (fun _ _ H => H) (fun _ _ => eq_refl) (fun _ _ => eq_refl))
    as (w' & Hrun & _ & _ & _ & Hlogin & _).
  exists w'. split; [exact Hrun|]. split; [|exact Hlogin].
  vm_compute in Hrun. injection Hrun as <-. reflexivity.
Defined.

(** ** Subscriptions *)

Lemma onReady_before_discovery (callback : ReadyCallback) (w : World) :
  globalApi w = None -> usePrivyWidget.onReady callback w = (w, NoOp).
Proof. intros H. unfold usePrivyWidget.onReady. now rewrite H. Qed.

Lemma onAuthChange_before_discovery (callback : AuthCallback) (w : World) :
  globalApi w = None -> usePrivyWidget.onAuthChange callback w = (w, NoOp).
Proof.
  intros H. unfold usePrivyWidget.onAuthChange. rewrite H.
  now apply onReady_before_discovery.
Qed.

(** C8. The composable's [onReady] and [onAuthChange], called while the
    shared facade is still null, change nothing and return a no-op: the
    callback is kept nowhere.  On a page where discovery then completes and
    the user logs in, the trace holds no call of either callback. *)
Theorem C8_early_subscriptions_are_dropped :
  (forall callback w,
      globalApi w = None -> usePrivyWidget.onReady callback w = (w, NoOp))
  /\ (forall callback w,
        globalApi w = None -> usePrivyWidget.onAuthChange callback w = (w, NoOp))
  /\ usePrivyWidget.onReady (ExternalReadyCallback 7) (islandLoaded ∅)
     = (islandLoaded ∅, NoOp)
  /\ usePrivyWidget.onAuthChange (ExternalAuthCallback 8) (islandLoaded ∅)
     = (islandLoaded ∅, NoOp)
  /\ globalApi earlySubscriber = Some firstFacade
  /\ globalIsReady earlySubscriber = true
  /\ onReadyCallbacksRef earlySubscriber = []
  /\ authCallbacksRef earlySubscriber = [ConsumerAuthHandler 0]
  /\ trace earlySubscriber
     = [ ReadyResolved firstFacade;
         EventDispatched "privy-ready";
         AuthCallbackCalled (ConsumerAuthHandler 0) false;
         AuthCallbackCalled (ConsumerAuthHandler 0) true ].
Proof.
  split; [intros callback w; apply onReady_before_discovery|].
  split; [intros callback w; apply onAuthChange_before_discovery|].
  vm_compute. repeat split.
Qed.

(** What [onAuthChange] does on any facade: the callback joins the
    registry, is called once with the facade's own [authenticated], and the
    returned closure removes it. *)
Lemma api_onAuthChange_registers (api : PrivyWidgetAPI) (cb : AuthCallback) (w : World) :
  cb ∈ authCallbacksRef (fst (api_onAuthChange api cb w))
  /\ trace (fst (api_onAuthChange api cb w))
     = trace w ++ [AuthCallbackCalled cb (api_authenticated api)]
  /\ snd (api_onAuthChange api cb w) = UnsubscribeAuth cb.
Proof.
  unfold api_onAuthChange. cbn [fst snd]. split; [|split; [|reflexivity]].
  - destruct cb; cbn; unfold Set_add; case_bool_decide; set_solver.
  - destruct cb; reflexivity.
Qed.

Lemma unsubscribeAuth_removes (cb : AuthCallback) (w : World) :
  cb ∉ authCallbacksRef (runUnsubscribe (UnsubscribeAuth cb) w).
Proof.
  cbn. unfold Set_delete. intros H. apply list_elem_of_filter in H. now destruct H.
Qed.

(** C6. The facade that the readiness promise hands out closes over the
    [authenticated] of the render that built it.  On a page where the user
    logged in after that render, [onAuthChange] on this facade adds the
    callback to the registry and calls it once, with [false], while the
    provider's authenticated flag is [true]; the facade that the same page
    holds in [window.PrivyWidget] calls it with [true]. *)
Theorem C6_onAuthChange_stale_facade :
  readyPromiseValue loggedInPage = Some firstFacade
  /\ globalApi loggedInPage = Some firstFacade
  /\ lastDeps loggedInPage = Some (true, true)
  /\ globalIsConnected loggedInPage = true
  /\ (let '(w, unsubscribe) :=
        api_onAuthChange firstFacade (ExternalAuthCallback 9) loggedInPage in
      trace w = trace loggedInPage ++ [AuthCallbackCalled (ExternalAuthCallback 9) false]
      /\ authCallbacksRef w = [ConsumerAuthHandler 0; ExternalAuthCallback 9]
      /\ authCallbacksRef (runUnsubscribe unsubscribe w) = [ConsumerAuthHandler 0])
  /\ trace (fst (usePrivyWidget.onAuthChange (ExternalAuthCallback 9) loggedInPage))
     = trace loggedInPage ++ [AuthCallbackCalled (ExternalAuthCallback 9) false]
  /\ window_PrivyWidget loggedInPage
     = Some {| api_ready := true; api_authenticated := true |}
  /\ trace (fst (api_onAuthChange {| api_ready := true; api_authenticated := true |}
                   (ExternalAuthCallback 9) loggedInPage))
     = trace loggedInPage ++ [AuthCallbackCalled (ExternalAuthCallback 9) true].
Proof. vm_compute. repeat split. Qed.

(** ** What each step leaves alone *)

Lemma trace_log (e : Event) (w : World) : trace (log e w) = trace w ++ [e].
Proof. reflexivity. Qed.

Lemma dispatchView_log (e : Event) (w : World) :
  isDispatchSignal e = false -> dispatchView (log e w) = dispatchView w.
Proof.
  intros He. unfold dispatchView, dispatchSignals. rewrite trace_log, List.filter_app.
  cbn. rewrite He, app_nil_r. reflexivity.
Qed.

Lemma readyView_log (e : Event) (w : World) :
  isReadySignal e = false -> readyView (log e w) = readyView w.
Proof.
  intros He. unfold readyView, readySignals. rewrite trace_log, List.filter_app.
  cbn. rewrite He, app_nil_r. reflexivity.
Qed.

Lemma loginView_log (e : Event) (w : World) :
  isLogoutCall e = false -> loginView (log e w) = loginView w.
Proof.
  intros He. unfold loginView, logoutCalls. rewrite trace_log, List.filter_app.
  cbn. rewrite He, app_nil_r. reflexivity.
Qed.

Lemma depsView_log (e : Event) (w : World) : depsView (log e w) = depsView w.
Proof. reflexivity. Qed.

(** *** Auth callbacks *)

Lemma callAuthCallback_trace (cb : AuthCallback) (b : bool) (w : World) :
  trace (callAuthCallback cb b w) = trace w ++ [AuthCallbackCalled cb b].
Proof. destruct cb; reflexivity. Qed.

Lemma callAuthCallback_registry (cb : AuthCallback) (b : bool) (w : World) :
  authCallbacksRef (callAuthCallback cb b w) = authCallbacksRef w.
Proof. destruct cb; reflexivity. Qed.

Lemma callAuthCallback_views (cb : AuthCallback) (b : bool) (w : World) :
  dispatchView (callAuthCallback cb b w) = dispatchView w
  /\ readyView (callAuthCallback cb b w) = readyView w
  /\ loginView (callAuthCallback cb b w) = loginView w
  /\ depsView (callAuthCallback cb b w) = depsView w.
Proof.
  pose proof (dispatchView_log (AuthCallbackCalled cb b) w eq_refl) as H1.
  pose proof (readyView_log (AuthCallbackCalled cb b) w eq_refl) as H2.
  pose proof (loginView_log (AuthCallbackCalled cb b) w eq_refl) as H3.
  destruct cb; repeat split; assumption.
Qed.

Lemma api_onAuthChange_views (api : PrivyWidgetAPI) (cb : AuthCallback) (w : World) :
  dispatchView (fst (api_onAuthChange api cb w)) = dispatchView w
  /\ readyView (fst (api_onAuthChange api cb w)) = readyView w
  /\ loginView (fst (api_onAuthChange api cb w)) = loginView w
  /\ depsView (fst (api_onAuthChange api cb w)) = depsView w.
Proof.
  unfold api_onAuthChange. cbn [fst].
  destruct (callAuthCallback_views cb (api_authenticated api)
              (set_authCallbacksRef (Set_add cb (authCallbacksRef w)) w))
    as (H1 & H2 & H3 & H4).
  rewrite H1, H2, H3, H4. repeat split.
Qed.

Lemma api_onAuthChange_trace (api : PrivyWidgetAPI) (cb : AuthCallback) (w : World) :
  trace (fst (api_onAuthChange api cb w))
    = trace w ++ [AuthCallbackCalled cb (api_authenticated api)].
Proof. unfold api_onAuthChange. cbn [fst]. now rewrite callAuthCallback_trace. Qed.

Lemma notify_views (b : bool) (cbs : list AuthCallback) (w : World) :
  let w' := foldl (fun w cb => callAuthCallback cb b w) w cbs in
  dispatchView w' = dispatchView w
  /\ readyView w' = readyView w
  /\ loginView w' = loginView w
  /\ depsView w' = depsView w
  /\ authCallbacksRef w' = authCallbacksRef w
  /\ trace w' = trace w ++ map (fun cb => AuthCallbackCalled cb b) cbs.
Proof.
  cbn zeta. revert w. induction cbs as [|cb cbs IH]; intros w.
  - cbn. rewrite app_nil_r. repeat split.
  - cbn [foldl map].
    destruct (IH (callAuthCallback cb b w)) as (H1 & H2 & H3 & H4 & H5 & H6).
    destruct (callAuthCallback_views cb b w) as (K1 & K2 & K3 & K4).
    rewrite H1, H2, H3, H4, H5, H6, K1, K2, K3, K4.
    rewrite callAuthCallback_registry, callAuthCallback_trace, <- app_assoc.
    repeat split.
Qed.

(** *** Ready callbacks *)

Lemma callReadyCallback_views (cb : ReadyCallback) (api : PrivyWidgetAPI) (w : World) :
  let w' := callReadyCallback cb api w in
  dispatchView w' = dispatchView w
  /\ onReadyCallbacksRef w' = onReadyCallbacksRef w
  /\ readySignals w' = readySignals w ++ [ReadyCallbackCalled cb api]
  /\ loginView w' = loginView w
  /\ depsView w' = depsView w
  /\ trace w' = trace w ++ readyCallbackEvents api cb.
Proof.
  cbn zeta. unfold callReadyCallback.
  pose proof (dispatchView_log (ReadyCallbackCalled cb api) w eq_refl) as H1.
  pose proof (loginView_log (ReadyCallbackCalled cb api) w eq_refl) as H3.
  assert (H2 : readySignals (log (ReadyCallbackCalled cb api) w)
               = readySignals w ++ [ReadyCallbackCalled cb api]).
  { unfold readySignals. now rewrite trace_log, List.filter_app. }
  destruct cb as [id|cb].
  - repeat split; assumption.
  - destruct (api_onAuthChange_views api cb (log (ReadyCallbackCalled (SubscribeAuthWhenReady cb) api) w))
      as (K1 & K2 & K3 & K4).
    rewrite K1, K3, K4, api_onAuthChange_trace, trace_log, <- app_assoc.
    pose proof (f_equal fst K2) as K2a. pose proof (f_equal snd K2) as K2b.
    unfold readyView in K2a, K2b. cbn [fst snd] in K2a, K2b. rewrite K2a, K2b.
    repeat split; assumption.
Qed.

Lemma drain_views (api : PrivyWidgetAPI) (cbs : list ReadyCallback) (w : World) :
  let w' := foldl (fun w cb => callReadyCallback cb api w) w cbs in
  dispatchView w' = dispatchView w
  /\ onReadyCallbacksRef w' = onReadyCallbacksRef w
  /\ readySignals w' = readySignals w ++ map (fun cb => ReadyCallbackCalled cb api) cbs
  /\ loginView w' = loginView w
  /\ depsView w' = depsView w
  /\ trace w' = trace w ++ flat_map (readyCallbackEvents api) cbs.
Proof.
  cbn zeta. revert w. induction cbs as [|cb cbs IH]; intros w.
  - cbn. rewrite !app_nil_r. repeat split.
  - cbn [foldl map flat_map].
    destruct (IH (callReadyCallback cb api w)) as (H1 & H2 & H3 & H4 & H5 & H6).
    destruct (callReadyCallback_views cb api w) as (K1 & K2 & K3 & K4 & K5 & K6).
    rewrite H1, H2, H3, H4, H5, H6, K1, K2, K3, K4, K5, K6, <- !app_assoc.
    repeat split.
Qed.

Lemma api_onReady_views (api : PrivyWidgetAPI) (cb : ReadyCallback) (w : World) :
  dispatchView (fst (api_onReady api cb w)) = dispatchView w
  /\ loginView (fst (api_onReady api cb w)) = loginView w
  /\ depsView (fst (api_onReady api cb w)) = depsView w.
Proof.
  unfold api_onReady. cbn [fst]. destruct (api_ready api).
  - destruct (callReadyCallback_views cb api w) as (K1 & _ & _ & K4 & K5 & _).
    repeat split; assumption.
  - repeat split.
Qed.

Lemma runUnsubscribe_views (u : Unsubscribe) (w : World) :
  dispatchView (runUnsubscribe u w) = dispatchView w
  /\ loginView (runUnsubscribe u w) = loginView w
  /\ depsView (runUnsubscribe u w) = depsView w.
Proof. destruct u; repeat split. Qed.

(** *** The effects *)

Lemma useEffect_frame {V : Type} (view : World -> V) (changed : bool)
    (effect : World -> World) (w w0 : World) :
  (forall x, view x = view w0 -> view (effect x) = view w0) ->
  view w = view w0 ->
  view (useEffect changed effect w) = view w0.
Proof. intros Heffect Hw. unfold useEffect. destruct changed; auto. Qed.

Lemma effect_lastLoginOnly_views (config : option PrivyWidgetConfig) (r a : bool)
    (ws : list Wallet.t) (w : World) :
  dispatchView (effect_lastLoginOnly config r a ws w) = dispatchView w
  /\ readyView (effect_lastLoginOnly config r a ws w) = readyView w
  /\ depsView (effect_lastLoginOnly config r a ws w) = depsView w.
Proof.
  unfold effect_lastLoginOnly.
  repeat match goal with
         | |- context [if ?c then _ else _] => destruct c
         | |- context [match ?o with Some _ => _ | None => _ end] => destruct o
         end;
    try (repeat split; fail).
  rewrite dispatchView_log, readyView_log, depsView_log by reflexivity.
  rewrite dispatchView_log, readyView_log, depsView_log by reflexivity.
  repeat split.
Qed.

Lemma effect_saveLoginType_views (config : option PrivyWidgetConfig) (a : bool)
    (ws : list Wallet.t) (w : World) :
  dispatchView (effect_saveLoginType config a ws w) = dispatchView w
  /\ readyView (effect_saveLoginType config a ws w) = readyView w
  /\ depsView (effect_saveLoginType config a ws w) = depsView w
  /\ (config_lastLoginOnly config = true ->
      loginView (effect_saveLoginType config a ws w) = loginView w).
Proof.
  unfold effect_saveLoginType.
  repeat match goal with
         | |- context [if ?c then _ else _] => destruct c
         | |- context [match ?o with Some _ => _ | None => _ end] => destruct o
         end;
    repeat split; discriminate.
Qed.

Lemma effect_notifyAuth_views (a : bool) (w : World) :
  dispatchView (effect_notifyAuth a w) = dispatchView w
  /\ readyView (effect_notifyAuth a w) = readyView w
  /\ loginView (effect_notifyAuth a w) = loginView w
  /\ depsView (effect_notifyAuth a w) = depsView w.
Proof.
  destruct (notify_views a (authCallbacksRef w) w) as (H1 & H2 & H3 & H4 & _).
  repeat split; assumption.
Qed.

(** A notification reaches exactly the callbacks of the registry. *)
Lemma effect_notifyAuth_trace (a : bool) (w : World) :
  trace (effect_notifyAuth a w)
  = trace w ++ map (fun cb => AuthCallbackCalled cb a) (authCallbacksRef w).
Proof. apply notify_views. Qed.

Lemma effect_notifyAuth_skips (a : bool) (cb : AuthCallback) (w : World) :
  cb ∉ authCallbacksRef w ->
  exists added,
    trace (effect_notifyAuth a w) = trace w ++ added
    /\ forall b, AuthCallbackCalled cb b ∉ added.
Proof.
  intros Hout. eexists. split; [apply effect_notifyAuth_trace|].
  intros b Hin. apply list_elem_of_fmap in Hin as (c & Heq & Hc).
  injection Heq as -> _. contradiction.
Qed.

(** The expose effect outside the first ready render only republishes the facade. *)
Lemma effect_exposeApi_idle (r a : bool) (w : World) :
  r && negb (hasDispatchedReady w) = false ->
  effect_exposeApi r a w
    = set_window_PrivyWidget (Some {| api_ready := r; api_authenticated := a |}) w.
Proof. intros H. unfold effect_exposeApi. cbn [hasDispatchedReady set_window_PrivyWidget]. now rewrite H. Qed.

(** The expose effect at the first ready render. *)
Lemma effect_exposeApi_dispatch (a : bool) (w : World) :
  hasDispatchedReady w = false ->
  readyResolve w = true ->
  readyPromise w = Some Pending ->
  let api := {| api_ready := true; api_authenticated := a |} in
  let w' := effect_exposeApi true a w in
  readyResolve w' = false
  /\ readyPromise w' = Some (Fulfilled api)
  /\ hasDispatchedReady w' = true
  /\ onReadyCallbacksRef w' = []
  /\ readySignals w'
     = readySignals w ++ [ReadyResolved api]
         ++ map (fun cb => ReadyCallbackCalled cb api) (onReadyCallbacksRef w)
         ++ [EventDispatched "privy-ready"]
  /\ dispatchSignals w'
     = dispatchSignals w ++ [ReadyResolved api; EventDispatched "privy-ready"]
  /\ loginView w' = loginView w
  /\ depsView w' = depsView w.
Proof.
  intros Hflag Hresolve Hpromise. cbn zeta. unfold effect_exposeApi.
  cbn [hasDispatchedReady set_window_PrivyWidget]. rewrite Hflag.
  cbn [negb andb readyResolve set_hasDispatchedReady set_window_PrivyWidget].
  rewrite Hresolve.
  set (api := {| api_ready := true; api_authenticated := a |}).
  set (w1 := set_readyResolve false
               (resolveReady api (set_hasDispatchedReady true (set_window_PrivyWidget (Some api) w)))).
  assert (Hw1 : readyResolve w1 = false /\ readyPromise w1 = Some (Fulfilled api)
                /\ hasDispatchedReady w1 = true
                /\ onReadyCallbacksRef w1 = onReadyCallbacksRef w
                /\ trace w1 = trace w ++ [ReadyResolved api]
                /\ loginView w1 = loginView w /\ depsView w1 = depsView w).
  { unfold w1, resolveReady.
    cbn [readyPromise set_hasDispatchedReady set_window_PrivyWidget]. rewrite Hpromise.
    repeat split.
    match goal with
    | |- loginView (set_readyResolve _ ?x) = _ => change (loginView x = loginView w)
    end.
    now rewrite loginView_log. }
  destruct Hw1 as (A1 & A2 & A3 & A4 & A5 & A6 & A7).
  destruct (drain_views api (onReadyCallbacksRef w1) w1) as (D1 & D2 & D3 & D4 & D5 & D6).
  set (w2 := foldl (fun w cb => callReadyCallback cb api w) w1 (onReadyCallbacksRef w1)) in *.
  pose proof (f_equal (fun v => fst (fst (fst v))) D1) as E1.
  pose proof (f_equal (fun v => snd (fst (fst v))) D1) as E2.
  pose proof (f_equal (fun v => snd (fst v)) D1) as E3.
  pose proof (f_equal snd D1) as E4.
  unfold dispatchView in E1, E2, E3, E4. cbn [fst snd] in E1, E2, E3, E4.
  assert (R1 : readySignals w1 = readySignals w ++ [ReadyResolved api]).
  { unfold readySignals. now rewrite A5, List.filter_app. }
  assert (S1 : dispatchSignals w1 = dispatchSignals w ++ [ReadyResolved api]).
  { unfold dispatchSignals. now rewrite A5, List.filter_app. }
  split; [change (readyResolve w2 = false); congruence|].
  split; [change (readyPromise w2 = Some (Fulfilled api)); congruence|].
  split; [change (hasDispatchedReady w2 = true); congruence|].
  split; [reflexivity|].
  split.
  { unfold readySignals at 1. rewrite trace_log, List.filter_app.
    change (List.filter isReadySignal (trace (set_onReadyCallbacksRef [] w2)))
      with (readySignals w2).
    rewrite D3, R1, A4, <- !app_assoc. reflexivity. }
  split.
  { unfold dispatchSignals at 1. rewrite trace_log, List.filter_app.
    change (List.filter isDispatchSignal (trace (set_onReadyCallbacksRef [] w2)))
      with (dispatchSignals w2).
    rewrite E4, S1, <- !app_assoc. reflexivity. }
  split.
  { rewrite loginView_log by reflexivity.
    change (loginView (set_onReadyCallbacksRef [] w2)) with (loginView w2). congruence. }
  change (depsView w2 = depsView w). congruence.
Qed.

Lemma resolveReady_views (api : PrivyWidgetAPI) (w : World) :
  loginView (resolveReady api w) = loginView w
  /\ depsView (resolveReady api w) = depsView w.
Proof.
  unfold resolveReady. rewrite loginView_log by reflexivity.
  destruct (readyPromise w) as [[|]|]; split; reflexivity.
Qed.

(** The expose effect never touches what the last-login policy owns, nor
    what a render remembers. *)
Lemma effect_exposeApi_views (r a : bool) (w : World) :
  loginView (effect_exposeApi r a w) = loginView w
  /\ depsView (effect_exposeApi r a w) = depsView w.
Proof.
  unfold effect_exposeApi.
  set (api := {| api_ready := r; api_authenticated := a |}).
  set (w0 := set_window_PrivyWidget (Some api) w).
  destruct (r && negb (hasDispatchedReady w0)); [|split; reflexivity].
  set (w1 := set_hasDispatchedReady true w0).
  set (w2 := if readyResolve w1 then set_readyResolve false (resolveReady api w1) else w1).
  assert (H2 : loginView w2 = loginView w /\ depsView w2 = depsView w).
  { unfold w2. destruct (readyResolve w1); [|split; reflexivity].
    destruct (resolveReady_views api w1) as (K1 & K2).
    split.
    - change (loginView (resolveReady api w1) = loginView w). now rewrite K1.
    - change (depsView (resolveReady api w1) = depsView w). now rewrite K2. }
  destruct H2 as (L2 & D2).
  destruct (drain_views api (onReadyCallbacksRef w2) w2) as (_ & _ & _ & L3 & D3 & _).
  rewrite loginView_log by reflexivity. rewrite depsView_log.
  split.
  - match goal with
    | |- loginView (set_onReadyCallbacksRef _ ?x) = _ => change (loginView x = loginView w)
    end.
    congruence.
  - match goal with
    | |- depsView (set_onReadyCallbacksRef _ ?x) = _ => change (depsView x = depsView w)
    end.
    congruence.
Qed.

(** *** A render *)

Lemma render_deps (config : option PrivyWidgetConfig) (i : RenderInput) (w : World) :
  walletsRef (render config i w) = renderWallets i w
  /\ lastDeps (render config i w) = Some (ready i, authenticated i).
Proof.
  split; [|reflexivity].
  unfold render. cbn zeta.
  match goal with
  | |- walletsRef (set_lastDeps _ ?x) = _ =>
      change (fst (depsView x) = fst (depsView (set_walletsRef (renderWallets i w) w)))
  end.
  f_equal.
  apply (useEffect_frame depsView).
  { intros x Hx. rewrite <- Hx. apply effect_notifyAuth_views. }
  apply (useEffect_frame depsView).
  { intros x Hx. rewrite <- Hx. apply effect_exposeApi_views. }
  apply (useEffect_frame depsView).
  { intros x Hx. rewrite <- Hx. apply effect_saveLoginType_views. }
  apply (useEffect_frame depsView).
  { intros x Hx. rewrite <- Hx. apply effect_lastLoginOnly_views. }
  apply (useEffect_frame depsView); [intros x Hx; exact Hx | reflexivity].
Qed.

(** A render that is not the first ready one leaves the dispatch state alone. *)
Lemma render_idle_dispatch (config : option PrivyWidgetConfig) (i : RenderInput) (w : World) :
  ready i && negb (hasDispatchedReady w) = false ->
  dispatchView (render config i w) = dispatchView w.
Proof.
  intros Hidle. unfold render. cbn zeta.
  match goal with
  | |- dispatchView (set_lastDeps _ ?x) = _ => change (dispatchView x = dispatchView w)
  end.
  apply (useEffect_frame dispatchView).
  { intros x Hx. rewrite <- Hx. apply effect_notifyAuth_views. }
  apply (useEffect_frame dispatchView).
  { intros x Hx. rewrite effect_exposeApi_idle; [exact Hx|].
    pose proof (f_equal (fun v => snd (fst v)) Hx) as Hflag. cbn in Hflag.
    now rewrite Hflag. }
  apply (useEffect_frame dispatchView).
  { intros x Hx. rewrite <- Hx. apply effect_saveLoginType_views. }
  apply (useEffect_frame dispatchView).
  { intros x Hx. rewrite <- Hx. apply effect_lastLoginOnly_views. }
  apply (useEffect_frame dispatchView); [intros x Hx; exact Hx | reflexivity].
Qed.

(** A render that is not the first ready one calls no ready callback and
    leaves the queue alone. *)
Lemma render_idle_ready (config : option PrivyWidgetConfig) (i : RenderInput) (w : World) :
  ready i && negb (hasDispatchedReady w) = false ->
  readyView (render config i w) = readyView w.
Proof.
  intros Hidle. unfold render. cbn zeta.
  match goal with
  | |- readyView (set_lastDeps _ ?x) = _ => change (readyView x = readyView w)
  end.
  apply (useEffect_frame readyView).
  { intros x Hx. rewrite <- Hx. apply effect_notifyAuth_views. }
  match goal with
  | |- readyView (useEffect ?c ?f ?y) = _ =>
      assert (Hy : readyView y = readyView w /\ dispatchView y = dispatchView w)
  end.
  { split.
    - apply (useEffect_frame readyView).
      { intros x Hx. rewrite <- Hx. apply effect_saveLoginType_views. }
      apply (useEffect_frame readyView).
      { intros x Hx. rewrite <- Hx. apply effect_lastLoginOnly_views. }
      apply (useEffect_frame readyView); [intros x Hx; exact Hx | reflexivity].
    - apply (useEffect_frame dispatchView).
      { intros x Hx. rewrite <- Hx. apply effect_saveLoginType_views. }
      apply (useEffect_frame dispatchView).
      { intros x Hx. rewrite <- Hx. apply effect_lastLoginOnly_views. }
      apply (useEffect_frame dispatchView); [intros x Hx; exact Hx | reflexivity]. }
  destruct Hy as (Hr & Hd).
  unfold useEffect at 1.
  match goal with |- readyView (if ?c then _ else _) = _ => destruct c end; [|exact Hr].
  rewrite effect_exposeApi_idle; [exact Hr|].
  assert (E : hasDispatchedReady _ = hasDispatchedReady w)
    by exact (f_equal (fun v => snd (fst v)) Hd).
  now rewrite E.
Qed.

(** The first ready render: the expose effect runs, and dispatches. *)
Lemma render_first_ready (config : option PrivyWidgetConfig) (i : RenderInput) (w : World) :
  ready i = true ->
  hasDispatchedReady w = false ->
  readyResolve w = true ->
  readyPromise w = Some Pending ->
  (forall r a, lastDeps w = Some (r, a) -> r = false) ->
  let api := {| api_ready := true; api_authenticated := authenticated i |} in
  let w' := render config i w in
  readyPromise w' = Some (Fulfilled api)
  /\ hasDispatchedReady w' = true
  /\ onReadyCallbacksRef w' = []
  /\ readySignals w'
     = readySignals w ++ [ReadyResolved api]
         ++ map (fun cb => ReadyCallbackCalled cb api) (onReadyCallbacksRef w)
         ++ [EventDispatched "privy-ready"]
  /\ dispatchSignals w'
     = dispatchSignals w ++ [ReadyResolved api; EventDispatched "privy-ready"].
Proof.
  intros Hready Hflag Hresolve Hpromise Hdeps. cbn zeta.
  unfold render. cbn zeta. rewrite Hready.
  assert (Hchanged :
            bool_decide (lastDeps w = None)
            || negb (bool_decide (fst <$> lastDeps w = Some true)) = true).
  { destruct (lastDeps w) as [[r a]|] eqn:Hd; [|reflexivity].
    rewrite (Hdeps r a eq_refl). reflexivity. }
  rewrite Hchanged. cbn [orb].
  set (wallets := renderWallets i w).
  match goal with
  | |- context [useEffect true (effect_exposeApi true (authenticated i)) ?x] => set (x0 := x)
  end.
  assert (Hx0 : dispatchView x0 = dispatchView w /\ readyView x0 = readyView w).
  { unfold x0. split.
    - apply (useEffect_frame dispatchView).
      { intros x Hx. rewrite <- Hx. apply effect_saveLoginType_views. }
      apply (useEffect_frame dispatchView).
      { intros x Hx. rewrite <- Hx. apply effect_lastLoginOnly_views. }
      apply (useEffect_frame dispatchView); [intros x Hx; exact Hx | reflexivity].
    - apply (useEffect_frame readyView).
      { intros x Hx. rewrite <- Hx. apply effect_saveLoginType_views. }
      apply (useEffect_frame readyView).
      { intros x Hx. rewrite <- Hx. apply effect_lastLoginOnly_views. }
      apply (useEffect_frame readyView); [intros x Hx; exact Hx | reflexivity]. }
  destruct Hx0 as (Hd0 & Hr0).
  pose proof (f_equal (fun v => fst (fst (fst v))) Hd0) as E1.
  pose proof (f_equal (fun v => snd (fst (fst v))) Hd0) as E2.
  pose proof (f_equal (fun v => snd (fst v)) Hd0) as E3.
  pose proof (f_equal snd Hd0) as E4.
  pose proof (f_equal fst Hr0) as E5.
  pose proof (f_equal snd Hr0) as E6.
  unfold dispatchView, readyView in E1, E2, E3, E4, E5, E6.
  cbn [fst snd] in E1, E2, E3, E4, E5, E6.
  destruct (effect_exposeApi_dispatch (authenticated i) x0
              ltac:(congruence) ltac:(congruence) ltac:(congruence))
    as (X1 & X2 & X3 & X4 & X5 & X6 & _ & _).
  change (useEffect true (effect_exposeApi true (authenticated i)) x0)
    with (effect_exposeApi true (authenticated i) x0).
  set (x1 := effect_exposeApi true (authenticated i) x0) in *.
  set (x2 := useEffect _ (effect_notifyAuth (authenticated i)) x1).
  assert (Hx2 : dispatchView x2 = dispatchView x1 /\ readyView x2 = readyView x1).
  { unfold x2. split.
    - apply (useEffect_frame dispatchView); [|reflexivity].
      intros x Hx. rewrite <- Hx. apply effect_notifyAuth_views.
    - apply (useEffect_frame readyView); [|reflexivity].
      intros x Hx. rewrite <- Hx. apply effect_notifyAuth_views. }
  destruct Hx2 as (Hd2 & Hr2).
  pose proof (f_equal (fun v => snd (fst (fst v))) Hd2) as F2.
  pose proof (f_equal (fun v => snd (fst v)) Hd2) as F3.
  pose proof (f_equal snd Hd2) as F4.
  pose proof (f_equal fst Hr2) as F5.
  pose proof (f_equal snd Hr2) as F6.
  unfold dispatchView, readyView in F2, F3, F4, F5, F6.
  cbn [fst snd] in F2, F3, F4, F5, F6.
  split; [change (readyPromise x2 = Some (Fulfilled {| api_ready := true; api_authenticated := authenticated i |})); congruence|].
  split; [change (hasDispatchedReady x2 = true); congruence|].
  split; [change (onReadyCallbacksRef x2 = []); congruence|].
  split.
  - change (readySignals x2
            = readySignals w ++ [ReadyResolved {| api_ready := true; api_authenticated := authenticated i |}]
                ++ map (fun cb => ReadyCallbackCalled cb {| api_ready := true; api_authenticated := authenticated i |})
                     (onReadyCallbacksRef w)
                ++ [EventDispatched "privy-ready"]).
    rewrite F6, X5, E5, E6. reflexivity.
  - change (dispatchSignals x2
            = dispatchSignals w ++ [ReadyResolved {| api_ready := true; api_authenticated := authenticated i |};
                                    EventDispatched "privy-ready"]).
    rewrite F4, X6, E4. reflexivity.
Qed.

(** *** Runs *)

Lemma step_idle_dispatch (config : option PrivyWidgetConfig) (a : Action) (w : World) :
  idleForDispatch a w = true -> dispatchView (step config a w) = dispatchView w.
Proof.
  destruct a as [i|api cb|api cb|u]; cbn [step idleForDispatch]; intros H.
  - apply render_idle_dispatch. now apply negb_true_iff in H.
  - apply api_onReady_views.
  - apply api_onAuthChange_views.
  - apply runUnsubscribe_views.
Qed.

Lemma step_lastDeps (config : option PrivyWidgetConfig) (a : Action) (w : World) :
  lastDeps (step config a w)
  = match a with
    | Render i => Some (ready i, authenticated i)
    | _ => lastDeps w
    end.
Proof.
  destruct a as [i|api cb|api cb|u]; cbn [step].
  - apply render_deps.
  - exact (f_equal snd (proj2 (proj2 (api_onReady_views api cb w)))).
  - exact (f_equal snd (proj2 (proj2 (proj2 (api_onAuthChange_views api cb w))))).
  - exact (f_equal snd (proj2 (proj2 (runUnsubscribe_views u w)))).
Qed.

Lemma run_cons (config : option PrivyWidgetConfig) (a : Action) (actions : list Action)
    (w : World) :
  run config (a :: actions) w = run config actions (step config a w).
Proof. reflexivity. Qed.

Lemma run_app (config : option PrivyWidgetConfig) (pre post : list Action) (w : World) :
  run config (pre ++ post) w = run config post (run config pre w).
Proof. unfold run. apply foldl_app. Qed.

(** Before the first ready render nothing of the dispatch has happened. *)
Lemma run_neverReady (config : option PrivyWidgetConfig) (actions : list Action) (w : World) :
  neverReady actions = true ->
  (forall r a, lastDeps w = Some (r, a) -> r = false) ->
  dispatchView (run config actions w) = dispatchView w
  /\ (forall r a, lastDeps (run config actions w) = Some (r, a) -> r = false).
Proof.
  revert w. induction actions as [|a actions IH]; intros w Hnever Hdeps.
  - split; [reflexivity | exact Hdeps].
  - rewrite run_cons. cbn [neverReady forallb] in Hnever.
    apply andb_prop in Hnever as [Ha Hrest].
    assert (Hidle : idleForDispatch a w = true).
    { destruct a as [i| | |]; try reflexivity. cbn [idleForDispatch].
      apply negb_true_iff in Ha. now rewrite Ha. }
    destruct (IH (step config a w) Hrest) as (H1 & H2).
    { intros r b. rewrite step_lastDeps. destruct a as [i| | |]; try apply Hdeps.
      intros [= <- <-]. now apply negb_true_iff in Ha. }
    split; [|exact H2].
    rewrite H1. now apply step_idle_dispatch.
Qed.

(** After the dispatch nothing of it happens again. *)
Lemma run_after_dispatch (config : option PrivyWidgetConfig) (actions : list Action)
    (w : World) :
  hasDispatchedReady w = true ->
  dispatchView (run config actions w) = dispatchView w.
Proof.
  revert w. induction actions as [|a actions IH]; intros w Hflag; [reflexivity|].
  rewrite run_cons.
  assert (Hstep : dispatchView (step config a w) = dispatchView w).
  { apply step_idle_dispatch. destruct a as [i| | |]; try reflexivity.
    cbn [idleForDispatch]. rewrite Hflag. now rewrite andb_false_r. }
  rewrite IH; [exact Hstep|].
  pose proof (f_equal (fun v => snd (fst v)) Hstep) as H. cbn in H. congruence.
Qed.

(** Outside the first ready render, the only calls of ready callbacks are
    those [onReady] makes at once. *)
Lemma step_idle_ready (config : option PrivyWidgetConfig) (a : Action) (w : World) :
  idleForDispatch a w = true ->
  readySignals (step config a w) = readySignals w ++ immediateReadyCalls [a].
Proof.
  destruct a as [i|api cb|api cb|u]; cbn [step idleForDispatch immediateReadyCalls flat_map];
    intros H; rewrite ?app_nil_r.
  - apply negb_true_iff in H. exact (f_equal snd (render_idle_ready config i w H)).
  - unfold api_onReady. cbn [fst]. destruct (api_ready api); [|now rewrite app_nil_r].
    apply callReadyCallback_views.
  - exact (f_equal snd (proj1 (proj2 (api_onAuthChange_views api cb w)))).
  - destruct u; reflexivity.
Qed.

Lemma immediateReadyCalls_cons (a : Action) (actions : list Action) :
  immediateReadyCalls (a :: actions) = immediateReadyCalls [a] ++ immediateReadyCalls actions.
Proof. unfold immediateReadyCalls. cbn [flat_map]. now rewrite app_nil_r. Qed.

(** Before the first ready render, and after the dispatch, no run drains
    the queue. *)
Lemma run_idle_ready (config : option PrivyWidgetConfig) (actions : list Action) (w : World) :
  neverReady actions = true \/ hasDispatchedReady w = true ->
  readySignals (run config actions w) = readySignals w ++ immediateReadyCalls actions.
Proof.
  revert w. induction actions as [|a actions IH]; intros w Hidle.
  - cbn. now rewrite app_nil_r.
  - rewrite run_cons, immediateReadyCalls_cons, app_assoc.
    assert (Ha : idleForDispatch a w = true).
    { destruct a as [i| | |]; try reflexivity. cbn [idleForDispatch].
      destruct Hidle as [Hnever | Hflag].
      - cbn [neverReady forallb] in Hnever. apply andb_prop in Hnever as [Hi _].
        apply negb_true_iff in Hi. now rewrite Hi.
      - rewrite Hflag. now rewrite andb_false_r. }
    rewrite <- (step_idle_ready config a w Ha).
    apply IH. destruct Hidle as [Hnever | Hflag].
    + left. cbn [neverReady forallb] in Hnever. now apply andb_prop in Hnever as [_ Hrest].
    + right. rewrite <- Hflag.
      exact (f_equal (fun v => snd (fst v)) (step_idle_dispatch config a w Ha)).
Qed.

(** ** The ready dispatch *)

(** C1. On a page whose island bundle is loaded, let [pre] be any actions
    with no ready render, [i] a render with the ready flag set, and [post]
    any actions at all.  Before [i] the promise is pending and no ready
    signal was sent: the only calls of ready callbacks are those [onReady]
    made at once.  The render [i] resolves the promise with its facade,
    then calls every queued ready callback in order and empties the queue,
    then dispatches 'privy-ready'.  Whatever follows, the promise keeps that
    value, the page has seen exactly that one resolution and that one
    event, and the only further calls of ready callbacks are again those
    [onReady] makes at once.  No later render repeats any part of the
    sequence: it sends no resolution and no event, calls no ready callback,
    and leaves the queue as it finds it, callbacks queued meanwhile
    included. *)
Theorem C1_ready_dispatch_once (config : option PrivyWidgetConfig)
    (storage : gmap string string) (pre post : list Action) (i : RenderInput) :
  neverReady pre = true ->
  ready i = true ->
  let w0 := run config pre (islandLoaded storage) in
  let w1 := render config i w0 in
  let w2 := run config post w1 in
  let api := {| api_ready := true; api_authenticated := authenticated i |} in
  (readyPromise w0 = Some Pending /\ hasDispatchedReady w0 = false /\ dispatchSignals w0 = []
   /\ readySignals w0 = immediateReadyCalls pre)
  /\ (readyPromise w1 = Some (Fulfilled api)
      /\ hasDispatchedReady w1 = true
      /\ onReadyCallbacksRef w1 = []
      /\ readySignals w1
         = readySignals w0 ++ [ReadyResolved api]
             ++ map (fun cb => ReadyCallbackCalled cb api) (onReadyCallbacksRef w0)
             ++ [EventDispatched "privy-ready"])
  /\ (readyPromise w2 = Some (Fulfilled api)
      /\ hasDispatchedReady w2 = true
      /\ dispatchSignals w2 = [ReadyResolved api; EventDispatched "privy-ready"]
      /\ readySignals w2 = readySignals w1 ++ immediateReadyCalls post)
  /\ (forall before j after,
        post = before ++ Render j :: after ->
        let x := run config before w1 in
        readySignals (render config j x) = readySignals x
        /\ dispatchSignals (render config j x) = dispatchSignals x
        /\ onReadyCallbacksRef (render config j x) = onReadyCallbacksRef x).
Proof.
  intros Hnever Hready. cbn zeta.
  destruct (run_neverReady config pre (islandLoaded storage) Hnever) as (Hview & Hdeps).
  { intros r a. discriminate. }
  pose proof (run_idle_ready config pre (islandLoaded storage) (or_introl Hnever)) as Hpre.
  set (w0 := run config pre (islandLoaded storage)) in *.
  assert (E1 : readyResolve w0 = true)
    by exact (f_equal (fun v => fst (fst (fst v))) Hview).
  assert (E2 : readyPromise w0 = Some Pending)
    by exact (f_equal (fun v => snd (fst (fst v))) Hview).
  assert (E3 : hasDispatchedReady w0 = false)
    by exact (f_equal (fun v => snd (fst v)) Hview).
  assert (E4 : dispatchSignals w0 = []) by exact (f_equal snd Hview).
  destruct (render_first_ready config i w0 Hready E3 E1 E2 Hdeps)
    as (R1 & R2 & R3 & R4 & R5).
  set (w1 := render config i w0) in *.
  pose proof (run_after_dispatch config post w1 R2) as Hpost.
  assert (P2 : readyPromise (run config post w1) = readyPromise w1)
    by exact (f_equal (fun v => snd (fst (fst v))) Hpost).
  assert (P3 : hasDispatchedReady (run config post w1) = hasDispatchedReady w1)
    by exact (f_equal (fun v => snd (fst v)) Hpost).
  assert (P4 : dispatchSignals (run config post w1) = dispatchSignals w1)
    by exact (f_equal snd Hpost).
  split; [repeat split; auto|]. split; [auto|]. split.
  - split; [congruence|]. split; [congruence|]. split.
    + rewrite P4, R5, E4. reflexivity.
    + apply run_idle_ready. now right.
  - intros before j after _.
    pose proof (run_after_dispatch config before w1 R2) as Hbefore.
    assert (B3 : hasDispatchedReady (run config before w1) = true).
    { rewrite <- R2. exact (f_equal (fun v => snd (fst v)) Hbefore). }
    set (x := run config before w1) in *.
    assert (Hidle : ready j && negb (hasDispatchedReady x) = false)
      by (rewrite B3; apply andb_false_r).
    pose proof (render_idle_ready config j x Hidle) as Hr.
    pose proof (render_idle_dispatch config j x Hidle) as Hd.
    split; [exact (f_equal snd Hr)|]. split; [exact (f_equal snd Hd)|].
    exact (f_equal fst Hr).
Qed.

(** A callback queued before the provider is ready is called at the first
    ready render, once.  Of the two that subscribe after it, the one that
    goes through a ready facade is called at once, by [onReady] itself; the
    one that goes through a facade kept from before is queued, and the
    ready render that follows leaves it there. *)
Lemma C1_ready_dispatch_once_witness :
  neverReady beforeReady = true
  /\ readySignals (render None readyLoggedOut (run None beforeReady (islandLoaded ∅)))
     = [ReadyResolved firstFacade;
        ReadyCallbackCalled (ExternalReadyCallback 1) firstFacade;
        EventDispatched "privy-ready"]
  /\ readySignals
       (run None afterReady
          (render None readyLoggedOut (run None beforeReady (islandLoaded ∅))))
     = [ReadyResolved firstFacade;
        ReadyCallbackCalled (ExternalReadyCallback 1) firstFacade;
        EventDispatched "privy-ready";
        ReadyCallbackCalled (ExternalReadyCallback 2) firstFacade]
  /\ onReadyCallbacksRef
       (run None afterReady
          (render None readyLoggedOut (run None beforeReady (islandLoaded ∅))))
     = [ExternalReadyCallback 3].
Proof.
  split; [reflexivity|].
  pose proof (C1_ready_dispatch_once None ∅ beforeReady afterReady readyLoggedOut
                eq_refl eq_refl) as H.
  cbv zeta in H. destruct H as (_ & (_ & _ & _ & Hdrain) & (_ & _ & _ & Honce) & Hlater).
  split; [exact Hdrain|]. split; [exact Honce|].
  destruct (Hlater [Render readyLoggedIn; CallOnReady firstFacade (ExternalReadyCallback 2);
                    CallOnReady {| api_ready := false; api_authenticated := false |}
                      (ExternalReadyCallback 3)]
              readyLoggedOut [] eq_refl) as (_ & _ & Hqueue).
  exact Hqueue.
Defined.

(** ** The last-login policy *)

Lemma effect_lastLoginOnly_idle (config : option PrivyWidgetConfig) (r a : bool)
    (ws : list Wallet.t) (w : World) :
  r && a && negb (length ws =? 0)%nat = false \/ hasCheckedLastLogin w = true ->
  effect_lastLoginOnly config r a ws w = w.
Proof.
  intros H. unfold effect_lastLoginOnly.
  destruct (negb (config_lastLoginOnly config)); [reflexivity|].
  destruct r, a, (length ws =? 0)%nat; cbn; try reflexivity.
  destruct H as [H|H]; [discriminate | now rewrite H].
Qed.

(** The outcome of the check depends on the world only through what the
    policy owns. *)
Lemma effect_lastLoginOnly_loginView (config : option PrivyWidgetConfig) (r a : bool)
    (ws : list Wallet.t) (x w : World) :
  loginView x = loginView w ->
  loginView (effect_lastLoginOnly config r a ws x)
  = loginView (effect_lastLoginOnly config r a ws w).
Proof.
  intros H.
  assert (H1 : hasCheckedLastLogin x = hasCheckedLastLogin w)
    by exact (f_equal (fun v => fst (fst v)) H).
  assert (H2 : localStorage x = localStorage w)
    by exact (f_equal (fun v => snd (fst v)) H).
  assert (H3 : logoutCalls x = logoutCalls w) by exact (f_equal snd H).
  unfold effect_lastLoginOnly.
  destruct (negb (config_lastLoginOnly config)); [exact H|].
  destruct (negb r || negb a || (length ws =? 0)%nat); [exact H|].
  rewrite H1. destruct (hasCheckedLastLogin w); [exact H|].
  cbn [localStorage set_hasCheckedLastLogin]. rewrite H2.
  destruct (truthy_opt (localStorage w !! LAST_LOGIN_KEY)
            && truthy_opt (Wallet.walletClientType <$> ws !! 0%nat)
            && negb (bool_decide (localStorage w !! LAST_LOGIN_KEY
                                  = Wallet.walletClientType <$> ws !! 0%nat))).
  - unfold loginView, logoutCalls. rewrite !trace_log, !List.filter_app, !length_app.
    cbn. unfold logoutCalls in H3. now rewrite H2, H3.
  - destruct (Wallet.walletClientType <$> ws !! 0%nat) as [t|].
    + destruct (truthy t).
      * unfold loginView, setItem. cbn. unfold logoutCalls in H3 |- *. cbn. now rewrite H2, H3.
      * unfold loginView. cbn. unfold logoutCalls in H3 |- *. cbn. now rewrite H2, H3.
    + unfold loginView. cbn. unfold logoutCalls in H3 |- *. cbn. now rewrite H2, H3.
Qed.

Lemma useEffect_frame_value {V : Type} (view : World -> V) (v : V) (changed : bool)
    (effect : World -> World) (w : World) :
  (forall x, view x = v -> view (effect x) = v) ->
  view w = v ->
  view (useEffect changed effect w) = v.
Proof. intros Heffect Hw. unfold useEffect. destruct changed; auto. Qed.

(** In strict mode a render that does not qualify, or comes after the check,
    leaves alone what the policy owns. *)
Lemma render_idle_login (config : option PrivyWidgetConfig) (i : RenderInput) (w : World) :
  config_lastLoginOnly config = true ->
  qualifies i w = false \/ hasCheckedLastLogin w = true ->
  loginView (render config i w) = loginView w.
Proof.
  intros Hstrict Hidle. unfold render. cbn zeta.
  match goal with
  | |- loginView (set_lastDeps _ ?x) = _ => change (loginView x = loginView w)
  end.
  apply (useEffect_frame loginView).
  { intros x Hx. rewrite <- Hx. apply effect_notifyAuth_views. }
  apply (useEffect_frame loginView).
  { intros x Hx. rewrite <- Hx. apply effect_exposeApi_views. }
  apply (useEffect_frame loginView).
  { intros x Hx. rewrite <- Hx. now apply effect_saveLoginType_views. }
  apply (useEffect_frame loginView).
  { intros x Hx. rewrite effect_lastLoginOnly_idle; [exact Hx|].
    destruct Hidle as [Hq | Hc]; [left; exact Hq | right].
    rewrite <- Hc. exact (f_equal (fun v => fst (fst v)) Hx). }
  apply (useEffect_frame loginView); [intros x Hx; exact Hx | reflexivity].
Qed.

(** In strict mode the first qualifying render performs the check. *)
Lemma render_first_qualifying (config : option PrivyWidgetConfig) (i : RenderInput)
    (w : World) :
  config_lastLoginOnly config = true ->
  previousUnqualified w ->
  qualifies i w = true ->
  loginView (render config i w)
  = loginView (effect_lastLoginOnly config true true (renderWallets i w) w).
Proof.
  intros Hstrict Hprev Hq. unfold render. cbn zeta.
  unfold qualifies in Hq.
  apply andb_prop in Hq as [Hq Hne]. apply andb_prop in Hq as [Hr Ha].
  assert (Hchanged :
            bool_decide (lastDeps w = None)
            || negb (bool_decide (fst <$> lastDeps w = Some (ready i)))
            || (bool_decide (lastDeps w = None)
                || negb (bool_decide (snd <$> lastDeps w = Some (authenticated i))))
            || (bool_decide (lastDeps w = None) || bool_decide (is_Some (newWallets i)))
            || (bool_decide (lastDeps w = None) || newActions i) = true).
  { destruct (lastDeps w) as [[r a]|] eqn:Hd; [|reflexivity].
    destruct (newWallets i) as [ws|] eqn:Hnew.
    - rewrite (bool_decide_eq_true_2 (is_Some (Some ws))) by eauto.
      cbn. now rewrite !orb_true_r.
    - pose proof (Hprev r a Hd) as Hp.
      unfold renderWallets in Hne. rewrite Hnew in Hne. cbn in Hne.
      rewrite Hne, andb_true_r in Hp. rewrite Hr, Ha.
      destruct r, a; try discriminate; reflexivity. }
  rewrite Hchanged, Hr, Ha.
  match goal with
  | |- loginView (set_lastDeps _ ?x) = _ =>
      change (loginView x
              = loginView (effect_lastLoginOnly config true true (renderWallets i w) w))
  end.
  apply (useEffect_frame_value loginView).
  { intros x Hx. rewrite <- Hx. apply effect_notifyAuth_views. }
  apply (useEffect_frame_value loginView).
  { intros x Hx. rewrite <- Hx. apply effect_exposeApi_views. }
  apply (useEffect_frame_value loginView).
  { intros x Hx. rewrite <- Hx. now apply effect_saveLoginType_views. }
  unfold useEffect at 1.
  apply effect_lastLoginOnly_loginView.
  apply (useEffect_frame loginView); [intros x Hx; exact Hx | reflexivity].
Qed.

Lemma step_idle_login (config : option PrivyWidgetConfig) (a : Action) (w : World) :
  config_lastLoginOnly config = true ->
  idleForLogin a w = true ->
  loginView (step config a w) = loginView w.
Proof.
  intros Hstrict. destruct a as [i|api cb|api cb|u]; cbn [step idleForLogin]; intros H.
  - apply render_idle_login; [exact Hstrict|].
    apply orb_prop in H as [H|H]; [left; now apply negb_true_iff | now right].
  - apply api_onReady_views.
  - apply api_onAuthChange_views.
  - apply runUnsubscribe_views.
Qed.

Lemma step_walletsRef (config : option PrivyWidgetConfig) (a : Action) (w : World) :
  walletsRef (step config a w)
  = match a with
    | Render i => renderWallets i w
    | _ => walletsRef w
    end.
Proof.
  destruct a as [i|api cb|api cb|u]; cbn [step].
  - apply render_deps.
  - exact (f_equal fst (proj2 (proj2 (api_onReady_views api cb w)))).
  - exact (f_equal fst (proj2 (proj2 (proj2 (api_onAuthChange_views api cb w))))).
  - exact (f_equal fst (proj2 (proj2 (runUnsubscribe_views u w)))).
Qed.

(** Before the first qualifying render the policy has done nothing. *)
Lemma run_neverQualified (config : option PrivyWidgetConfig) (actions : list Action)
    (w : World) :
  config_lastLoginOnly config = true ->
  neverQualified config actions w = true ->
  previousUnqualified w ->
  loginView (run config actions w) = loginView w
  /\ previousUnqualified (run config actions w).
Proof.
  intros Hstrict. revert w. induction actions as [|a actions IH]; intros w Hnever Hprev.
  - split; [reflexivity | exact Hprev].
  - rewrite run_cons. cbn [neverQualified] in Hnever.
    apply andb_prop in Hnever as [Ha Hrest].
    destruct (IH (step config a w) Hrest) as (H1 & H2).
    { intros r b. rewrite step_lastDeps, step_walletsRef.
      destruct a as [i| | |]; try apply Hprev.
      intros [= <- <-]. apply negb_true_iff in Ha. exact Ha. }
    split; [|exact H2].
    rewrite H1. apply step_idle_login; [exact Hstrict|].
    destruct a as [i| | |]; try reflexivity.
    cbn [idleForLogin]. now rewrite Ha.
Qed.

(** After the check the policy does nothing more. *)
Lemma run_after_check (config : option PrivyWidgetConfig) (actions : list Action)
    (w : World) :
  config_lastLoginOnly config = true ->
  hasCheckedLastLogin w = true ->
  loginView (run config actions w) = loginView w.
Proof.
  intros Hstrict. revert w. induction actions as [|a actions IH]; intros w Hflag;
    [reflexivity|].
  rewrite run_cons.
  assert (Hstep : loginView (step config a w) = loginView w).
  { apply step_idle_login; [exact Hstrict|]. destruct a as [i| | |]; try reflexivity.
    cbn [idleForLogin]. rewrite Hflag. now rewrite orb_true_r. }
  rewrite IH; [exact Hstep|].
  rewrite <- Hflag. exact (f_equal (fun v => fst (fst v)) Hstep).
Qed.

(** The check, run where nothing was checked yet. *)
Lemma effect_lastLoginOnly_check (config : option PrivyWidgetConfig) (ws : list Wallet.t)
    (w : World) :
  config_lastLoginOnly config = true ->
  hasCheckedLastLogin w = false ->
  (length ws =? 0)%nat = false ->
  let w' := effect_lastLoginOnly config true true ws w in
  hasCheckedLastLogin w' = true
  /\ (forall l c,
        localStorage w !! LAST_LOGIN_KEY = Some l ->
        Wallet.walletClientType <$> ws !! 0%nat = Some c ->
        l <> "" -> c <> "" -> l <> c ->
        logoutCalls w' = S (logoutCalls w) /\ localStorage w' = localStorage w)
  /\ (forall c,
        Wallet.walletClientType <$> ws !! 0%nat = Some c ->
        c <> "" ->
        localStorage w !! LAST_LOGIN_KEY = None \/ localStorage w !! LAST_LOGIN_KEY = Some c
        \/ localStorage w !! LAST_LOGIN_KEY = Some "" ->
        logoutCalls w' = logoutCalls w
        /\ localStorage w' = <[LAST_LOGIN_KEY := c]> (localStorage w))
  /\ (Wallet.walletClientType <$> ws !! 0%nat = Some "" ->
      logoutCalls w' = logoutCalls w /\ localStorage w' = localStorage w).
Proof.
  intros Hstrict Hflag Hlen. cbn zeta. unfold effect_lastLoginOnly.
  rewrite Hstrict, Hlen, Hflag. cbn [negb orb localStorage set_hasCheckedLastLogin].
  split; [|split; [|split]].
  - repeat match goal with
           | |- context [if ?c then _ else _] => destruct c
           | |- context [match ?o with Some _ => _ | None => _ end] => destruct o
           end; reflexivity.
  - intros l c Hl Hc Hl_ne Hc_ne Hdiff. rewrite Hl, Hc.
    cbn [truthy_opt]. unfold truthy.
    apply String.eqb_neq in Hl_ne, Hc_ne. rewrite Hl_ne, Hc_ne.
    rewrite bool_decide_eq_false_2 by congruence.
    cbn [negb andb]. split; [|reflexivity].
    unfold logoutCalls. rewrite !trace_log, !List.filter_app, !length_app. cbn. lia.
  - intros c Hc Hc_ne Hlast. rewrite Hc.
    assert (Hcond : truthy_opt (localStorage w !! LAST_LOGIN_KEY) && truthy_opt (Some c)
                    && negb (bool_decide (localStorage w !! LAST_LOGIN_KEY = Some c)) = false).
    { destruct Hlast as [-> | [-> | ->]].
      - reflexivity.
      - rewrite bool_decide_eq_true_2 by reflexivity. now rewrite andb_false_r.
      - reflexivity. }
    rewrite Hcond. unfold truthy. apply String.eqb_neq in Hc_ne. rewrite Hc_ne.
    cbn [negb]. split; reflexivity.
  - intros Hc. rewrite Hc. cbn [truthy_opt]. unfold truthy. cbn [String.eqb negb].
    rewrite andb_false_r. cbn [andb]. split; reflexivity.
Qed.

(** C5 (amended). In strict last-login mode, at the first render that sees
    the provider ready and authenticated with a non-empty wallet list, the
    persisted value is compared with the client type of the first wallet of
    the list, [wallets[0]], whichever wallet is the active one.  If a
    persisted value exists and differs from that client type, logout is
    called once and the persisted value stays; if the persisted value equals
    that client type, or none is persisted, that client type is persisted
    and logout is not called.  An empty string counts as no value: persisted,
    it is overwritten; as the client type, nothing is compared or written.
    Before that render the policy has done nothing, and after it the policy
    neither calls logout nor writes the storage again; what the page leaves
    under the key is never the empty string unless it found it there. *)
Theorem C5_strict_last_login (config : option PrivyWidgetConfig)
    (storage : gmap string string) (pre post : list Action) (i : RenderInput) :
  config_lastLoginOnly config = true ->
  neverQualified config pre (islandLoaded storage) = true ->
  qualifies i (run config pre (islandLoaded storage)) = true ->
  let w0 := run config pre (islandLoaded storage) in
  let w1 := render config i w0 in
  let w2 := run config post w1 in
  (hasCheckedLastLogin w0 = false /\ localStorage w0 = storage /\ logoutCalls w0 = 0%nat)
  /\ (exists first rest,
        renderWallets i w0 = first :: rest
        /\ firstClientType i w0 = Some (Wallet.walletClientType first))
  /\ (forall l c,
        storage !! LAST_LOGIN_KEY = Some l ->
        firstClientType i w0 = Some c ->
        l <> "" -> c <> "" -> l <> c ->
        logoutCalls w1 = 1%nat /\ localStorage w1 = storage)
  /\ (forall c,
        firstClientType i w0 = Some c ->
        c <> "" ->
        storage !! LAST_LOGIN_KEY = None \/ storage !! LAST_LOGIN_KEY = Some c ->
        logoutCalls w1 = 0%nat /\ localStorage w1 = <[LAST_LOGIN_KEY := c]> storage)
  /\ ((forall c,
         firstClientType i w0 = Some c ->
         c <> "" ->
         storage !! LAST_LOGIN_KEY = Some "" ->
         logoutCalls w1 = 0%nat /\ localStorage w1 = <[LAST_LOGIN_KEY := c]> storage)
      /\ (firstClientType i w0 = Some "" ->
          logoutCalls w1 = 0%nat /\ localStorage w1 = storage))
  /\ (hasCheckedLastLogin w1 = true
      /\ logoutCalls w2 = logoutCalls w1
      /\ localStorage w2 = localStorage w1)
  /\ (storage !! LAST_LOGIN_KEY <> Some "" -> localStorage w2 !! LAST_LOGIN_KEY <> Some "").
Proof.
  intros Hstrict Hnever Hq. cbn zeta.
  destruct (run_neverQualified config pre (islandLoaded storage) Hstrict Hnever)
    as (Hview & Hprev).
  { intros r a. discriminate. }
  set (w0 := run config pre (islandLoaded storage)) in *.
  assert (E1 : hasCheckedLastLogin w0 = false)
    by exact (f_equal (fun v => fst (fst v)) Hview).
  assert (E2 : localStorage w0 = storage)
    by exact (f_equal (fun v => snd (fst v)) Hview).
  assert (E3 : logoutCalls w0 = 0%nat) by exact (f_equal snd Hview).
  pose proof (render_first_qualifying config i w0 Hstrict Hprev Hq) as Hrender.
  assert (Hlen : (length (renderWallets i w0) =? 0)%nat = false).
  { unfold qualifies in Hq. apply andb_prop in Hq as [_ Hq]. now apply negb_true_iff. }
  destruct (effect_lastLoginOnly_check config (renderWallets i w0) w0 Hstrict E1 Hlen)
    as (C1 & C2 & C3 & C4).
  set (w1 := render config i w0) in *.
  set (v := effect_lastLoginOnly config true true (renderWallets i w0) w0) in *.
  assert (R1 : hasCheckedLastLogin w1 = hasCheckedLastLogin v)
    by exact (f_equal (fun v => fst (fst v)) Hrender).
  assert (R2 : localStorage w1 = localStorage v)
    by exact (f_equal (fun v => snd (fst v)) Hrender).
  assert (R3 : logoutCalls w1 = logoutCalls v) by exact (f_equal snd Hrender).
  assert (Hchecked : hasCheckedLastLogin w1 = true) by congruence.
  pose proof (run_after_check config post w1 Hstrict Hchecked) as Hpost.
  assert (P2 : localStorage (run config post w1) = localStorage w1)
    by exact (f_equal (fun v => snd (fst v)) Hpost).
  assert (Hfirst : exists first rest,
             renderWallets i w0 = first :: rest
             /\ firstClientType i w0 = Some (Wallet.walletClientType first)).
  { unfold firstClientType. destruct (renderWallets i w0) as [|first rest]; [discriminate|].
    now exists first, rest. }
  assert (Hdiffer : forall l c,
             storage !! LAST_LOGIN_KEY = Some l ->
             firstClientType i w0 = Some c ->
             l <> "" -> c <> "" -> l <> c ->
             logoutCalls w1 = 1%nat /\ localStorage w1 = storage).
  { intros l c Hl Hc Hl_ne Hc_ne Hdiff.
    destruct (C2 l c) as (K1 & K2); auto; [now rewrite E2|].
    rewrite R2, R3, K1, K2, E2, E3. auto. }
  assert (Hsave : forall c,
             firstClientType i w0 = Some c ->
             c <> "" ->
             storage !! LAST_LOGIN_KEY = None \/ storage !! LAST_LOGIN_KEY = Some c
             \/ storage !! LAST_LOGIN_KEY = Some "" ->
             logoutCalls w1 = 0%nat /\ localStorage w1 = <[LAST_LOGIN_KEY := c]> storage).
  { intros c Hc Hc_ne Hlast.
    destruct (C3 c) as (K1 & K2); auto; [now rewrite E2|].
    rewrite R2, R3, K1, K2, E2, E3. auto. }
  assert (Hempty : firstClientType i w0 = Some "" ->
                   logoutCalls w1 = 0%nat /\ localStorage w1 = storage).
  { intros Hc. destruct (C4 Hc) as (K1 & K2). rewrite R2, R3, K1, K2, E2, E3. auto. }
  split; [auto|]. split; [exact Hfirst|]. split; [exact Hdiffer|].
  split; [intros c Hc Hne [H|H]; apply (Hsave c); auto|].
  split; [split; [intros c Hc Hne H; apply (Hsave c); auto | exact Hempty]|].
  split; [split; [exact Hchecked | split; [exact (f_equal snd Hpost) | exact P2]]|].
  intros Hclean. rewrite P2.
  destruct Hfirst as (first & rest & _ & Hc).
  destruct (String.eqb_spec (Wallet.walletClientType first) "") as [He | Hne].
  - rewrite He in Hc. destruct (Hempty Hc) as (_ & ->). exact Hclean.
  - destruct (storage !! LAST_LOGIN_KEY) as [l|] eqn:Hl.
    + destruct (String.eqb_spec l (Wallet.walletClientType first)) as [-> | Hdiff].
      * destruct (Hsave _ Hc Hne) as (_ & ->); [auto|].
        rewrite lookup_insert_eq. congruence.
      * destruct (Hdiffer l _ eq_refl Hc) as (_ & ->); auto; congruence.
    + destruct (Hsave _ Hc Hne) as (_ & ->); [auto|].
      rewrite lookup_insert_eq. congruence.
Qed.

(** A session stored as 'metamask', a page that comes back with the embedded
    wallet first: logout, and the stored value stays. *)
Lemma C5_strict_last_login_witness :
  logoutCalls (render strictConfig readyLoggedIn
                 (run strictConfig [Render readyLoggedOut]
                    (islandLoaded {[LAST_LOGIN_KEY := "metamask"]}))) = 1%nat
  /\ localStorage (render strictConfig readyLoggedIn
                     (run strictConfig [Render readyLoggedOut]
                        (islandLoaded {[LAST_LOGIN_KEY := "metamask"]})))
     = {[LAST_LOGIN_KEY := "metamask"]}.
Proof.
  refine (proj1 (proj2 (proj2
    (C5_strict_last_login strictConfig {[LAST_LOGIN_KEY := "metamask"]}
       [Render readyLoggedOut] [Render readyLoggedOut; Render readyLoggedIn]
       readyLoggedIn eq_refl eq_refl eq_refl)))
    "metamask" "privy" eq_refl eq_refl _ _ _); discriminate.
Defined.

(** The last session was the embedded wallet's, and 'privy' is persisted.
    The page comes back logged in with the browser's injected wallet listed
    before the embedded one.  The active wallet, the one every signer and
    [getActiveWallet] use, is the embedded wallet, and its client type is
    the persisted one; yet the check compares [wallets[0]] and calls
    logout. *)
Lemma C5_counterexample_first_wallet_is_not_active :
  config_lastLoginOnly strictConfig = true
  /\ qualifies readyInjectedFirst (islandLoaded {[LAST_LOGIN_KEY := "privy"]}) = true
  /\ localStorage (islandLoaded {[LAST_LOGIN_KEY := "privy"]}) !! LAST_LOGIN_KEY
     = Some "privy"
  /\ activeWallet (renderWallets readyInjectedFirst (islandLoaded {[LAST_LOGIN_KEY := "privy"]}))
       privyWallet
  /\ WalletInfo.walletClientType
       <$> getActiveWallet
             (renderWallets readyInjectedFirst (islandLoaded {[LAST_LOGIN_KEY := "privy"]}))
     = Some "privy"
  /\ logoutCalls (render strictConfig readyInjectedFirst
                    (islandLoaded {[LAST_LOGIN_KEY := "privy"]})) = 1%nat
  /\ localStorage (render strictConfig readyInjectedFirst
                     (islandLoaded {[LAST_LOGIN_KEY := "privy"]}))
     = {[LAST_LOGIN_KEY := "privy"]}.
Proof.
  split; [reflexivity|]. split; [reflexivity|]. split; [reflexivity|]. split.
  { apply (activeEmbedded [metamaskWallet] privyWallet []); [|reflexivity].
    constructor; [discriminate | constructor]. }
  vm_compute. repeat split.
Qed.

(** A notification that reaches the consumer's handler leaves the shared
    state in step with the provider, whatever else is subscribed. *)
Lemma notify_consumer_state (a : bool) (cbs : list AuthCallback) (w : World) :
  (exists instance, ConsumerAuthHandler instance ∈ cbs) ->
  let w' := foldl (fun w cb => callAuthCallback cb a w) w cbs in
  globalIsConnected w' = a
  /\ globalWallet w' = (if a then getActiveWallet (walletsRef w) else None).
Proof.
  cbn zeta. induction cbs as [|c cbs IH] using rev_ind; intros (instance & Hin).
  - inversion Hin.
  - rewrite foldl_app. cbn [foldl].
    set (x := foldl (fun w cb => callAuthCallback cb a w) w cbs) in *.
    assert (Hwallets : walletsRef x = walletsRef w).
    { exact (f_equal fst (proj1 (proj2 (proj2 (proj2 (notify_views a cbs w)))))). }
    destruct c as [id|n].
    + apply elem_of_app in Hin as [Hin|Hin].
      * exact (IH (ex_intro _ instance Hin)).
      * apply list_elem_of_singleton in Hin. discriminate.
    + cbn. rewrite Hwallets. split; reflexivity.
Qed.

Lemma effect_notifyAuth_consumer (a : bool) (instance : nat) (w : World) :
  ConsumerAuthHandler instance ∈ authCallbacksRef w ->
  globalIsConnected (effect_notifyAuth a w) = a
  /\ globalWallet (effect_notifyAuth a w)
     = (if a then api_getActiveWallet (effect_notifyAuth a w) else None).
Proof.
  intros Hin.
  destruct (notify_consumer_state a (authCallbacksRef w) w (ex_intro _ instance Hin))
    as (H1 & H2).
  split; [exact H1|].
  unfold api_getActiveWallet.
  assert (Hwallets : walletsRef (effect_notifyAuth a w) = walletsRef w)
    by exact (f_equal fst (proj2 (proj2 (proj2 (effect_notifyAuth_views a w))))).
  rewrite Hwallets. exact H2.
Qed.

(** * More of the code: properties *)

(** ** Signers: which wallet, which request *)

(** X1. Whatever [getAddress] returns is the address of the snapshot that
    [getActiveWallet] returns, and it is never the empty string; it returns
    null exactly when there is no wallet or the active wallet's address is
    empty. *)
Theorem evmGetAddress_agrees_with_getActiveWallet (ws : list Wallet.t) :
  (forall a,
      evmGetAddress ws = Some a ->
      a <> ""
      /\ exists info, getActiveWallet ws = Some info /\ WalletInfo.address info = a)
  /\ (evmGetAddress ws = None <->
      ws = []
      \/ exists info, getActiveWallet ws = Some info /\ WalletInfo.address info = "").
Proof.
  rewrite getActiveWallet_getEvmWallet. unfold evmGetAddress.
  pose proof (getEvmWallet_None ws) as Hnone.
  destruct (getEvmWallet ws) as [active|] eqn:Hw; cbn.
  - unfold truthy. destruct (String.eqb_spec (Wallet.address active) "") as [He|Hne]; cbn.
    + split; [discriminate|]. split; [|reflexivity].
      intros _. right. exists (snapshot active). split; [reflexivity | exact He].
    + split.
      * intros a [= <-]. split; [exact Hne|]. now exists (snapshot active).
      * split; [discriminate|]. intros [Hempty | (info & [= <-] & Haddr)].
        -- apply Hnone in Hempty. discriminate.
        -- contradiction.
  - split; [discriminate|]. split; [|reflexivity]. intros _. left. now apply Hnone.
Qed.

(** X2. When a wallet is connected, a signing call sends nothing or one
    request, and that request names the address of [getActiveWallet]'s
    snapshot: [personal_sign] with the message first, [eth_signTypedData_v4]
    with the address first; an object is sent as its JSON text, the same
    request as the pre-serialised string. *)
Theorem signing_requests_name_active_wallet (ws : list Wallet.t) (info : WalletInfo.t) :
  getActiveWallet ws = Some info ->
  (forall m,
      fst (evmSignMessage ws m) = []
      \/ fst (evmSignMessage ws m)
         = [{| method := "personal_sign";
               params := [PString m; PString (WalletInfo.address info)] |}])
  /\ (forall s,
        fst (evmSignTypedData ws (TDString s)) = []
        \/ fst (evmSignTypedData ws (TDString s))
           = [{| method := "eth_signTypedData_v4";
                 params := [PString (WalletInfo.address info); PString s] |}])
  /\ (forall json, evmSignTypedData ws (TDObject json) = evmSignTypedData ws (TDString json)).
Proof.
  rewrite getActiveWallet_getEvmWallet. unfold evmSignMessage, evmSignTypedData.
  destruct (getEvmWallet ws) as [active|]; [|discriminate].
  intros [= <-]. cbn [snapshot WalletInfo.address].
  destruct (Wallet.getEthereumProvider active) as [p|e]; cbn.
  - split; [|split; [|reflexivity]].
    + intros m. right.
      destruct (p {| method := "personal_sign";
                     params := [PString m; PString (Wallet.address active)] |}); reflexivity.
    + intros s. right.
      destruct (p {| method := "eth_signTypedData_v4";
                     params := [PString (Wallet.address active); PString s] |}); reflexivity.
  - split; [|split; [|reflexivity]]; intros; now left.
Qed.

Lemma signing_requests_name_active_wallet_witness :
  fst (evmSignMessage [metamaskWallet; privyWallet] "hello")
  = [{| method := "personal_sign";
        params := [PString "hello"; PString (Wallet.address privyWallet)] |}].
Proof.
  destruct (proj1 (signing_requests_name_active_wallet [metamaskWallet; privyWallet]
                     (snapshot privyWallet) eq_refl) "hello") as [H|H].
  - discriminate H.
  - exact H.
Defined.

(** X3. When the active wallet's provider cannot be obtained, every
    asynchronous signer operation rejects with that very error and sends
    nothing: [getChainId] does not give null and [switchChain] does not give
    false.  [secp256k1Sign] does so once its embedded-wallet guard is passed. *)
Theorem provider_failure_propagates (ws : list Wallet.t) (active : Wallet.t) (e : Thrown) :
  getEvmWallet ws = Some active ->
  Wallet.getEthereumProvider active = Rejected e ->
  evmGetProvider ws = ([], Rejected e)
  /\ (forall m, evmSignMessage ws m = ([], Rejected e))
  /\ (forall d, evmSignTypedData ws d = ([], Rejected e))
  /\ evmGetChainId ws = ([], Rejected e)
  /\ (forall c, evmSwitchChain ws c = ([], Rejected e))
  /\ (forall h,
        evmSecp256k1Sign ws h
        = ([], Rejected (if isPrivy active then e else notEmbeddedError))).
Proof.
  intros Hw He.
  unfold evmGetProvider, evmSignMessage, evmSignTypedData, evmGetChainId, evmSwitchChain,
    evmSecp256k1Sign.
  rewrite Hw, He. repeat split. intros h. destruct (isPrivy active); reflexivity.
Qed.

Lemma provider_failure_propagates_witness :
  evmSwitchChain [lockedWallet] 42161 = ([], Rejected (Error "wallet is locked"))
  /\ evmGetChainId [lockedWallet] = ([], Rejected (Error "wallet is locked")).
Proof.
  destruct (provider_failure_propagates [lockedWallet] lockedWallet (Error "wallet is locked")
              eq_refl eq_refl) as (_ & _ & _ & Hchain & Hswitch & _).
  split; [exact (Hswitch 42161%Z) | exact Hchain].
Defined.

(** ** Chain ids: what [switchChain] writes, [getChainId] reads *)

Fixpoint hexPrefix_of_pos (p : positive) (rest : string) {struct p} :
  hexPrefix (HexString.Raw.of_pos p rest) None = hexPrefix rest (Some (Z.pos p)).
Proof.
  do 4 try destruct p as [p|p|]; try reflexivity;
    cbn [HexString.Raw.of_pos]; rewrite hexPrefix_of_pos;
    cbn [hexPrefix]; (cbn; f_equal; f_equal; lia).
Qed.

Lemma parseInt16_marker (digits : string) :
  parseInt16 ("0x" +:+ digits)
  = match hexPrefix digits None with
    | Some n => toNumber false n
    | None => NaN
    end.
Proof. reflexivity. Qed.

Lemma parseInt16_toString16 (n : Z) :
  parseInt16 ("0x" +:+ toString16 n) = if (0 <=? n)%Z then toNumber false n else NaN.
Proof.
  rewrite parseInt16_marker.
  destruct n as [|p|p]; [reflexivity| |reflexivity].
  unfold toString16. rewrite hexPrefix_of_pos. cbn [hexPrefix].
  change (0 <=? Z.pos p)%Z with true. reflexivity.
Qed.

(** Up to [2^53] every integer is a double. *)
Lemma roundToDouble_safe (n : Z) : (0 <= n <= 2 ^ 53)%Z -> roundToDouble n = n.
Proof.
  intros [Hlo Hhi]. unfold roundToDouble.
  destruct (Z.eq_dec n (2 ^ 53)%Z) as [-> | Hne]; [reflexivity|].
  assert (Hlog : (Z.log2 n - 52 <= 0)%Z).
  { destruct (Z.eq_dec n 0%Z) as [-> | Hpos]; [discriminate|].
    assert (Z.log2 n < 53)%Z by (apply Z.log2_lt_pow2; lia). lia. }
  apply Z.leb_le in Hlog. now rewrite Hlog.
Qed.

Lemma toNumber_safe (n : Z) : (0 <= n <= 2 ^ 53)%Z -> toNumber false n = Num n.
Proof.
  intros Hn. unfold toNumber. rewrite (roundToDouble_safe n Hn).
  destruct (Z.eqb_spec n 0%Z) as [-> | Hne]; [reflexivity|].
  assert (Hsmall : (Z.shiftl 1 1024 <=? n)%Z = false).
  { apply Z.leb_gt. apply Z.le_lt_trans with (2 ^ 53)%Z; [apply Hn | reflexivity]. }
  now rewrite Hsmall.
Qed.

(** X4. [getChainId] reads back the chain id in the spelling [switchChain]
    sends it: when the provider answers ['eth_chainId'] with ["0x"] followed
    by [chainId.toString(16)], [getChainId] resolves to the double nearest
    to [chainId] when [chainId >= 0], which is [chainId] itself up to
    [2^53], and to NaN when [chainId] is negative (["0x-..."] has no hex
    digit after the marker). *)
Theorem getChainId_reads_switchChain_spelling (ws : list Wallet.t) (active : Wallet.t)
    (provider : Provider) (chainId : Z) :
  getEvmWallet ws = Some active ->
  Wallet.getEthereumProvider active = Resolved provider ->
  provider {| method := "eth_chainId"; params := [] |}
    = Resolved ("0x" +:+ toString16 chainId) ->
  params (switchRequest chainId) = [PChainId ("0x" +:+ toString16 chainId)]
  /\ evmGetChainId ws
     = ([{| method := "eth_chainId"; params := [] |}],
        Resolved (Some (if (0 <=? chainId)%Z then toNumber false chainId else NaN)))
  /\ ((0 <= chainId <= 2 ^ 53)%Z ->
      evmGetChainId ws
      = ([{| method := "eth_chainId"; params := [] |}], Resolved (Some (Num chainId))))
  /\ ((chainId < 0)%Z ->
      evmGetChainId ws = ([{| method := "eth_chainId"; params := [] |}], Resolved (Some NaN))).
Proof.
  intros Hw Hp Hanswer. split; [reflexivity|].
  assert (Hrun : evmGetChainId ws
                 = ([{| method := "eth_chainId"; params := [] |}],
                    Resolved (Some (if (0 <=? chainId)%Z
                                    then toNumber false chainId else NaN)))).
  { unfold evmGetChainId. rewrite Hw, Hp. cbn. rewrite Hanswer. cbn.
    now rewrite parseInt16_toString16. }
  split; [exact Hrun|]. split.
  - intros Hn. rewrite Hrun, (toNumber_safe chainId Hn).
    destruct (Z.leb_spec 0 chainId); [reflexivity | lia].
  - intros Hn. rewrite Hrun.
    destruct (Z.leb_spec 0 chainId); [lia | reflexivity].
Qed.

(** Arbitrum One is read back; [2^53 + 1] comes back as [2^53]; a negative
    chain id comes back as NaN. *)
Lemma getChainId_reads_switchChain_spelling_witness :
  evmGetChainId [walletOn 42161]
    = ([{| method := "eth_chainId"; params := [] |}], Resolved (Some (Num 42161)))
  /\ evmGetChainId [walletOn 9007199254740993]
     = ([{| method := "eth_chainId"; params := [] |}],
        Resolved (Some (Num 9007199254740992)))
  /\ evmGetChainId [walletOn (-1)]
     = ([{| method := "eth_chainId"; params := [] |}], Resolved (Some NaN)).
Proof.
  split; [|split].
  - refine (proj1 (proj2 (proj2 (getChainId_reads_switchChain_spelling [walletOn 42161]
              (walletOn 42161) (chainReporter 42161) 42161 eq_refl eq_refl eq_refl))) _).
    split; discriminate.
  - exact (proj1 (proj2 (getChainId_reads_switchChain_spelling [walletOn 9007199254740993]
              (walletOn 9007199254740993) (chainReporter 9007199254740993)
              9007199254740993 eq_refl eq_refl eq_refl))).
  - exact (proj2 (proj2 (proj2 (getChainId_reads_switchChain_spelling [walletOn (-1)]
              (walletOn (-1)) (chainReporter (-1)) (-1) eq_refl eq_refl eq_refl)))
             eq_refl).
Defined.

(** ** The handshake, over every run *)

Lemma useEffect_invariant (P : World -> Prop) (changed : bool) (effect : World -> World)
    (w : World) :
  (forall x, P x -> P (effect x)) -> P w -> P (useEffect changed effect w).
Proof. intros Heffect Hw. unfold useEffect. destruct changed; auto. Qed.

(** At the first ready render the resolver is dropped with the resolution. *)
Lemma render_first_ready_resolver (config : option PrivyWidgetConfig) (i : RenderInput)
    (w : World) :
  ready i = true ->
  hasDispatchedReady w = false ->
  readyResolve w = true ->
  readyPromise w = Some Pending ->
  (forall r a, lastDeps w = Some (r, a) -> r = false) ->
  readyResolve (render config i w) = false.
Proof.
  intros Hready Hflag Hresolve Hpromise Hdeps.
  unfold render. cbn zeta. rewrite Hready.
  assert (Hchanged :
            bool_decide (lastDeps w = None)
            || negb (bool_decide (fst <$> lastDeps w = Some true)) = true).
  { destruct (lastDeps w) as [[r a]|] eqn:Hd; [|reflexivity].
    rewrite (Hdeps r a eq_refl). reflexivity. }
  rewrite Hchanged. cbn [orb].
  match goal with
  | |- context [useEffect true (effect_exposeApi true (authenticated i)) ?x] => set (x0 := x)
  end.
  assert (Hd0 : dispatchView x0 = dispatchView w).
  { unfold x0.
    apply (useEffect_frame dispatchView).
    { intros x Hx. rewrite <- Hx. apply effect_saveLoginType_views. }
    apply (useEffect_frame dispatchView).
    { intros x Hx. rewrite <- Hx. apply effect_lastLoginOnly_views. }
    apply (useEffect_frame dispatchView); [intros x Hx; exact Hx | reflexivity]. }
  assert (E1 : readyResolve x0 = readyResolve w)
    by exact (f_equal (fun v => fst (fst (fst v))) Hd0).
  assert (E2 : readyPromise x0 = readyPromise w)
    by exact (f_equal (fun v => snd (fst (fst v))) Hd0).
  assert (E3 : hasDispatchedReady x0 = hasDispatchedReady w)
    by exact (f_equal (fun v => snd (fst v)) Hd0).
  destruct (effect_exposeApi_dispatch (authenticated i) x0
              ltac:(congruence) ltac:(congruence) ltac:(congruence)) as (X1 & _).
  change (useEffect true (effect_exposeApi true (authenticated i)) x0)
    with (effect_exposeApi true (authenticated i) x0).
  set (x1 := effect_exposeApi true (authenticated i) x0) in *.
  match goal with
  | |- readyResolve (set_lastDeps _ ?x) = _ => change (readyResolve x = false)
  end.
  rewrite <- X1.
  refine (f_equal (fun v => fst (fst (fst v))) (_ : dispatchView _ = dispatchView x1)).
  apply (useEffect_frame dispatchView); [|reflexivity].
  intros x Hx. rewrite <- Hx. apply effect_notifyAuth_views.
Qed.

Lemma run_handshake (config : option PrivyWidgetConfig) (actions : list Action) (w : World) :
  dispatchView w = (true, Some Pending, false, []) ->
  (forall r a, lastDeps w = Some (r, a) -> r = false) ->
  (neverReady actions = true
   /\ dispatchView (run config actions w) = (true, Some Pending, false, []))
  \/ (neverReady actions = false
      /\ exists a,
           dispatchView (run config actions w)
           = (false, Some (Fulfilled {| api_ready := true; api_authenticated := a |}), true,
              [ReadyResolved {| api_ready := true; api_authenticated := a |};
               EventDispatched "privy-ready"])).
Proof.
  revert w. induction actions as [|act actions IH]; intros w Hview Hdeps.
  - left. split; [reflexivity | exact Hview].
  - rewrite run_cons. cbn [neverReady forallb].
    assert (E1 : readyResolve w = true)
      by exact (f_equal (fun v => fst (fst (fst v))) Hview).
    assert (E2 : readyPromise w = Some Pending)
      by exact (f_equal (fun v => snd (fst (fst v))) Hview).
    assert (E3 : hasDispatchedReady w = false)
      by exact (f_equal (fun v => snd (fst v)) Hview).
    assert (E4 : dispatchSignals w = []) by exact (f_equal snd Hview).
    destruct (match act with Render i => negb (ready i) | _ => true end) eqn:Hact.
    + assert (Hidle : idleForDispatch act w = true).
      { destruct act as [i| | |]; try reflexivity. cbn [idleForDispatch].
        apply negb_true_iff in Hact. now rewrite Hact. }
      apply IH.
      * rewrite <- Hview. now apply step_idle_dispatch.
      * intros r b. rewrite step_lastDeps. destruct act as [i| | |]; try apply Hdeps.
        intros [= <- <-]. now apply negb_true_iff in Hact.
    + right. split; [reflexivity|].
      destruct act as [i| | |]; try discriminate. apply negb_false_iff in Hact.
      cbn [step]. exists (authenticated i).
      destruct (render_first_ready config i w Hact E3 E1 E2 Hdeps)
        as (R1 & R2 & _ & _ & R5).
      pose proof (render_first_ready_resolver config i w Hact E3 E1 E2 Hdeps) as R0.
      rewrite run_after_dispatch by exact R2.
      unfold dispatchView. rewrite R0, R1, R2, R5, E4. reflexivity.
Qed.

(** X5. On a page whose island bundle is loaded, after any actions at all
    the module state of the handshake is in one of two shapes.  Either no
    render has been ready: the resolver is kept, the promise is pending, the
    guard is down and no ready signal was sent.  Or some render has been
    ready: the resolver is dropped, the guard is up, the page has seen one
    resolution and one event, and the promise holds a facade whose [ready()]
    is true.  In both, the promise exists and [getOrCreateReadyPromise]
    changes nothing. *)
Theorem handshake_state_is_coherent (config : option PrivyWidgetConfig)
    (storage : gmap string string) (actions : list Action) :
  let w := run config actions (islandLoaded storage) in
  ((neverReady actions = true
    /\ readyResolve w = true /\ readyPromise w = Some Pending
    /\ hasDispatchedReady w = false /\ dispatchSignals w = [])
   \/ (neverReady actions = false
       /\ exists api,
            api_ready api = true
            /\ readyResolve w = false /\ readyPromise w = Some (Fulfilled api)
            /\ hasDispatchedReady w = true
            /\ dispatchSignals w = [ReadyResolved api; EventDispatched "privy-ready"]))
  /\ getOrCreateReadyPromise w = w.
Proof.
  cbn zeta.
  destruct (run_handshake config actions (islandLoaded storage) eq_refl) as [(Hn & Hv)|(Hn & a & Hv)].
  { intros r a. discriminate. }
  - assert (E2 : readyPromise (run config actions (islandLoaded storage)) = Some Pending)
      by exact (f_equal (fun v => snd (fst (fst v))) Hv).
    split.
    + left. split; [exact Hn|]. split; [exact (f_equal (fun v => fst (fst (fst v))) Hv)|].
      split; [exact E2|]. split; [exact (f_equal (fun v => snd (fst v)) Hv)|].
      exact (f_equal snd Hv).
    + unfold getOrCreateReadyPromise. now rewrite E2.
  - assert (E2 : readyPromise (run config actions (islandLoaded storage))
                 = Some (Fulfilled {| api_ready := true; api_authenticated := a |}))
      by exact (f_equal (fun v => snd (fst (fst v))) Hv).
    split.
    + right. split; [exact Hn|].
      exists {| api_ready := true; api_authenticated := a |}. split; [reflexivity|].
      split; [exact (f_equal (fun v => fst (fst (fst v))) Hv)|].
      split; [exact E2|]. split; [exact (f_equal (fun v => snd (fst v)) Hv)|].
      exact (f_equal snd Hv).
    + unfold getOrCreateReadyPromise. now rewrite E2.
Qed.

Lemma Set_add_elem {A} `{EqDecision A} (x : A) (s : list A) : x ∈ Set_add x s.
Proof. unfold Set_add. case_bool_decide; [assumption|]. apply elem_of_app. right. now left. Qed.

Lemma Set_add_keeps {A} `{EqDecision A} (x y : A) (s : list A) : y ∈ s -> y ∈ Set_add x s.
Proof. intros Hy. unfold Set_add. case_bool_decide; [assumption|]. apply elem_of_app. now left. Qed.

Lemma run_renders_after_dispatch (config : option PrivyWidgetConfig) (renders : list Action)
    (w : World) :
  hasDispatchedReady w = true ->
  onlyRenders renders = true ->
  readyView (run config renders w) = readyView w.
Proof.
  revert w. induction renders as [|act renders IH]; intros w Hflag Honly; [reflexivity|].
  rewrite run_cons. cbn [onlyRenders forallb] in Honly.
  apply andb_prop in Honly as [Hact Hrest].
  destruct act as [i| | |]; try discriminate. cbn [step].
  assert (Hidle : ready i && negb (hasDispatchedReady w) = false)
    by (rewrite Hflag; apply andb_false_r).
  rewrite IH; [now apply render_idle_ready | | exact Hrest].
  rewrite <- Hflag.
  exact (f_equal (fun v => snd (fst v)) (render_idle_dispatch config i w Hidle)).
Qed.

(** X6. After the dispatch the ready queue is never drained again.  A
    callback passed to [onReady] of a facade object built by a render that
    was not ready is queued, and no later render calls it or any other ready
    callback: the queue keeps it. *)
Theorem queue_is_not_drained_after_dispatch (config : option PrivyWidgetConfig)
    (api : PrivyWidgetAPI) (cb : ReadyCallback) (renders : list Action) (w : World) :
  hasDispatchedReady w = true ->
  api_ready api = false ->
  onlyRenders renders = true ->
  let w' := run config renders (fst (api_onReady api cb w)) in
  cb ∈ onReadyCallbacksRef w' /\ readySignals w' = readySignals w.
Proof.
  intros Hflag Hapi Honly. cbn zeta.
  unfold api_onReady. rewrite Hapi. cbn [fst].
  set (w1 := set_onReadyCallbacksRef (Set_add cb (onReadyCallbacksRef w)) w).
  pose proof (run_renders_after_dispatch config renders w1 Hflag Honly) as Hview.
  assert (Hq : onReadyCallbacksRef (run config renders w1) = onReadyCallbacksRef w1)
    by exact (f_equal fst Hview).
  assert (Hs : readySignals (run config renders w1) = readySignals w1)
    by exact (f_equal snd Hview).
  rewrite Hq, Hs. split; [apply Set_add_elem | reflexivity].
Qed.

Lemma queue_is_not_drained_after_dispatch_witness :
  ExternalReadyCallback 3
    ∈ onReadyCallbacksRef
        (run None [Render readyLoggedIn; Render readyLoggedOut]
           (fst (api_onReady {| api_ready := false; api_authenticated := false |}
                   (ExternalReadyCallback 3)
                   (render None readyLoggedOut (islandLoaded ∅))))).
Proof.
  exact (proj1 (queue_is_not_drained_after_dispatch None
                  {| api_ready := false; api_authenticated := false |}
                  (ExternalReadyCallback 3) [Render readyLoggedIn; Render readyLoggedOut]
                  (render None readyLoggedOut (islandLoaded ∅)) eq_refl eq_refl eq_refl)).
Defined.

Lemma Set_delete_add {A} `{EqDecision A} (x : A) (s : list A) :
  Set_delete x (Set_add x s) = Set_delete x s.
Proof.
  unfold Set_add, Set_delete. case_bool_decide; [reflexivity|].
  rewrite filter_app. cbn. rewrite decide_False by (intros Hne; now apply Hne).
  apply app_nil_r.
Qed.

Lemma Set_delete_absent {A} `{EqDecision A} (x : A) (s : list A) :
  x ∉ s -> Set_delete x s = s.
Proof.
  intros Hout. unfold Set_delete. induction s as [|y s IH]; [reflexivity|].
  apply not_elem_of_cons in Hout as [Hne Hout].
  rewrite filter_cons. rewrite decide_True by congruence. now rewrite IH.
Qed.

Lemma api_onAuthChange_registry (api : PrivyWidgetAPI) (cb : AuthCallback) (w : World) :
  authCallbacksRef (fst (api_onAuthChange api cb w)) = Set_add cb (authCallbacksRef w).
Proof. unfold api_onAuthChange. cbn [fst]. now rewrite callAuthCallback_registry. Qed.

(** X7. Subscribing and then calling the returned closure leaves the auth
    registry as [delete] finds it: unchanged when the callback was not
    subscribed before, and without the callback when it was, so that the
    closure of a second subscription of one function cancels the first
    subscription too.  In between the callback was called once. *)
Theorem subscribe_then_unsubscribe (api : PrivyWidgetAPI) (cb : AuthCallback) (w : World) :
  let w1 := fst (api_onAuthChange api cb w) in
  let w2 := runUnsubscribe (snd (api_onAuthChange api cb w)) w1 in
  trace w2 = trace w ++ [AuthCallbackCalled cb (api_authenticated api)]
  /\ authCallbacksRef w2 = Set_delete cb (authCallbacksRef w)
  /\ (cb ∉ authCallbacksRef w -> authCallbacksRef w2 = authCallbacksRef w)
  /\ cb ∉ authCallbacksRef w2.
Proof.
  cbn zeta.
  destruct (api_onAuthChange_registers api cb w) as (_ & Htrace & Hunsub).
  rewrite Hunsub. cbn [runUnsubscribe].
  assert (Hreg : Set_delete cb (authCallbacksRef (fst (api_onAuthChange api cb w)))
                 = Set_delete cb (authCallbacksRef w)).
  { rewrite api_onAuthChange_registry. apply Set_delete_add. }
  split; [exact Htrace|]. split; [exact Hreg|]. split.
  - intros Hout. etransitivity; [exact Hreg|]. now apply Set_delete_absent.
  - apply unsubscribeAuth_removes.
Qed.

Lemma callReadyCallback_registry (Q : list AuthCallback -> Prop) (cb : ReadyCallback)
    (api : PrivyWidgetAPI) (w : World) :
  closedUnderAdd Q ->
  Q (authCallbacksRef w) -> Q (authCallbacksRef (callReadyCallback cb api w)).
Proof.
  intros HQ Hw. unfold callReadyCallback. destruct cb as [id|cb]; [exact Hw|].
  rewrite api_onAuthChange_registry. now apply HQ.
Qed.

Lemma drain_registry (Q : list AuthCallback -> Prop) (api : PrivyWidgetAPI)
    (cbs : list ReadyCallback) (w : World) :
  closedUnderAdd Q ->
  Q (authCallbacksRef w) ->
  Q (authCallbacksRef (foldl (fun w cb => callReadyCallback cb api w) w cbs)).
Proof.
  intros HQ. revert w. induction cbs as [|cb cbs IH]; intros w Hw; [exact Hw|].
  cbn [foldl]. apply IH. now apply callReadyCallback_registry.
Qed.

Lemma effect_lastLoginOnly_registry (config : option PrivyWidgetConfig) (r a : bool)
    (ws : list Wallet.t) (w : World) :
  authCallbacksRef (effect_lastLoginOnly config r a ws w) = authCallbacksRef w
  /\ window_PrivyWidget (effect_lastLoginOnly config r a ws w) = window_PrivyWidget w.
Proof.
  unfold effect_lastLoginOnly.
  repeat match goal with
         | |- context [if ?c then _ else _] => destruct c
         | |- context [match ?o with Some _ => _ | None => _ end] => destruct o
         end; split; reflexivity.
Qed.

Lemma effect_saveLoginType_registry (config : option PrivyWidgetConfig) (a : bool)
    (ws : list Wallet.t) (w : World) :
  authCallbacksRef (effect_saveLoginType config a ws w) = authCallbacksRef w
  /\ window_PrivyWidget (effect_saveLoginType config a ws w) = window_PrivyWidget w.
Proof.
  unfold effect_saveLoginType.
  repeat match goal with
         | |- context [if ?c then _ else _] => destruct c
         | |- context [match ?o with Some _ => _ | None => _ end] => destruct o
         end; split; reflexivity.
Qed.

Lemma effect_notifyAuth_registry (a : bool) (w : World) :
  authCallbacksRef (effect_notifyAuth a w) = authCallbacksRef w.
Proof. apply notify_views. Qed.

Lemma effect_exposeApi_registry (Q : list AuthCallback -> Prop) (r a : bool) (w : World) :
  closedUnderAdd Q ->
  Q (authCallbacksRef w) -> Q (authCallbacksRef (effect_exposeApi r a w)).
Proof.
  intros HQ Hw. unfold effect_exposeApi.
  match goal with |- context [if ?c then _ else _] => destruct c end; [|exact Hw].
  match goal with
  | |- Q (authCallbacksRef (log _ (set_onReadyCallbacksRef _ (foldl ?f ?y ?l)))) =>
      change (Q (authCallbacksRef (foldl f y l)))
  end.
  apply drain_registry; [exact HQ|].
  match goal with |- context [if ?c then _ else _] => destruct c end; [|exact Hw].
  unfold resolveReady. destruct (readyPromise _) as [[|]|]; exact Hw.
Qed.

Lemma effect_exposeApi_queue (r a : bool) (w : World) :
  onReadyCallbacksRef (effect_exposeApi r a w) = onReadyCallbacksRef w
  \/ onReadyCallbacksRef (effect_exposeApi r a w) = [].
Proof.
  unfold effect_exposeApi.
  match goal with |- context [if ?c then _ else _] => destruct c end;
    [right | left]; reflexivity.
Qed.

(** The world a render hands to its notify effect. *)
Lemma render_before_notify (config : option PrivyWidgetConfig) (i : RenderInput) (w : World) :
  exists x,
    render config i w
    = set_lastDeps (Some (ready i, authenticated i))
        (useEffect
           (bool_decide (lastDeps w = None)
            || negb (bool_decide (snd <$> lastDeps w = Some (authenticated i)))
            || (bool_decide (lastDeps w = None) || bool_decide (is_Some (newWallets i))))
           (effect_notifyAuth (authenticated i)) x)
    /\ walletsRef x = renderWallets i w
    /\ (forall Q : list AuthCallback -> Prop,
          closedUnderAdd Q -> Q (authCallbacksRef w) -> Q (authCallbacksRef x))
    /\ (forall R : list ReadyCallback -> Prop,
          R [] -> R (onReadyCallbacksRef w) -> R (onReadyCallbacksRef x)).
Proof.
  unfold render. cbn zeta. eexists. split; [reflexivity|]. split; [|split].
  - match goal with
    | |- walletsRef ?x = _ =>
        change (fst (depsView x) = fst (depsView (set_walletsRef (renderWallets i w) w)))
    end.
    f_equal.
    apply (useEffect_frame depsView).
    { intros x Hx. rewrite <- Hx. apply effect_exposeApi_views. }
    apply (useEffect_frame depsView).
    { intros x Hx. rewrite <- Hx. apply effect_saveLoginType_views. }
    apply (useEffect_frame depsView).
    { intros x Hx. rewrite <- Hx. apply effect_lastLoginOnly_views. }
    apply (useEffect_frame depsView); [intros x Hx; exact Hx | reflexivity].
  - intros Q HQ Hw.
    apply (useEffect_invariant (fun x => Q (authCallbacksRef x))).
    { intros x Hx. now apply effect_exposeApi_registry. }
    apply (useEffect_invariant (fun x => Q (authCallbacksRef x))).
    { intros x Hx. now rewrite (proj1 (effect_saveLoginType_registry _ _ _ x)). }
    apply (useEffect_invariant (fun x => Q (authCallbacksRef x))).
    { intros x Hx. now rewrite (proj1 (effect_lastLoginOnly_registry _ _ _ _ x)). }
    apply (useEffect_invariant (fun x => Q (authCallbacksRef x))); [auto | exact Hw].
  - intros R Hnil Hw.
    apply (useEffect_invariant (fun x => R (onReadyCallbacksRef x))).
    { intros x Hx. destruct (effect_exposeApi_queue (ready i) (authenticated i) x) as [-> | ->];
        assumption. }
    apply (useEffect_invariant (fun x => R (onReadyCallbacksRef x))).
    { intros x Hx.
      now rewrite (f_equal fst (proj1 (proj2 (effect_saveLoginType_views _ _ _ x)))
                   : onReadyCallbacksRef _ = onReadyCallbacksRef x). }
    apply (useEffect_invariant (fun x => R (onReadyCallbacksRef x))).
    { intros x Hx.
      now rewrite (f_equal fst (proj1 (proj2 (effect_lastLoginOnly_views _ _ _ _ x)))
                   : onReadyCallbacksRef _ = onReadyCallbacksRef x). }
    apply (useEffect_invariant (fun x => R (onReadyCallbacksRef x))); [auto | exact Hw].
Qed.

(** ** The shared state follows the renders *)

(** X9. Once the consumer's handler is subscribed, every render in which
    the authenticated flag or the wallet array changed leaves the shared
    state in step with that render: connected is its flag, and the wallet is
    what [getActiveWallet()] gives for its wallet list, or null when logged
    out.  This holds when only the wallets changed, which is how a wallet
    that arrives after the login reaches the consumer. *)
Theorem render_updates_shared_state (config : option PrivyWidgetConfig) (i : RenderInput)
    (instance : nat) (w : World) :
  ConsumerAuthHandler instance ∈ authCallbacksRef w ->
  lastDeps w = None \/ snd <$> lastDeps w <> Some (authenticated i) \/ is_Some (newWallets i) ->
  let w' := render config i w in
  globalIsConnected w' = authenticated i
  /\ globalWallet w'
     = (if authenticated i then getActiveWallet (renderWallets i w) else None)
  /\ globalWallet w' = (if authenticated i then api_getActiveWallet w' else None).
Proof.
  intros Hin Hchanged. cbn zeta.
  destruct (render_before_notify config i w) as (x & Hrender & Hwallets & Hauth & _).
  assert (Hafter : walletsRef (render config i w) = renderWallets i w) by apply render_deps.
  rewrite Hrender in *.
  assert (Hc : bool_decide (lastDeps w = None)
               || negb (bool_decide (snd <$> lastDeps w = Some (authenticated i)))
               || (bool_decide (lastDeps w = None) || bool_decide (is_Some (newWallets i)))
               = true).
  { destruct Hchanged as [H|[H|H]].
    - now rewrite (bool_decide_eq_true_2 _ H).
    - rewrite (bool_decide_eq_false_2 _ H). cbn. now rewrite orb_true_r.
    - rewrite (bool_decide_eq_true_2 _ H). now rewrite !orb_true_r. }
  rewrite Hc in *. cbn [useEffect] in *.
  assert (Hx : ConsumerAuthHandler instance ∈ authCallbacksRef x).
  { apply (Hauth (fun l => ConsumerAuthHandler instance ∈ l)); [|exact Hin].
    intros c l. apply Set_add_keeps. }
  destruct (notify_consumer_state (authenticated i) (authCallbacksRef x) x
              (ex_intro _ instance Hx)) as (H1 & H2).
  rewrite Hwallets in H2.
  split; [exact H1|]. split; [exact H2|].
  unfold api_getActiveWallet. rewrite Hafter. exact H2.
Qed.

Lemma render_updates_shared_state_witness :
  globalWallet (render None readyLoggedIn
                  (fst (usePrivyWidget.init_resume 0 (Some firstFacade)
                          (render None readyLoggedOut (islandLoaded ∅)))))
  = Some (snapshot privyWallet).
Proof.
  refine (proj1 (proj2 (render_updates_shared_state None readyLoggedIn 0
    (fst (usePrivyWidget.init_resume 0 (Some firstFacade)
            (render None readyLoggedOut (islandLoaded ∅)))) _ _))).
  - vm_compute. left.
  - right. right. eexists. reflexivity.
Defined.

(** ** The facade on [window] *)

Lemma callAuthCallback_window (cb : AuthCallback) (b : bool) (w : World) :
  window_PrivyWidget (callAuthCallback cb b w) = window_PrivyWidget w.
Proof. destruct cb; reflexivity. Qed.

Lemma api_onAuthChange_window (api : PrivyWidgetAPI) (cb : AuthCallback) (w : World) :
  window_PrivyWidget (fst (api_onAuthChange api cb w)) = window_PrivyWidget w.
Proof. unfold api_onAuthChange. cbn [fst]. now rewrite callAuthCallback_window. Qed.

Lemma notify_window (b : bool) (cbs : list AuthCallback) (w : World) :
  window_PrivyWidget (foldl (fun w cb => callAuthCallback cb b w) w cbs)
  = window_PrivyWidget w.
Proof.
  revert w. induction cbs as [|cb cbs IH]; intros w; [reflexivity|].
  cbn [foldl]. now rewrite IH, callAuthCallback_window.
Qed.

Lemma callReadyCallback_window (cb : ReadyCallback) (api : PrivyWidgetAPI) (w : World) :
  window_PrivyWidget (callReadyCallback cb api w) = window_PrivyWidget w.
Proof.
  unfold callReadyCallback. destruct cb as [id|cb]; [reflexivity|].
  now rewrite api_onAuthChange_window.
Qed.

Lemma drain_window (api : PrivyWidgetAPI) (cbs : list ReadyCallback) (w : World) :
  window_PrivyWidget (foldl (fun w cb => callReadyCallback cb api w) w cbs)
  = window_PrivyWidget w.
Proof.
  revert w. induction cbs as [|cb cbs IH]; intros w; [reflexivity|].
  cbn [foldl]. now rewrite IH, callReadyCallback_window.
Qed.

(** The expose effect publishes the facade of its render, dispatch or not. *)
Lemma effect_exposeApi_window (r a : bool) (w : World) :
  window_PrivyWidget (effect_exposeApi r a w)
  = Some {| api_ready := r; api_authenticated := a |}.
Proof.
  unfold effect_exposeApi.
  match goal with |- context [if ?c then _ else _] => destruct c end; [|reflexivity].
  match goal with
  | |- window_PrivyWidget (log _ (set_onReadyCallbacksRef _ (foldl ?f ?y ?l))) = _ =>
      change (window_PrivyWidget (foldl f y l)
              = Some {| api_ready := r; api_authenticated := a |})
  end.
  rewrite drain_window.
  match goal with |- context [if ?c then _ else _] => destruct c end; [|reflexivity].
  unfold resolveReady. destruct (readyPromise _) as [[|]|]; reflexivity.
Qed.

Lemma render_window (config : option PrivyWidgetConfig) (i : RenderInput) (w : World) :
  window_PrivyWidget (render config i w)
  = if bool_decide (lastDeps w = Some (ready i, authenticated i)) && negb (newActions i)
    then window_PrivyWidget w
    else Some {| api_ready := ready i; api_authenticated := authenticated i |}.
Proof.
  unfold render. cbn zeta.
  match goal with
  | |- window_PrivyWidget (set_lastDeps _ ?x) = ?rhs => change (window_PrivyWidget x = rhs)
  end.
  apply (useEffect_frame_value window_PrivyWidget).
  { intros x Hx. unfold effect_notifyAuth. now rewrite notify_window. }
  destruct (lastDeps w) as [[r a]|]; [|cbn; apply effect_exposeApi_window].
  destruct r, a, (ready i), (authenticated i), (newActions i);
    repeat match goal with
           | |- context [bool_decide (?x = ?y)] =>
               let b := eval vm_compute in (bool_decide (x = y)) in
               change (bool_decide (x = y)) with b
           end;
    cbn [negb orb andb];
    first
      [ apply effect_exposeApi_window
      | unfold useEffect at 1;
        apply (useEffect_frame_value window_PrivyWidget);
        [ intros x Hx; now rewrite (proj2 (effect_saveLoginType_registry _ _ _ x)) | ];
        apply (useEffect_frame_value window_PrivyWidget);
        [ intros x Hx; now rewrite (proj2 (effect_lastLoginOnly_registry _ _ _ _ x)) | ];
        reflexivity ].
Qed.

Lemma step_window (config : option PrivyWidgetConfig) (a : Action) (w : World) :
  match a with Render _ => True | _ => window_PrivyWidget (step config a w) = window_PrivyWidget w end.
Proof.
  destruct a as [i|api cb|api cb|u]; cbn [step]; [exact I| | |].
  - unfold api_onReady. cbn [fst]. destruct (api_ready api); [|reflexivity].
    apply callReadyCallback_window.
  - apply api_onAuthChange_window.
  - destruct u; reflexivity.
Qed.

(** X10. On a page whose island bundle is loaded, after any actions at all
    [window.PrivyWidget] is empty exactly as long as nothing was rendered,
    and otherwise holds a facade built from the flags of the latest render:
    its [ready()] is the provider's ready flag, and its [onAuthChange] calls
    a new subscriber with the provider's authenticated flag. *)
Theorem window_facade_is_current (config : option PrivyWidgetConfig)
    (storage : gmap string string) (actions : list Action) :
  let w := run config actions (islandLoaded storage) in
  (window_PrivyWidget w = None <-> lastDeps w = None)
  /\ forall api,
       window_PrivyWidget w = Some api ->
       lastDeps w = Some (api_ready api, api_authenticated api)
       /\ forall cb r a,
            lastDeps w = Some (r, a) ->
            trace (fst (api_onAuthChange api cb w)) = trace w ++ [AuthCallbackCalled cb a].
Proof.
  cbn zeta.
  assert (Hinv : forall acts w,
             (match window_PrivyWidget w with
              | Some api => lastDeps w = Some (api_ready api, api_authenticated api)
              | None => lastDeps w = None
              end) ->
             match window_PrivyWidget (run config acts w) with
             | Some api =>
                 lastDeps (run config acts w) = Some (api_ready api, api_authenticated api)
             | None => lastDeps (run config acts w) = None
             end).
  { induction acts as [|act acts IH]; intros w Hw; [exact Hw|].
    rewrite run_cons. apply IH.
    pose proof (step_lastDeps config act w) as Hd.
    pose proof (step_window config act w) as Hwin.
    destruct act as [i| | |]; try (rewrite Hwin, Hd; exact Hw).
    cbn [step] in *. rewrite Hd, render_window.
    destruct (bool_decide (lastDeps w = Some (ready i, authenticated i))) eqn:Hsame;
      cbn [andb]; [|reflexivity].
    apply bool_decide_eq_true in Hsame.
    destruct (newActions i); cbn [negb]; [reflexivity|].
    destruct (window_PrivyWidget w) as [api|]; congruence. }
  specialize (Hinv actions (islandLoaded storage) eq_refl).
  set (w := run config actions (islandLoaded storage)) in *.
  split.
  - destruct (window_PrivyWidget w) as [api|]; split; congruence.
  - intros api Hapi. rewrite Hapi in Hinv. split; [exact Hinv|].
    intros cb r a Hd. rewrite api_onAuthChange_trace.
    rewrite Hinv in Hd. now injection Hd as _ <-.
Qed.

(** ** The last-login policy, over every run *)

Lemma useEffect_congruence {V : Type} (view : World -> V) (changed : bool)
    (effect : World -> World) (x y : World) :
  (forall x y, view x = view y -> view (effect x) = view (effect y)) ->
  view x = view y ->
  view (useEffect changed effect x) = view (useEffect changed effect y).
Proof. intros Heffect Hxy. unfold useEffect. destruct changed; auto. Qed.

Lemma effect_saveLoginType_loginView (config : option PrivyWidgetConfig) (a : bool)
    (ws : list Wallet.t) (x w : World) :
  loginView x = loginView w ->
  loginView (effect_saveLoginType config a ws x)
  = loginView (effect_saveLoginType config a ws w).
Proof.
  intros H.
  assert (H1 : hasCheckedLastLogin x = hasCheckedLastLogin w)
    by exact (f_equal (fun v => fst (fst v)) H).
  assert (H2 : localStorage x = localStorage w)
    by exact (f_equal (fun v => snd (fst v)) H).
  assert (H3 : logoutCalls x = logoutCalls w) by exact (f_equal snd H).
  unfold effect_saveLoginType.
  destruct (config_lastLoginOnly config); [exact H|].
  destruct (negb a || (length ws =? 0)%nat); [exact H|].
  destruct (Wallet.walletClientType <$> ws !! 0%nat) as [t|]; [|exact H].
  destruct (truthy t); [|exact H].
  unfold loginView, setItem, logoutCalls in *. cbn. now rewrite H1, H2, H3.
Qed.

(** What a render does to the policy's state is what its two policy
    effects do, whatever the other effects do. *)
Lemma render_loginView (config : option PrivyWidgetConfig) (i : RenderInput) (w : World) :
  exists c1,
    loginView (render config i w)
    = loginView
        (useEffect
           (bool_decide (lastDeps w = None)
            || negb (bool_decide (snd <$> lastDeps w = Some (authenticated i)))
            || (bool_decide (lastDeps w = None) || bool_decide (is_Some (newWallets i))))
           (effect_saveLoginType config (authenticated i) (renderWallets i w))
           (useEffect c1
              (effect_lastLoginOnly config (ready i) (authenticated i) (renderWallets i w))
              w)).
Proof.
  unfold render. cbn zeta. eexists.
  match goal with
  | |- loginView (set_lastDeps _ ?x) = ?rhs => change (loginView x = rhs)
  end.
  apply (useEffect_frame_value loginView).
  { intros x Hx. rewrite <- Hx. apply effect_notifyAuth_views. }
  apply (useEffect_frame_value loginView).
  { intros x Hx. rewrite <- Hx. apply effect_exposeApi_views. }
  apply (useEffect_congruence loginView).
  { intros x y. apply effect_saveLoginType_loginView. }
  apply (useEffect_congruence loginView).
  { intros x y. apply effect_lastLoginOnly_loginView. }
  apply (useEffect_frame loginView); [intros x Hx; exact Hx | reflexivity].
Qed.

Lemma effect_lastLoginOnly_outcome (config : option PrivyWidgetConfig) (r a : bool)
    (ws : list Wallet.t) (w : World) :
  let w' := effect_lastLoginOnly config r a ws w in
  w' = w
  \/ (config_lastLoginOnly config = true
      /\ hasCheckedLastLogin w = false
      /\ hasCheckedLastLogin w' = true
      /\ ((logoutCalls w' = S (logoutCalls w) /\ localStorage w' = localStorage w)
          \/ (logoutCalls w' = logoutCalls w
              /\ (localStorage w' = localStorage w
                  \/ exists t, localStorage w' = <[LAST_LOGIN_KEY := t]> (localStorage w))))).
Proof.
  cbn zeta. unfold effect_lastLoginOnly.
  destruct (config_lastLoginOnly config); [|now left]. cbn [negb].
  destruct (negb r || negb a || (length ws =? 0)%nat); [now left|].
  destruct (hasCheckedLastLogin w) eqn:Hc; [now left|].
  right. split; [reflexivity|]. split; [reflexivity|].
  cbn [localStorage set_hasCheckedLastLogin].
  match goal with |- context [if ?c then _ else _] => destruct c end.
  - split; [reflexivity|]. left. split; [|reflexivity].
    unfold logoutCalls. rewrite !trace_log, !List.filter_app, !length_app. cbn. lia.
  - destruct (Wallet.walletClientType <$> ws !! 0%nat) as [t|].
    + destruct (truthy t).
      * split; [reflexivity|]. right. split; [reflexivity|]. right. now exists t.
      * split; [reflexivity|]. right. split; [reflexivity|]. now left.
    + split; [reflexivity|]. right. split; [reflexivity|]. now left.
Qed.

Lemma effect_saveLoginType_outcome (config : option PrivyWidgetConfig) (a : bool)
    (ws : list Wallet.t) (w : World) :
  let w' := effect_saveLoginType config a ws w in
  hasCheckedLastLogin w' = hasCheckedLastLogin w
  /\ logoutCalls w' = logoutCalls w
  /\ (localStorage w' = localStorage w
      \/ (config_lastLoginOnly config = false
          /\ exists t, localStorage w' = <[LAST_LOGIN_KEY := t]> (localStorage w))).
Proof.
  cbn zeta. unfold effect_saveLoginType.
  destruct (config_lastLoginOnly config); [repeat split; now left|].
  destruct (negb a || (length ws =? 0)%nat); [repeat split; now left|].
  destruct (Wallet.walletClientType <$> ws !! 0%nat) as [t|]; [|repeat split; now left].
  destruct (truthy t); [|repeat split; now left].
  repeat split. right. split; [reflexivity|]. now exists t.
Qed.

Lemma policyState_lastLoginOnly (storage : gmap string string)
    (config : option PrivyWidgetConfig) (c : bool) (r a : bool) (ws : list Wallet.t)
    (w : World) :
  policyState storage (config_lastLoginOnly config) (loginView w) ->
  policyState storage (config_lastLoginOnly config)
    (loginView (useEffect c (effect_lastLoginOnly config r a ws) w)).
Proof.
  intros (Hforeign & Hshape). unfold useEffect. destruct c; [|now split].
  destruct (effect_lastLoginOnly_outcome config r a ws w)
    as [-> | (Hstrict & Hc & Hc' & Hout)]; [now split|].
  unfold policyState, loginView in *. rewrite Hstrict in *.
  destruct Hshape as [(_ & Hn & Hs) | (Hc2 & _)]; [|congruence].
  specialize (Hs eq_refl). rewrite Hc'.
  destruct Hout as [(Hn' & Hs') | (Hn' & [Hs' | (t & Hs')])]; rewrite Hn', Hs'.
  - split; [exact Hforeign|]. right. repeat split. left. split; [lia | exact Hs].
  - split; [exact Hforeign|]. right. repeat split. right. lia.
  - split.
    + intros k Hk. rewrite lookup_insert_ne by congruence. now apply Hforeign.
    + right. repeat split. right. lia.
Qed.

Lemma policyState_saveLoginType (storage : gmap string string)
    (config : option PrivyWidgetConfig) (c : bool) (a : bool) (ws : list Wallet.t)
    (w : World) :
  policyState storage (config_lastLoginOnly config) (loginView w) ->
  policyState storage (config_lastLoginOnly config)
    (loginView (useEffect c (effect_saveLoginType config a ws) w)).
Proof.
  intros (Hforeign & Hshape). unfold useEffect. destruct c; [|now split].
  destruct (effect_saveLoginType_outcome config a ws w) as (Hc & Hn & Hs).
  unfold policyState, loginView in *. rewrite Hc, Hn.
  destruct Hs as [-> | (Hperm & t & ->)]; [now split|].
  rewrite Hperm in *. split.
  - intros k Hk. rewrite lookup_insert_ne by congruence. now apply Hforeign.
  - destruct Hshape as [(Hc0 & Hn0 & _) | (_ & Hstrict & _)]; [|discriminate].
    left. repeat split; [assumption..|discriminate].
Qed.

Lemma step_policyState (storage : gmap string string) (config : option PrivyWidgetConfig)
    (act : Action) (w : World) :
  policyState storage (config_lastLoginOnly config) (loginView w) ->
  policyState storage (config_lastLoginOnly config) (loginView (step config act w)).
Proof.
  intros Hw. destruct act as [i|api cb|api cb|u]; cbn [step].
  - destruct (render_loginView config i w) as (c1 & ->).
    now apply policyState_saveLoginType, policyState_lastLoginOnly.
  - now rewrite (proj1 (proj2 (api_onReady_views api cb w))).
  - now rewrite (proj1 (proj2 (proj2 (api_onAuthChange_views api cb w)))).
  - now rewrite (proj1 (proj2 (runUnsubscribe_views u w))).
Qed.

(** X11. On a page whose island bundle is loaded, after any actions at
    all: the widget has written no key of the storage but its own; it has
    called logout at most once; when it has, it was in strict mode and the
    storage is as the page found it, so a rejected session is never
    persisted; and outside strict mode it has never called logout. *)
Theorem policy_keeps_to_its_key (config : option PrivyWidgetConfig)
    (storage : gmap string string) (actions : list Action) :
  let w := run config actions (islandLoaded storage) in
  (forall k, k <> LAST_LOGIN_KEY -> localStorage w !! k = storage !! k)
  /\ (logoutCalls w <= 1)%nat
  /\ (logoutCalls w = 1%nat ->
      config_lastLoginOnly config = true /\ localStorage w = storage
      /\ hasCheckedLastLogin w = true)
  /\ (config_lastLoginOnly config = false ->
      logoutCalls w = 0%nat /\ hasCheckedLastLogin w = false).
Proof.
  cbn zeta.
  assert (Hinv : forall acts w,
             policyState storage (config_lastLoginOnly config) (loginView w) ->
             policyState storage (config_lastLoginOnly config)
               (loginView (run config acts w))).
  { induction acts as [|act acts IH]; intros w Hw; [exact Hw|].
    rewrite run_cons. now apply IH, step_policyState. }
  specialize (Hinv actions (islandLoaded storage)).
  destruct Hinv as (Hforeign & Hshape).
  { split; [reflexivity|]. left. repeat split. }
  split; [exact Hforeign|].
  destruct Hshape as [(Hc & Hn & Hs) | (Hc & Hstrict & [(Hn & Hs) | Hn])].
  - rewrite Hn. split; [lia|]. split; [discriminate|]. intros _. now split.
  - rewrite Hn. split; [lia|]. split; [intros _; repeat split; assumption|].
    intros Hperm. congruence.
  - rewrite Hn. split; [lia|]. split; [discriminate|]. intros Hperm. congruence.
Qed.

(** X12. Outside strict mode, on a page whose island bundle is loaded and
    after any actions at all: whenever the latest render was authenticated
    and the first wallet of its list has a non-empty client type, that
    client type is the persisted value.  The effect is skipped only by
    renders that change neither the flag nor the wallet array, which leave
    it true. *)
Theorem permissive_mode_tracks_first_wallet (config : option PrivyWidgetConfig)
    (storage : gmap string string) (actions : list Action) :
  config_lastLoginOnly config = false ->
  let w := run config actions (islandLoaded storage) in
  forall r t,
    lastDeps w = Some (r, true) ->
    Wallet.walletClientType <$> walletsRef w !! 0%nat = Some t ->
    t <> "" ->
    localStorage w !! LAST_LOGIN_KEY = Some t.
Proof.
  intros Hperm. cbn zeta.
  assert (Hinv : forall acts w,
             (forall r t, lastDeps w = Some (r, true) ->
                          Wallet.walletClientType <$> walletsRef w !! 0%nat = Some t ->
                          t <> "" -> localStorage w !! LAST_LOGIN_KEY = Some t) ->
             forall r t, lastDeps (run config acts w) = Some (r, true) ->
                         Wallet.walletClientType <$> walletsRef (run config acts w) !! 0%nat
                         = Some t ->
                         t <> "" ->
                         localStorage (run config acts w) !! LAST_LOGIN_KEY = Some t).
  { induction acts as [|act acts IH]; intros w Hw; [exact Hw|].
    rewrite run_cons. apply IH. clear IH. intros r t.
    rewrite step_lastDeps, step_walletsRef.
    destruct act as [i|api cb|api cb|u]; cbn [step].
    - intros [= <- Hauth] Htype Ht.
      destruct (render_loginView config i w) as (c1 & Hview).
      assert (Hstore : localStorage (render config i w) = localStorage _)
        by exact (f_equal (fun v => snd (fst v)) Hview).
      rewrite Hstore. clear Hview Hstore.
      assert (Hll : useEffect c1
                      (effect_lastLoginOnly config (ready i) (authenticated i)
                         (renderWallets i w)) w = w).
      { unfold useEffect. destruct c1; [|reflexivity].
        unfold effect_lastLoginOnly. now rewrite Hperm. }
      rewrite Hll, Hauth.
      destruct (lastDeps w) as [[r0 a0]|] eqn:Hd.
      + destruct (newWallets i) as [ws|] eqn:Hnew.
        * rewrite (bool_decide_eq_true_2 (is_Some (Some ws))) by eauto.
          rewrite !orb_true_r. cbn [useEffect].
          unfold effect_saveLoginType. rewrite Hperm. cbn [negb orb].
          destruct (length (renderWallets i w) =? 0)%nat eqn:Hlen.
          { apply Nat.eqb_eq in Hlen. destruct (renderWallets i w); discriminate. }
          rewrite Htype. unfold truthy. apply String.eqb_neq in Ht. rewrite Ht. cbn [negb].
          apply lookup_insert_eq.
        * unfold renderWallets in *. rewrite Hnew in *. cbn [default] in *.
          destruct a0.
          -- rewrite (bool_decide_eq_true_2 (snd <$> Some (r0, true) = Some true))
               by reflexivity.
             rewrite (bool_decide_eq_false_2 (Some (r0, true) = None)) by discriminate.
             rewrite (bool_decide_eq_false_2 (is_Some None)) by (intros [? ?]; discriminate).
             cbn [negb orb useEffect]. now apply (Hw r0 t).
          -- rewrite (bool_decide_eq_false_2 (snd <$> Some (r0, false) = Some true))
               by discriminate.
             cbn [negb orb]. rewrite orb_true_r. cbn [orb useEffect].
             unfold effect_saveLoginType. rewrite Hperm. cbn [negb orb].
             destruct (length (walletsRef w) =? 0)%nat eqn:Hlen.
             { apply Nat.eqb_eq in Hlen. destruct (walletsRef w); discriminate. }
             rewrite Htype. unfold truthy. apply String.eqb_neq in Ht. rewrite Ht.
             cbn [negb]. apply lookup_insert_eq.
      + cbn [useEffect bool_decide]. rewrite bool_decide_eq_true_2 by reflexivity.
        cbn [orb useEffect].
        unfold effect_saveLoginType. rewrite Hperm. cbn [negb orb].
        destruct (length (renderWallets i w) =? 0)%nat eqn:Hlen.
        { apply Nat.eqb_eq in Hlen. destruct (renderWallets i w); discriminate. }
        rewrite Htype. unfold truthy. apply String.eqb_neq in Ht. rewrite Ht. cbn [negb].
        apply lookup_insert_eq.
    - intros Hd Htype Ht.
      rewrite (f_equal (fun v => snd (fst v)) (proj1 (proj2 (api_onReady_views api cb w)))
               : localStorage _ = localStorage w).
      now apply (Hw r t).
    - intros Hd Htype Ht.
      rewrite (f_equal (fun v => snd (fst v))
                 (proj1 (proj2 (proj2 (api_onAuthChange_views api cb w))))
               : localStorage _ = localStorage w).
      now apply (Hw r t).
    - intros Hd Htype Ht.
      rewrite (f_equal (fun v => snd (fst v)) (proj1 (proj2 (runUnsubscribe_views u w)))
               : localStorage _ = localStorage w).
      now apply (Hw r t). }
  apply Hinv. intros r t. discriminate.
Qed.

Lemma permissive_mode_tracks_first_wallet_witness :
  localStorage (run None [Render readyLoggedOut; Render readyLoggedIn;
                          CallOnAuthChange firstFacade (ExternalAuthCallback 4)]
                  (islandLoaded {[LAST_LOGIN_KEY := "metamask"]}))
    !! LAST_LOGIN_KEY = Some "privy".
Proof.
  refine (permissive_mode_tracks_first_wallet None {[LAST_LOGIN_KEY := "metamask"]}
            [Render readyLoggedOut; Render readyLoggedIn;
             CallOnAuthChange firstFacade (ExternalAuthCallback 4)]
            eq_refl true "privy" eq_refl eq_refl _).
  discriminate.
Defined.

(** ** Discovery *)

Lemma init_poll_late (j : nat) :
  (j < 100)%nat ->
  forall fuel attempts slept w,
    readyPromise w = None ->
    (attempts <= j)%nat ->
    (attempts + fuel = 100)%nat ->
    usePrivyWidget.init_poll fuel (loadIslandAt j) slept
      (usePrivyWidget.init_loop attempts w)
    = Some (getOrCreateReadyPromise w, usePrivyWidget.AwaitingReady,
            slept ++ repeat 50%nat (S j - attempts)).
Proof.
  intros Hj. induction fuel as [|fuel IH]; intros attempts slept w Hw Hle Hsum; [lia|].
  assert (Habsent : bool_decide (is_Some (window_PrivyWidgetReady w)) = false).
  { apply bool_decide_eq_false_2. unfold window_PrivyWidgetReady. rewrite Hw.
    intros [? ?]. discriminate. }
  unfold usePrivyWidget.init_loop at 1. rewrite Habsent.
  replace (attempts <? 100)%nat with true by (symmetry; apply Nat.ltb_lt; lia).
  cbn [negb andb usePrivyWidget.init_poll].
  unfold usePrivyWidget.init_wake.
  change (loadIslandAt j attempts w)
    with (if (attempts =? j)%nat then getOrCreateReadyPromise w else w).
  destruct (attempts =? j)%nat eqn:He.
  - apply Nat.eqb_eq in He. subst attempts.
    replace (S j - j)%nat with 1%nat by lia.
    assert (Hp : readyPromise (getOrCreateReadyPromise w) = Some Pending)
      by (unfold getOrCreateReadyPromise; now rewrite Hw).
    unfold usePrivyWidget.init_loop, window_PrivyWidgetReady. rewrite Hp.
    rewrite (bool_decide_eq_true_2 (is_Some (Some Pending))) by eauto.
    cbn [negb andb]. destruct fuel; reflexivity.
  - apply Nat.eqb_neq in He.
    rewrite IH by (auto; lia). rewrite <- app_assoc.
    replace (S j - attempts)%nat with (S (S j - S attempts)) by lia. reflexivity.
Qed.

(** X13. A producer that loads late is found: when the island script is
    evaluated while [init] sleeps for the [j+1]-th time, [j < 100], [init]
    sleeps 50 ms exactly [j+1] times, logs nothing, and goes on to await the
    promise.  This includes [j = 99]: the promise is looked up once more
    after the hundredth sleep. *)
Theorem late_island_is_found (j : nat) (w : World) :
  (j < 100)%nat ->
  readyPromise w = None ->
  globalApi w = None ->
  usePrivyWidget.init_run 100 (loadIslandAt j) w
  = Some (getOrCreateReadyPromise w, usePrivyWidget.AwaitingReady, repeat 50%nat (S j))
  /\ trace (getOrCreateReadyPromise w) = trace w
  /\ readyPromise (getOrCreateReadyPromise w) = Some Pending.
Proof.
  intros Hj Hw Hapi. unfold usePrivyWidget.init_run, usePrivyWidget.init.
  rewrite Hapi, andb_false_r.
  rewrite (init_poll_late j Hj 100 0 [] w Hw) by lia.
  rewrite Nat.sub_0_r. unfold getOrCreateReadyPromise. rewrite Hw. repeat split.
Qed.

Lemma late_island_is_found_witness :
  usePrivyWidget.init_run 100 (loadIslandAt 99) (pageLoad ∅)
  = Some (islandLoaded ∅, usePrivyWidget.AwaitingReady, repeat 50%nat 100).
Proof.
  exact (proj1 (late_island_is_found 99 (pageLoad ∅) ltac:(lia) eq_refl eq_refl)).
Defined.




(** ** The entry point *)

(** X15. [mount] never creates a root on a misconfigured page: when the
    mount point is missing, or the app id is missing or empty, it logs one
    error and leaves [root] as it was.  Otherwise it logs nothing and
    renders with the app id; the widget runs in strict last-login mode
    exactly when the page's configuration asks for it, and no external
    wallet is offered exactly when [externalWallets] is [false]; an absent
    configuration means neither.  [unmount] then drops the root. *)
Theorem mount_outcome (getElementById : string -> bool) (appId : option string)
    (config : option PrivyWidgetConfig) (elementId : string) (s : Island) :
  let s' := mount getElementById appId config elementId s in
  (getElementById elementId = false \/ appId = None \/ appId = Some "" ->
   root s' = root s /\ exists e, errors s' = errors s ++ [e])
  /\ (forall id,
        getElementById elementId = true -> appId = Some id -> id <> "" ->
        errors s' = errors s
        /\ exists r,
             root s' = Some r
             /\ root_appId r = id
             /\ config_lastLoginOnly (Some (root_config r)) = config_lastLoginOnly config
             /\ (root_walletList r = [] <->
                 exists c, config = Some c /\ externalWallets c = Some false)
             /\ root (unmount s') = None).
Proof.
  cbn zeta. unfold mount. split.
  - intros [Hmissing | [-> | ->]].
    + rewrite Hmissing. cbn. eauto.
    + destruct (getElementById elementId); cbn; eauto.
    + destruct (getElementById elementId); cbn; eauto.
  - intros id Hfound -> Hid. rewrite Hfound. cbn [negb].
    unfold truthy. apply String.eqb_neq in Hid. rewrite Hid. cbn [negb].
    split; [reflexivity|]. eexists. split; [reflexivity|]. cbn.
    split; [reflexivity|]. split; [|split; [|reflexivity]].
    + destruct config as [c|]; reflexivity.
    + destruct config as [c|]; cbn.
      * case_bool_decide as Hc; split.
        -- intros _. now exists c.
        -- reflexivity.
        -- discriminate.
        -- intros (c' & [= <-] & Hc'). contradiction.
      * split; [discriminate|]. intros (c & Hc & _). discriminate.
Qed.

(** ** Notifications *)

(** X16. A render in which the authenticated flag or the wallet array
    changed ends by calling every callback of the auth registry once, in
    subscription order, with the flag of that render; the registry it walks
    holds every callback that was subscribed before the render. *)
Theorem render_notifies_every_subscriber (config : option PrivyWidgetConfig)
    (i : RenderInput) (w : World) :
  lastDeps w = None \/ snd <$> lastDeps w <> Some (authenticated i) \/ is_Some (newWallets i) ->
  let w' := render config i w in
  (exists before,
      trace w'
      = before ++ map (fun cb => AuthCallbackCalled cb (authenticated i)) (authCallbacksRef w'))
  /\ (forall cb, cb ∈ authCallbacksRef w -> cb ∈ authCallbacksRef w')
  /\ (forall cb, cb ∈ authCallbacksRef w' -> AuthCallbackCalled cb (authenticated i) ∈ trace w').
Proof.
  intros Hchanged. cbn zeta.
  destruct (render_before_notify config i w) as (x & Hrender & _ & Hauth & _).
  assert (Hc : bool_decide (lastDeps w = None)
               || negb (bool_decide (snd <$> lastDeps w = Some (authenticated i)))
               || (bool_decide (lastDeps w = None) || bool_decide (is_Some (newWallets i)))
               = true).
  { destruct Hchanged as [H|[H|H]].
    - now rewrite (bool_decide_eq_true_2 _ H).
    - rewrite (bool_decide_eq_false_2 _ H). cbn. now rewrite orb_true_r.
    - rewrite (bool_decide_eq_true_2 _ H). now rewrite !orb_true_r. }
  rewrite Hc in Hrender. cbn [useEffect] in Hrender.
  assert (Htrace : trace (render config i w)
                   = trace x ++ map (fun cb => AuthCallbackCalled cb (authenticated i))
                                    (authCallbacksRef x)).
  { rewrite Hrender. apply effect_notifyAuth_trace. }
  assert (Hreg : authCallbacksRef (render config i w) = authCallbacksRef x).
  { rewrite Hrender. apply effect_notifyAuth_registry. }
  rewrite Hreg. split; [now exists (trace x)|]. split.
  - intros cb Hin.
    apply (Hauth (fun l => cb ∈ l)); [|exact Hin]. intros c l. apply Set_add_keeps.
  - intros cb Hin. rewrite Htrace. apply elem_of_app. right.
    apply list_elem_of_fmap. now exists cb.
Qed.

Lemma render_notifies_every_subscriber_witness :
  AuthCallbackCalled (ExternalAuthCallback 5) true
    ∈ trace (render None readyLoggedIn
               (fst (api_onAuthChange firstFacade (ExternalAuthCallback 5)
                       (render None readyLoggedOut (islandLoaded ∅))))).
Proof.
  refine (proj2 (proj2 (render_notifies_every_subscriber None readyLoggedIn
    (fst (api_onAuthChange firstFacade (ExternalAuthCallback 5)
            (render None readyLoggedOut (islandLoaded ∅)))) _)) (ExternalAuthCallback 5) _).
  - right. right. eexists. reflexivity.
  - vm_compute. left.
Defined.
